(** * pyscm: bit-packed HDF5 attribute classifications

    A shallow embedding of [pyscm/binary_attributes/classifications/hdf5.py]
    (Python 2, numpy, h5py) and the properties of its row bookkeeping,
    column extraction and masked column sums.

    Python integers are [Z].  Python lists that the code indexes or updates
    in place are [list]s read with stdpp's lookup and written with stdpp's
    insert, behind [getitem]/[setitem], which raise [IndexError] out of range
    and accept negative indices the way Python does.  Exceptions are the
    [Raise] branch of [result]; the method that assigns attributes of
    [self] runs in a state-and-exception monad that keeps the attributes
    written before a raise. *)

From stdpp Require Import base numbers list sorting.
From Stdlib Require Import ZArith Lia.

Local Open Scope Z_scope.

(** ** Exceptions and results *)

Inductive exn : Set :=
| IndexError | ValueError | TypeError | AttributeError | RuntimeError
| ZeroDivisionError.

Inductive result (A : Type) : Type :=
| Ok (a : A)
| Raise (e : exn).
Arguments Ok {A} a.
Arguments Raise {A} e.

Definition rbind {A B} (m : result A) (k : A -> result B) : result B :=
  match m with
  | Ok a => k a
  | Raise e => Raise e
  end.

Notation "x <- m ;; k" := (rbind m (fun x => k))
  (at level 100, m at next level, right associativity).

(** A [for] loop whose body may raise, threading the loop's variables. *)
Fixpoint for_each {A S} (xs : list A) (body : S -> A -> result S) (s : S)
  : result S :=
  match xs with
  | [] => Ok s
  | x :: xs' => s' <- body s x ;; for_each xs' body s'
  end.

(** A list comprehension whose element expression may raise. *)
Fixpoint comprehension {A B} (f : A -> result B) (xs : list A)
  : result (list B) :=
  match xs with
  | [] => Ok []
  | x :: xs' => y <- f x ;; ys <- comprehension f xs' ;; Ok (y :: ys)
  end.

(** [xrange(n)]: empty when [n <= 0]. *)
Definition xrange (n : Z) : list nat := seq 0 (Z.to_nat n).

(** ** Python lists *)

(** The position a Python index denotes in a sequence of length [n]. *)
Definition py_index (n : nat) (i : Z) : option nat :=
  if (0 <=? i) && (i <? Z.of_nat n) then Some (Z.to_nat i)
  else if (- Z.of_nat n <=? i) && (i <? 0) then Some (Z.to_nat (Z.of_nat n + i))
  else None.

Definition getitem {A} (l : list A) (i : Z) : result A :=
  match py_index (length l) i with
  | Some k => match l !! k with Some x => Ok x | None => Raise IndexError end
  | None => Raise IndexError
  end.

Definition setitem {A} (l : list A) (i : Z) (x : A) : result (list A) :=
  match py_index (length l) i with
  | Some k => Ok (<[k:=x]> l)
  | None => Raise IndexError
  end.

(** Bounds of the slice [a:b] of a sequence of length [n], clipped as Python
    clips them (a negative bound counts from the end). *)
Definition slice_bound (n : nat) (i : Z) : nat :=
  if i <? 0 then Z.to_nat (Z.max 0 (Z.of_nat n + i))
  else Z.to_nat (Z.min i (Z.of_nat n)).

Definition py_slice {A} (l : list A) (a b : Z) : list A :=
  let lo := slice_bound (length l) a in
  let hi := slice_bound (length l) b in
  take (hi - lo) (drop lo l).

(** [sum(l)] *)
Definition py_sum (l : list Z) : Z := foldr Z.add 0 l.

(** [sorted(set(l))]: the distinct elements of [l] in ascending order. *)
Definition sorted_set (l : list Z) : list Z := merge_sort Z.le (remove_dups l).

(** [int(ceil(float(a) / b))] and [int(ceil(1.0 * a / b))].  The quotient is
    the exact one: the operands are row and column counts, far below [2^53],
    where the double-precision quotient lies strictly between the same two
    integers as the exact one. *)
Definition ceil_div (a b : Z) : result Z :=
  if b =? 0 then Raise ZeroDivisionError else Ok (- ((- a) / b)).

(** ** numpy *)

Inductive np_dtype : Set := uint8 | uint16 | uint32 | uint64 | float64.

#[global] Instance np_dtype_eq_dec : EqDecision np_dtype.
Proof. solve_decision. Defined.

Definition dtype_bits (d : np_dtype) : Z :=
  match d with
  | uint8 => 8 | uint16 => 16 | uint32 => 32 | uint64 => 64 | float64 => 64
  end.

(** [np.iinfo(d).max] *)
Definition iinfo_max (d : np_dtype) : Z := 2 ^ dtype_bits d - 1.

(** [np.dtype("u" + str(itemsize))]: numpy has unsigned integers of 1, 2, 4
    and 8 bytes and answers "data type not understood" to any other size. *)
Definition np_dtype_u (itemsize : Z) : result np_dtype :=
  if itemsize =? 1 then Ok uint8
  else if itemsize =? 2 then Ok uint16
  else if itemsize =? 4 then Ok uint32
  else if itemsize =? 8 then Ok uint64
  else Raise TypeError.

(** [np.array(l, dtype=d)] for an unsigned [d]: the elements reduced to the
    width of [d]. *)
Definition np_array (l : list Z) (d : np_dtype) : list Z :=
  (fun x => x mod 2 ^ dtype_bits d) <$> l.

(** [np.zeros(n)] *)
Definition np_zeros (n : Z) : result (list Z) :=
  if n <? 0 then Raise ValueError else Ok (replicate (Z.to_nat n) 0).

(** [np.sort]: ascending, duplicates kept. *)
Definition np_sort (l : list Z) : list Z := merge_sort Z.le l.

(** [np.where(a != 0)[0]] *)
Definition np_where_nonzero (a : list Z) : list Z :=
  (fun p => Z.of_nat p.1) <$> filter (fun p => p.2 ≠ 0) (imap pair a).

(** ** [_column_sum_dtype] *)

Definition _column_sum_dtype (shape0 : Z) : np_dtype :=
  if shape0 <=? iinfo_max uint8 then uint8
  else if shape0 <=? iinfo_max uint16 then uint16
  else if shape0 <=? iinfo_max uint32 then uint32
  else uint64.

(** ** [build_row_mask]

    The module-level function and the one nested in [sum_rows] have the same
    text.  [idx / mask_n_bits] is Python 2's floor division, [Z.div]. *)

Definition build_row_mask_step (mask_n_bits : Z) (masks : list Z) (idx : Z)
  : result (list Z) :=
  let example_mask := idx / mask_n_bits in
  let example_mask_idx := mask_n_bits - (idx - mask_n_bits * example_mask) - 1 in
  old <- getitem masks example_mask ;;
  setitem masks example_mask (Z.lor old (Z.shiftl 1 example_mask_idx)).

Definition build_row_mask (example_idx : list Z) (n_examples mask_n_bits : Z)
  : result (list Z) :=
  if negb (bool_decide (mask_n_bits ∈ [8; 16; 32; 64; 128])) then Raise ValueError
  else
    n_masks <- ceil_div n_examples mask_n_bits ;;
    let masks := replicate (Z.to_nat n_masks) 0 in
    masks <- for_each example_idx (build_row_mask_step mask_n_bits) masks ;;
    dtype <- np_dtype_u (mask_n_bits / 8) ;;
    Ok (np_array masks dtype).

(** ** h5py datasets

    A dataset is a rectangular array of packed words read by selection; the
    code never writes to it.  Row [p] of the array packs, for every column,
    the bits of [dataset_pack_size] consecutive logical rows. *)

Record Dataset : Type := {
  shape : nat * nat;
  dtype : np_dtype;
  chunks : option (positive * positive);
  words : nat -> nat -> Z;
}.

(** [dataset[:, column]]; a negative column counts from the last one, and a
    column outside the dataset raises (an [IndexError] in the words of the
    specification). *)
Definition h5_column (d : Dataset) (column : Z) : result (list Z) :=
  match py_index (shape d).2 column with
  | Some c => Ok ((fun p => words d p c) <$> seq 0 (shape d).1)
  | None => Raise IndexError
  end.

(** [dataset[rows, a:b]] for an array [rows] of row numbers. *)
Definition h5_block (d : Dataset) (rows : list Z) (a b : Z)
  : result (list (list Z)) :=
  let lo := slice_bound (shape d).2 a in
  let hi := slice_bound (shape d).2 b in
  comprehension (fun p =>
    if (0 <=? p) && (p <? Z.of_nat (shape d).1)
    then Ok ((fun c => words d (Z.to_nat p) c) <$> seq lo (hi - lo))
    else Raise IndexError) rows.

(** Modelled from the spec: [_unpack_binary_bytes_from_ints] of [pyscm.utils],
    "pure bit-unpacking of a row of packed words into a boolean sequence",
    "one bit per physical row".  Each word gives [bits] booleans, the most
    significant bit first, which is the order [build_row_mask] numbers the
    rows of a word in; the width is that of the array's element type. *)
Definition _unpack_binary_bytes_from_ints (bits : Z) (a : list Z) : list bool :=
  a ≫= fun w => (fun k => Z.testbit w (bits - 1 - Z.of_nat k)) <$> seq 0 (Z.to_nat bits).

(** The number of set bits among the low [bits] bits of [w]. *)
Definition popcount (bits : Z) (w : Z) : Z :=
  Z.of_nat (length (filter (fun k => Z.testbit w (Z.of_nat k) = true) (seq 0 (Z.to_nat bits)))).

(** Modelled from the spec: [inplace_popcount_32] and [inplace_popcount_64]
    of the [popcount] extension module: "given a loaded block and the
    per-physical-row mask for that block's row range", exclude "bits belonging
    to masked-out rows and reduce each remaining row to its per-column bit
    contribution such that a subsequent column-wise sum over the block yields
    the masked population count".  Row [j] of the block is masked with word
    [j] of [row_mask] and each of its words replaced by its bit count. *)
Definition inplace_popcount (bits : Z) (block : list (list Z)) (row_mask : list Z)
  : result (list (list Z)) :=
  comprehension (fun '(j, row) =>
    m <- getitem row_mask (Z.of_nat j) ;;
    Ok ((fun w => popcount bits (Z.land w m)) <$> row)) (imap pair block).

(** [np.sum(block, axis=0)] for a block of [ncols] columns. *)
Definition np_sum_axis0 (ncols : nat) (block : list (list Z)) : list Z :=
  foldl (zip_with Z.add) (replicate ncols 0) block.

(** [a[lo:] = False] on a boolean array. *)
Definition clear_from (a : list bool) (lo : Z) : list bool :=
  let k := slice_bound (length a) lo in
  take k a ++ replicate (length a - k) false.

(** [a[idx] = False] for a list [idx] of positions. *)
Definition clear_at (a : list bool) (idx : list Z) : result (list bool) :=
  for_each idx (fun a i => setitem a i false) a.

(** [a[mask]] for a boolean array [mask] of the length of [a]. *)
Definition np_select {A} (a : list A) (mask : list bool) : result (list A) :=
  if bool_decide (length a = length mask)
  then Ok ((filter (fun p => p.2 = true) (zip a mask)).*1)
  else Raise IndexError.

(** [a[lo:hi] = v]: the value has the length of the slice, or one element
    that numpy repeats over it. *)
Definition np_assign_slice (a : list Z) (lo hi : Z) (v : list Z) : result (list Z) :=
  let l := slice_bound (length a) lo in
  let h := slice_bound (length a) hi in
  let n := (h - l)%nat in
  if bool_decide (length v = n) then Ok (take l a ++ v ++ drop (l + n) a)
  else match v with
       | [x] => Ok (take l a ++ replicate n x ++ drop (l + n) a)
       | _ => Raise ValueError
       end.

(** [a[lo:hi] += v] on an array of unsigned [d]: the sums wrap to its width. *)
Definition np_iadd_slice (d : np_dtype) (a : list Z) (lo hi : Z) (v : list Z)
  : result (list Z) :=
  let l := slice_bound (length a) lo in
  let h := slice_bound (length a) hi in
  let n := (h - l)%nat in
  let add := zip_with (fun x y => (x + y) mod 2 ^ dtype_bits d) in
  if bool_decide (length v = n)
  then Ok (take l a ++ add (take n (drop l a)) v ++ drop (l + n) a)
  else match v with
       | [x] => Ok (take l a ++ add (take n (drop l a)) (replicate n x) ++ drop (l + n) a)
       | _ => Raise ValueError
       end.

(** ** The object *)

(** The attributes of an [HDF5PackedAttributeClassifications].  A block size
    is [None] when the attribute was never assigned; [inplace_popcount] is
    the primitive of width [dataset_pack_size]. *)
Record HDF5PackedAttributeClassifications : Type := {
  datasets : list Dataset;
  dataset_initial_n_rows : list Z;
  dataset_n_rows : list Z;
  initial_total_n_rows : Z;
  total_n_rows : Z;
  dataset_n_cols : Z;
  dataset_dtype : np_dtype;
  dataset_removed_rows : list (list Z);
  row_block_size : option Z;
  col_block_size : option Z;
  dataset_stop_example : list Z;
  dataset_start_example : list Z;
  dataset_pack_size : Z;
}.

Abbreviation HDF5 := HDF5PackedAttributeClassifications.

(** Reading an attribute that was never assigned. *)
Definition getattr {A} (a : option A) : result A :=
  match a with Some x => Ok x | None => Raise AttributeError end.

(** [self.shape] *)
Definition shape_of (self : HDF5) : Z * Z :=
  (total_n_rows self, dataset_n_cols self).

(** *** [__init__] *)

Definition init_stop (n : nat) (n_rows : list Z) : result (list Z) :=
  for_each (seq 0 n) (fun stop i =>
    previous_dataset_stop <-
      (if bool_decide (i = 0%nat) then Ok 0 else getitem stop (Z.of_nat i - 1)) ;;
    n_i <- getitem n_rows (Z.of_nat i) ;;
    setitem stop (Z.of_nat i) (previous_dataset_stop + n_i))
  (replicate n 0).

Definition init_start (n : nat) (stop : list Z) : result (list Z) :=
  for_each (seq 0 n) (fun start i =>
    if bool_decide (i = 0%nat) then setitem start (Z.of_nat i) 0
    else s <- getitem stop (Z.of_nat i - 1) ;; setitem start (Z.of_nat i) s)
  (replicate n 0).

Definition __init__ (datasets : list Dataset) (n_rows : list Z)
    (row_block_size col_block_size : option Z) : result HDF5 :=
  first <- getitem datasets 0 ;;
  let n_cols := Z.of_nat (shape first).2 in
  let dt := dtype first in
  rbs <- match row_block_size with
         | None => match chunks first with
                   | Some c => Ok (Some (Z.pos c.1))
                   | None => Raise TypeError
                   end
         | Some _ => Ok None
         end ;;
  cbs <- match col_block_size with
         | None => match chunks first with
                   | Some c => Ok (Some (Z.pos c.2))
                   | None => Raise TypeError
                   end
         | Some _ => Ok None
         end ;;
  _ <- for_each (drop 1 datasets) (fun _ dataset =>
         if negb (bool_decide (Z.of_nat (shape dataset).2 = n_cols)) then Raise RuntimeError
         else if negb (bool_decide (dtype dataset = dt)) then Raise RuntimeError
         else Ok tt) tt ;;
  stop <- init_stop (length datasets) n_rows ;;
  start <- init_start (length datasets) stop ;;
  pack <- match dt with
          | uint32 => Ok 32
          | uint64 => Ok 64
          | _ => Raise ValueError
          end ;;
  Ok {| datasets := datasets;
        dataset_initial_n_rows := n_rows;
        dataset_n_rows := n_rows;
        initial_total_n_rows := py_sum n_rows;
        total_n_rows := py_sum n_rows;
        dataset_n_cols := n_cols;
        dataset_dtype := dt;
        dataset_removed_rows := replicate (length datasets) [];
        row_block_size := rbs;
        col_block_size := cbs;
        dataset_stop_example := stop;
        dataset_start_example := start;
        dataset_pack_size := pack |}.

(** *** [_get_row_dataset] *)

Fixpoint get_row_dataset_from (self : HDF5) (row_idx : Z) (idxs : list nat)
  : result Z :=
  match idxs with
  | [] => Ok (-1)
  | i :: idxs' =>
      stop <- getitem (dataset_stop_example self) (Z.of_nat i) ;;
      if stop >? row_idx then
        start <- getitem (dataset_start_example self) (Z.of_nat i) ;;
        if row_idx >=? start then Ok (Z.of_nat i)
        else get_row_dataset_from self row_idx idxs'
      else get_row_dataset_from self row_idx idxs'
  end.

Definition _get_row_dataset (self : HDF5) (row_idx : Z) : result Z :=
  get_row_dataset_from self row_idx (seq 0 (length (datasets self))).

(** *** [get_column] *)

Definition get_column_dataset (self : HDF5) (column : Z) (res : list Z)
    (ix : nat * Dataset) : result (list Z) :=
  let '(i, dataset) := ix in
  let row_mask :=
    replicate ((shape dataset).1 * Z.to_nat (dataset_pack_size self)) true in
  initial <- getitem (dataset_initial_n_rows self) (Z.of_nat i) ;;
  let row_mask := clear_from row_mask initial in
  removed <- getitem (dataset_removed_rows self) (Z.of_nat i) ;;
  row_mask <- clear_at row_mask removed ;;
  packed <- h5_column dataset column ;;
  kept <- np_select (_unpack_binary_bytes_from_ints (dataset_pack_size self) packed) row_mask ;;
  start <- getitem (dataset_start_example self) (Z.of_nat i) ;;
  stop <- getitem (dataset_stop_example self) (Z.of_nat i) ;;
  np_assign_slice res start stop (Z.b2z <$> kept).

Definition get_column (self : HDF5) (column : Z) : result (list Z) :=
  res <- np_zeros (total_n_rows self) ;;
  for_each (imap pair (datasets self)) (get_column_dataset self column) res.

(** *** Methods that assign attributes

    A method body is a function of the object's attributes that gives an
    outcome and the attributes as the body left them, also when it raises. *)

Definition method (A : Type) : Type := HDF5 -> result A * HDF5.

Definition m_ret {A} (a : A) : method A := fun self => (Ok a, self).

Definition m_bind {A B} (m : method A) (k : A -> method B) : method B :=
  fun self =>
    match m self with
    | (Ok a, self') => k a self'
    | (Raise e, self') => (Raise e, self')
    end.

Notation "x <~ m ;; k" := (m_bind m (fun x => k))
  (at level 100, m at next level, right associativity).

(** An expression over the attributes. *)
Definition m_read {A} (f : HDF5 -> result A) : method A :=
  fun self => (f self, self).

Fixpoint m_for {A} (xs : list A) (body : A -> method unit) : method unit :=
  match xs with
  | [] => m_ret tt
  | x :: xs' => _ <~ body x ;; m_for xs' body
  end.

Definition set_dataset_removed_rows (v : list (list Z)) (self : HDF5) : HDF5 :=
  {| datasets := datasets self;
     dataset_initial_n_rows := dataset_initial_n_rows self;
     dataset_n_rows := dataset_n_rows self;
     initial_total_n_rows := initial_total_n_rows self;
     total_n_rows := total_n_rows self;
     dataset_n_cols := dataset_n_cols self;
     dataset_dtype := dataset_dtype self;
     dataset_removed_rows := v;
     row_block_size := row_block_size self;
     col_block_size := col_block_size self;
     dataset_stop_example := dataset_stop_example self;
     dataset_start_example := dataset_start_example self;
     dataset_pack_size := dataset_pack_size self |}.

Definition set_dataset_n_rows (v : list Z) (self : HDF5) : HDF5 :=
  {| datasets := datasets self;
     dataset_initial_n_rows := dataset_initial_n_rows self;
     dataset_n_rows := v;
     initial_total_n_rows := initial_total_n_rows self;
     total_n_rows := total_n_rows self;
     dataset_n_cols := dataset_n_cols self;
     dataset_dtype := dataset_dtype self;
     dataset_removed_rows := dataset_removed_rows self;
     row_block_size := row_block_size self;
     col_block_size := col_block_size self;
     dataset_stop_example := dataset_stop_example self;
     dataset_start_example := dataset_start_example self;
     dataset_pack_size := dataset_pack_size self |}.

Definition set_dataset_stop_example (v : list Z) (self : HDF5) : HDF5 :=
  {| datasets := datasets self;
     dataset_initial_n_rows := dataset_initial_n_rows self;
     dataset_n_rows := dataset_n_rows self;
     initial_total_n_rows := initial_total_n_rows self;
     total_n_rows := total_n_rows self;
     dataset_n_cols := dataset_n_cols self;
     dataset_dtype := dataset_dtype self;
     dataset_removed_rows := dataset_removed_rows self;
     row_block_size := row_block_size self;
     col_block_size := col_block_size self;
     dataset_stop_example := v;
     dataset_start_example := dataset_start_example self;
     dataset_pack_size := dataset_pack_size self |}.

Definition set_dataset_start_example (v : list Z) (self : HDF5) : HDF5 :=
  {| datasets := datasets self;
     dataset_initial_n_rows := dataset_initial_n_rows self;
     dataset_n_rows := dataset_n_rows self;
     initial_total_n_rows := initial_total_n_rows self;
     total_n_rows := total_n_rows self;
     dataset_n_cols := dataset_n_cols self;
     dataset_dtype := dataset_dtype self;
     dataset_removed_rows := dataset_removed_rows self;
     row_block_size := row_block_size self;
     col_block_size := col_block_size self;
     dataset_stop_example := dataset_stop_example self;
     dataset_start_example := v;
     dataset_pack_size := dataset_pack_size self |}.

Definition set_total_n_rows (v : Z) (self : HDF5) : HDF5 :=
  {| datasets := datasets self;
     dataset_initial_n_rows := dataset_initial_n_rows self;
     dataset_n_rows := dataset_n_rows self;
     initial_total_n_rows := initial_total_n_rows self;
     total_n_rows := v;
     dataset_n_cols := dataset_n_cols self;
     dataset_dtype := dataset_dtype self;
     dataset_removed_rows := dataset_removed_rows self;
     row_block_size := row_block_size self;
     col_block_size := col_block_size self;
     dataset_stop_example := dataset_stop_example self;
     dataset_start_example := dataset_start_example self;
     dataset_pack_size := dataset_pack_size self |}.

(** [self.attr[i] = x] for a list attribute. *)
Definition m_setitem {A} (attr : HDF5 -> list A) (set : list A -> HDF5 -> HDF5)
    (i : Z) (x : A) : method unit :=
  fun self =>
    match setitem (attr self) i x with
    | Ok l => (Ok tt, set l self)
    | Raise e => (Raise e, self)
    end.

(** *** [remove_rows] *)

(** The first loop: the rows to remove of each dataset, in a local list. *)
Definition remove_rows_locate (self : HDF5) (rows : list Z)
  : result (list (list Z)) :=
  for_each rows (fun dataset_removed_rows row_idx =>
    ds_idx <- _get_row_dataset self row_idx ;;
    if ds_idx =? -1 then Raise IndexError
    else
      l <- getitem dataset_removed_rows ds_idx ;;
      start <- getitem (dataset_start_example self) ds_idx ;;
      setitem dataset_removed_rows ds_idx (l ++ [row_idx - start]))
  (replicate (length (datasets self)) []).

(** The body of the second loop. *)
Definition remove_rows_update (new : list (list Z)) (i : nat) : method unit :=
  let previous_stop : method Z :=
    if bool_decide (i = 0%nat) then m_ret 0
    else m_read (fun self => getitem (dataset_stop_example self) (Z.of_nat i - 1)) in
  new_i <~ m_read (fun _ => getitem new (Z.of_nat i)) ;;
  _ <~ (if bool_decide (0 < length new_i)%nat then
          old <~ m_read (fun self => getitem (dataset_removed_rows self) (Z.of_nat i)) ;;
          _ <~ m_setitem dataset_removed_rows set_dataset_removed_rows (Z.of_nat i)
                 (sorted_set (old ++ new_i)) ;;
          initial <~ m_read (fun self => getitem (dataset_initial_n_rows self) (Z.of_nat i)) ;;
          removed <~ m_read (fun self => getitem (dataset_removed_rows self) (Z.of_nat i)) ;;
          m_setitem dataset_n_rows set_dataset_n_rows (Z.of_nat i)
            (initial - Z.of_nat (length removed))
        else m_ret tt) ;;
  n <~ m_read (fun self => getitem (dataset_n_rows self) (Z.of_nat i)) ;;
  prev <~ previous_stop ;;
  _ <~ m_setitem dataset_stop_example set_dataset_stop_example (Z.of_nat i) (n + prev) ;;
  prev <~ previous_stop ;;
  m_setitem dataset_start_example set_dataset_start_example (Z.of_nat i) prev.

Definition remove_rows (rows : list Z) : method unit :=
  dataset_removed_rows <~ m_read (fun self => remove_rows_locate self rows) ;;
  n <~ m_read (fun self => Ok (length (datasets self))) ;;
  _ <~ m_for (seq 0 n) (remove_rows_update dataset_removed_rows) ;;
  fun self => (Ok tt, set_total_n_rows (py_sum (dataset_n_rows self)) self).

(** *** [sum_rows] *)

(** The dataset and the row within it of every requested row.  The [print]
    statement of this loop writes to the standard output only. *)
Definition sum_rows_locate (self : HDF5) (rows : list Z)
  : result (list (list Z)) :=
  for_each rows (fun dataset_relative_rows row_idx =>
    ds_idx <- _get_row_dataset self row_idx ;;
    if negb (ds_idx =? -1) then
      start <- getitem (dataset_start_example self) ds_idx ;;
      let relative_row_idx := row_idx - start in
      removed <- getitem (dataset_removed_rows self) ds_idx ;;
      let deleted_row_offset :=
        Z.of_nat (length (filter (fun x => x <= relative_row_idx) removed)) in
      let relative_row_idx := relative_row_idx + deleted_row_offset in
      l <- getitem dataset_relative_rows ds_idx ;;
      setitem dataset_relative_rows ds_idx (l ++ [relative_row_idx])
    else Raise IndexError)
  (replicate (length (datasets self)) []).

Definition sum_rows_masks (self : HDF5) (dataset_relative_rows : list (list Z))
  : result (list (list Z)) :=
  comprehension (fun i : nat =>
    rel <- getitem dataset_relative_rows (Z.of_nat i) ;;
    if bool_decide (0 < length rel)%nat then
      rel <- getitem dataset_relative_rows (Z.of_nat i) ;;
      n <- getitem (dataset_n_rows self) (Z.of_nat i) ;;
      build_row_mask rel n (dataset_pack_size self)
    else Ok [])
  (seq 0 (length (datasets self))).

(** One block: load, count the bits under the mask, add to the result. *)
Definition sum_rows_block (self : HDF5) (dataset : Dataset)
    (row_mask rows_to_load : list Z) (result_dtype : np_dtype)
    (row_block col_block : nat) (res : list Z) : result (list Z) :=
  rbs <- getattr (row_block_size self) ;;
  cbs <- getattr (col_block_size self) ;;
  let r0 := Z.of_nat row_block * rbs in
  let r1 := (Z.of_nat row_block + 1) * rbs in
  let c0 := Z.of_nat col_block * cbs in
  let c1 := (Z.of_nat col_block + 1) * cbs in
  block <- h5_block dataset (py_slice rows_to_load r0 r1) c0 c1 ;;
  block <- inplace_popcount (dataset_pack_size self) block row_mask ;;
  let ncols := (slice_bound (shape dataset).2 c1 - slice_bound (shape dataset).2 c0)%nat in
  np_iadd_slice result_dtype res c0 c1 (np_sum_axis0 ncols block).

Definition sum_rows_dataset (self : HDF5) (dataset_row_masks : list (list Z))
    (n_col_blocks : Z) (result_dtype : np_dtype) (res : list Z)
    (ix : nat * Dataset) : result (list Z) :=
  let '(i, dataset) := ix in
  row_mask <- getitem dataset_row_masks (Z.of_nat i) ;;
  if bool_decide (length row_mask = 0%nat) then Ok res
  else
    let rows_to_load := np_where_nonzero row_mask in
    rbs <- getattr (row_block_size self) ;;
    n_row_blocks <- ceil_div (Z.of_nat (length rows_to_load)) rbs ;;
    for_each (xrange n_row_blocks) (fun res row_block =>
      for_each (xrange n_col_blocks) (fun res col_block =>
        sum_rows_block self dataset row_mask rows_to_load result_dtype
          row_block col_block res) res) res.

(** The streaming of the blocks, from the masks on. *)
Definition sum_rows_stream (self : HDF5) (dataset_row_masks : list (list Z))
    (result_dtype : np_dtype) (res : list Z) : result (list Z) :=
  cbs <- getattr (col_block_size self) ;;
  n_col_blocks <- ceil_div (dataset_n_cols self) cbs ;;
  for_each (imap pair (datasets self))
    (sum_rows_dataset self dataset_row_masks n_col_blocks result_dtype) res.

(** The result is the array's element type and its elements. *)
Definition sum_rows (self : HDF5) (rows : list Z) : result (np_dtype * list Z) :=
  let result_dtype := _column_sum_dtype (Z.of_nat (length rows)) in
  res <- np_zeros (dataset_n_cols self) ;;
  let rows := np_sort rows in
  dataset_relative_rows <- sum_rows_locate self rows ;;
  dataset_row_masks <- sum_rows_masks self dataset_relative_rows ;;
  res <- sum_rows_stream self dataset_row_masks result_dtype res ;;
  Ok (result_dtype, res).

(** A sequence of [remove_rows] calls on one object, whatever their
    outcomes. *)
Fixpoint remove_rows_calls (calls : list (list Z)) (self : HDF5) : HDF5 :=
  match calls with
  | [] => self
  | rows :: calls' => remove_rows_calls calls' (remove_rows rows self).2
  end.

(** * Specifications *)

(** The attributes outside the row bookkeeping. *)
Record same_frame (a b : HDF5) : Prop := {
  frame_datasets : datasets b = datasets a;
  frame_initial_n_rows : dataset_initial_n_rows b = dataset_initial_n_rows a;
  frame_initial_total : initial_total_n_rows b = initial_total_n_rows a;
  frame_n_cols : dataset_n_cols b = dataset_n_cols a;
  frame_dtype : dataset_dtype b = dataset_dtype a;
  frame_pack_size : dataset_pack_size b = dataset_pack_size a;
  frame_row_block_size : row_block_size b = row_block_size a;
  frame_col_block_size : col_block_size b = col_block_size a;
}.

Definition keeps_frame {A} (m : method A) : Prop :=
  forall self, same_frame self (m self).2.


(** The stop and start offsets of consecutive ranges of [ns] rows, the first
    range starting at [acc]. *)
Fixpoint stops_from (acc : Z) (ns : list Z) : list Z :=
  match ns with
  | [] => []
  | n :: ns' => (acc + n) :: stops_from (acc + n) ns'
  end.

Fixpoint starts_from (acc : Z) (ns : list Z) : list Z :=
  match ns with
  | [] => []
  | n :: ns' => acc :: starts_from (acc + n) ns'
  end.

(** The first range [start <= r < stop] that holds [r]. *)
Fixpoint find_range (r : Z) (ranges : list (Z * Z)) : option nat :=
  match ranges with
  | [] => None
  | (s, e) :: ranges' =>
      if bool_decide (s <= r < e) then Some 0%nat else S <$> find_range r ranges'
  end.

(** Arguments of the constructor that describe a collection: one declared
    row count per dataset, between zero and the rows the dataset's words can
    hold. *)
Definition wf_args (datasets : list Dataset) (n_rows : list Z) : Prop :=
  Forall2 (fun d n => 0 <= n <= Z.of_nat (shape d).1 * dtype_bits (dtype d))
    datasets n_rows.

(** The objects a program can hold: constructed, then changed by successful
    [remove_rows] calls only. *)
Inductive reachable : HDF5 -> Prop :=
| reachable_init datasets n_rows row_block_size col_block_size self :
    wf_args datasets n_rows ->
    __init__ datasets n_rows row_block_size col_block_size = Ok self ->
    reachable self
| reachable_remove rows self self' :
    reachable self ->
    remove_rows rows self = (Ok tt, self') ->
    reachable self'.

(** What holds of the attributes of every reachable object. *)
Record Inv (self : HDF5) : Prop := {
  inv_datasets : datasets self <> [];
  inv_len_initial : length (dataset_initial_n_rows self) = length (datasets self);
  inv_len_removed : length (dataset_removed_rows self) = length (datasets self);
  inv_removed :
    Forall2 (fun initial removed =>
               0 <= initial /\ NoDup removed /\ Forall (fun x => 0 <= x < initial) removed)
      (dataset_initial_n_rows self) (dataset_removed_rows self);
  inv_n_rows :
    dataset_n_rows self =
    zip_with (fun initial removed => initial - Z.of_nat (length removed))
      (dataset_initial_n_rows self) (dataset_removed_rows self);
  inv_stop : dataset_stop_example self = stops_from 0 (dataset_n_rows self);
  inv_start : dataset_start_example self = starts_from 0 (dataset_n_rows self);
  inv_total : total_n_rows self = py_sum (dataset_n_rows self);
  inv_capacity :
    Forall2 (fun d initial => initial <= Z.of_nat (shape d).1 * dataset_pack_size self)
      (datasets self) (dataset_initial_n_rows self);
  inv_n_cols :
    Forall (fun d => Z.of_nat (shape d).2 = dataset_n_cols self) (datasets self);
  inv_pack_size : dataset_pack_size self = 32 \/ dataset_pack_size self = 64;
}.

(** The dataset and the index relative to its start offset that the first
    loop of [remove_rows] computes for a row. *)
Definition locate_relative (self : HDF5) (row_idx : Z) : result (Z * Z) :=
  ds_idx <- _get_row_dataset self row_idx ;;
  if ds_idx =? -1 then Raise IndexError
  else
    start <- getitem (dataset_start_example self) ds_idx ;;
    Ok (ds_idx, row_idx - start).

(** The removed rows of a dataset after [new] is merged into [old]. *)
Definition merge_removed (old new : list Z) : list Z :=
  if bool_decide (0 < length new)%nat then sorted_set (old ++ new) else old.

(** The attributes after the second loop of [remove_rows] has merged the
    local lists [new]. *)
Definition remove_rows_result (self : HDF5) (new : list (list Z)) : HDF5 :=
  let removed := zip_with merge_removed (dataset_removed_rows self) new in
  let n_rows :=
    zip_with (fun initial removed => initial - Z.of_nat (length removed))
      (dataset_initial_n_rows self) removed in
  {| datasets := datasets self;
     dataset_initial_n_rows := dataset_initial_n_rows self;
     dataset_n_rows := n_rows;
     initial_total_n_rows := initial_total_n_rows self;
     total_n_rows := py_sum n_rows;
     dataset_n_cols := dataset_n_cols self;
     dataset_dtype := dataset_dtype self;
     dataset_removed_rows := removed;
     row_block_size := row_block_size self;
     col_block_size := col_block_size self;
     dataset_stop_example := stops_from 0 n_rows;
     dataset_start_example := starts_from 0 n_rows;
     dataset_pack_size := dataset_pack_size self |}.

(** Rows within a dataset's current row count, per dataset. *)
Definition within_rows (self : HDF5) (acc : list (list Z)) : Prop :=
  Forall2 (fun n l => Forall (fun x => 0 <= x < n) l) (dataset_n_rows self) acc.


(** ** The collection of the module's script

    Three datasets of three packed rows and three columns, declared with 96
    rows each. *)

Definition script_dataset (rows : list (list Z)) : Dataset :=
  {| shape := (3%nat, 3%nat);
     dtype := uint32;
     chunks := Some (1%positive, 3%positive);
     words := fun p c => default 0 (row ← rows !! p; row !! c) |}.

Definition script_ds1 : Dataset := script_dataset [[1; 0; 0]; [0; 1; 0]; [1; 1; 1]].
Definition script_ds2 : Dataset := script_dataset [[0; 1; 0]; [0; 1; 1]; [1; 1; 1]].
Definition script_ds3 : Dataset := script_dataset [[1; 1; 0]; [1; 0; 1]; [1; 0; 0]].

Definition script_ac : HDF5 :=
  {| datasets := [script_ds1; script_ds2; script_ds3];
     dataset_initial_n_rows := [96; 96; 96];
     dataset_n_rows := [96; 96; 96];
     initial_total_n_rows := 288;
     total_n_rows := 288;
     dataset_n_cols := 3;
     dataset_dtype := uint32;
     dataset_removed_rows := [[]; []; []];
     row_block_size := Some 1;
     col_block_size := Some 3;
     dataset_stop_example := [96; 192; 288];
     dataset_start_example := [0; 96; 192];
     dataset_pack_size := 32 |}.

(** The script's collection after its [remove_rows] call. *)
Definition script_removed : HDF5 :=
  (remove_rows [0; 31; 97; 145; 234] script_ac).2.

(** ** The rows a column keeps *)

(** The bits of a column of a dataset, one per physical row. *)
Definition physical_column (self : HDF5) (d : Dataset) (column : Z) : list bool :=
  _unpack_binary_bytes_from_ints (dataset_pack_size self)
    ((fun p => words d p (Z.to_nat column)) <$> seq 0 (shape d).1).

(** Physical row [p] of a dataset is kept when it is below the declared row
    count and was not removed. *)
Definition keep_mask (n : nat) (initial : Z) (removed : list Z) : list bool :=
  (fun p => bool_decide (p < initial /\ p ∉ removed)) <$> seqZ 0 (Z.of_nat n).

Definition surviving {A} (initial : Z) (removed : list Z) (bits : list A) : list A :=
  (filter (fun p => p.2 = true) (zip bits (keep_mask (length bits) initial removed))).*1.

(** The kept rows of every dataset, in dataset order. *)
Definition column_rows (self : HDF5) (column : Z) : list Z :=
  mjoin (zip_with
    (fun d ir => Z.b2z <$> surviving ir.1 ir.2 (physical_column self d column))
    (datasets self)
    (zip (dataset_initial_n_rows self) (dataset_removed_rows self))).

(** ** Rows listed more than once *)

(** The dataset and the physical row within it that the first loop of
    [sum_rows] computes for a row. *)
Definition locate_physical (self : HDF5) (row_idx : Z) : result (Z * Z) :=
  ds_idx <- _get_row_dataset self row_idx ;;
  if negb (ds_idx =? -1) then
    start <- getitem (dataset_start_example self) ds_idx ;;
    let relative_row_idx := row_idx - start in
    removed <- getitem (dataset_removed_rows self) ds_idx ;;
    let deleted_row_offset :=
      Z.of_nat (length (filter (fun x => x <= relative_row_idx) removed)) in
    Ok (ds_idx, relative_row_idx + deleted_row_offset)
  else Raise IndexError.

(** The rows of each of [n] datasets among located rows, in their order. *)
Definition distribute (n : nat) (pairs : list (Z * Z)) : list (list Z) :=
  (fun i : nat => (filter (fun q => q.1 = Z.of_nat i) pairs).*2) <$> seq 0 n.

(** [repeats l l']: [l'] is [l] with some elements written several times in
    a row. *)
Inductive repeats {A} : list A -> list A -> Prop :=
| repeats_nil : repeats [] []
| repeats_cons x l l' : repeats l l' -> repeats (x :: l) (x :: l')
| repeats_again x l l' : repeats l (x :: l') -> repeats l (x :: x :: l').

(** A list without its immediate repetitions. *)
Fixpoint dedup_adj (l : list Z) : list Z :=
  match l with
  | [] => []
  | x :: l' =>
      match l' with
      | [] => [x]
      | y :: _ => if bool_decide (x = y) then dedup_adj l' else x :: dedup_adj l'
      end
  end.

(** Two outcomes that raise the same exception or return related values. *)
Definition result_rel {A B} (R : A -> B -> Prop) (r : result A) (r' : result B) : Prop :=
  match r, r' with
  | Ok a, Ok b => R a b
  | Raise e, Raise e' => e = e'
  | _, _ => False
  end.

(** The masks [sum_rows] streams with, from the rows as sorted. *)
Definition sum_rows_row_masks (self : HDF5) (rows : list Z) : result (list (list Z)) :=
  dataset_relative_rows <- sum_rows_locate self rows ;;
  sum_rows_masks self dataset_relative_rows.

(** ** Further collections *)

(** The script's datasets constructed with both block sizes given. *)
Definition script_ac_blocks : result HDF5 :=
  __init__ [script_ds1; script_ds2; script_ds3] [96; 96; 96] (Some 1) (Some 3).

(** The script's collection after removing the first 64 rows. *)
Definition script_removed_64 : HDF5 := (remove_rows (seqZ 0 64) script_ac).2.

(** One dataset of nine packed rows and one column with every bit set,
    declared with 288 rows and chunked word by word. *)
Definition ones_dataset : Dataset :=
  {| shape := (9%nat, 1%nat);
     dtype := uint32;
     chunks := Some (1%positive, 1%positive);
     words := fun _ _ => 4294967295 |}.

Definition ones_ac : HDF5 :=
  {| datasets := [ones_dataset];
     dataset_initial_n_rows := [288];
     dataset_n_rows := [288];
     initial_total_n_rows := 288;
     total_n_rows := 288;
     dataset_n_cols := 1;
     dataset_dtype := uint32;
     dataset_removed_rows := [[]];
     row_block_size := Some 1;
     col_block_size := Some 1;
     dataset_stop_example := [288];
     dataset_start_example := [0];
     dataset_pack_size := 32 |}.

(** The 32 rows of the first word and the first row of each other word. *)
Definition ones_rows : list Z :=
  seqZ 0 32 ++ [32; 64; 96; 128; 160; 192; 224; 256].

(** The number of rows of [rows] whose bit [get_column] reports as set. *)
Definition count_set (column : list Z) (rows : list Z) : Z :=
  Z.of_nat (length (filter (fun r => column !! Z.to_nat r = Some 1) rows)).

(** ** Deleting positions from a column *)

(** The elements of [l] whose position, counted from [o], satisfies [P]. *)
Fixpoint keep_from {A} (P : nat -> bool) (o : nat) (l : list A) : list A :=
  match l with
  | [] => []
  | x :: l => if P o then x :: keep_from P (S o) l else keep_from P (S o) l
  end.

(** The elements of [l] at the positions that are not in [rows]. *)
Definition delete_rows {A} (rows : list Z) (l : list A) : list A :=
  keep_from (fun p => bool_decide (Z.of_nat p ∉ rows)) 0 l.

(** The kept rows of a column, dataset by dataset. *)
Definition column_parts (self : HDF5) (column : Z) : list (list Z) :=
  zip_with
    (fun d ir => Z.b2z <$> surviving ir.1 ir.2 (physical_column self d column))
    (datasets self)
    (zip (dataset_initial_n_rows self) (dataset_removed_rows self)).
(** * Properties *)

Example build_row_mask_ex1 :
  build_row_mask [0; 9; 15] 16 8 = Ok [128; 65].
Proof. vm_compute. reflexivity. Qed.

(** ** What [remove_rows] leaves alone *)

Lemma same_frame_refl a : same_frame a a.
Proof. by split. Qed.

Lemma same_frame_trans a b c : same_frame a b -> same_frame b c -> same_frame a c.
Proof. intros [] []; split; congruence. Qed.

Lemma keeps_frame_ret {A} (a : A) : keeps_frame (m_ret a).
Proof. intros self. apply same_frame_refl. Qed.

Lemma keeps_frame_read {A} (f : HDF5 -> result A) : keeps_frame (m_read f).
Proof. intros self. apply same_frame_refl. Qed.

Lemma keeps_frame_bind {A B} (m : method A) (k : A -> method B) :
  keeps_frame m -> (forall a, keeps_frame (k a)) -> keeps_frame (m_bind m k).
Proof.
  intros Hm Hk self. unfold m_bind. specialize (Hm self).
  destruct (m self) as [[a|e] self']; simpl in *; [|done].
  eapply same_frame_trans; [done | apply Hk].
Qed.

Lemma keeps_frame_for {A} (xs : list A) (body : A -> method unit) :
  (forall x, keeps_frame (body x)) -> keeps_frame (m_for xs body).
Proof.
  intros Hb. induction xs as [|x xs IH]; simpl.
  - apply keeps_frame_ret.
  - apply keeps_frame_bind; [apply Hb | intros _; apply IH].
Qed.

Lemma keeps_frame_setitem {A} (attr : HDF5 -> list A) set i x :
  (forall l self, same_frame self (set l self)) ->
  keeps_frame (m_setitem attr set i x).
Proof.
  intros Hset self. unfold m_setitem.
  destruct (setitem (attr self) i x); simpl; [apply Hset | apply same_frame_refl].
Qed.

Create HintDb frame.
#[local] Hint Resolve keeps_frame_ret keeps_frame_read keeps_frame_bind
  keeps_frame_for keeps_frame_setitem : frame.

Lemma keeps_frame_update new i : keeps_frame (remove_rows_update new i).
Proof.
  unfold remove_rows_update.
  repeat first
    [ apply keeps_frame_bind; [|intros ?]
    | apply keeps_frame_read
    | apply keeps_frame_ret
    | apply keeps_frame_setitem; by intros; split
    | case_bool_decide ].
Qed.

Lemma keeps_frame_remove_rows rows : keeps_frame (remove_rows rows).
Proof.
  unfold remove_rows.
  repeat (apply keeps_frame_bind; [|intros ?]); auto with frame.
  - apply keeps_frame_for. intros. apply keeps_frame_update.
  - intros self. by split.
Qed.

(** C10. A [remove_rows] call, and so any sequence of them, changes only the
    row bookkeeping: the dataset list, the initial row counts, the column
    count, the word type and pack size and the block sizes stay as they were,
    and with them the second component of [shape]. *)
Theorem remove_rows_frame (calls : list (list Z)) (rows : list Z) (self : HDF5) :
  same_frame self (remove_rows rows self).2 /\
  (shape_of (remove_rows rows self).2).2 = (shape_of self).2 /\
  same_frame self (remove_rows_calls calls self) /\
  (shape_of (remove_rows_calls calls self)).2 = (shape_of self).2.
Proof.
  assert (Hcalls : forall cs s, same_frame s (remove_rows_calls cs s)).
  { induction cs as [|r cs IH]; intros s; simpl; [apply same_frame_refl|].
    eapply same_frame_trans; [apply keeps_frame_remove_rows | apply IH]. }
  pose proof (keeps_frame_remove_rows rows self) as H1.
  pose proof (Hcalls calls self) as H2.
  repeat split; try apply H1; try apply H2.
Qed.

(** ** Python lists and loops *)

Lemma py_index_nat (n i : nat) : (i < n)%nat -> py_index n (Z.of_nat i) = Some i.
Proof.
  intros Hi. unfold py_index.
  rewrite (proj2 (Z.leb_le _ _)), (proj2 (Z.ltb_lt _ _)) by lia.
  simpl. by rewrite Nat2Z.id.
Qed.

Lemma py_index_nat_ge (n i : nat) : (n <= i)%nat -> py_index n (Z.of_nat i) = None.
Proof.
  intros Hi. unfold py_index.
  rewrite (proj2 (Z.ltb_ge _ _)) by lia. rewrite andb_false_r.
  rewrite (proj2 (Z.ltb_ge (Z.of_nat i) 0)) by lia. by rewrite andb_false_r.
Qed.

Lemma py_index_lt n i k : py_index n i = Some k -> (k < n)%nat.
Proof.
  unfold py_index. intros H.
  destruct (0 <=? i) eqn:E1, (i <? Z.of_nat n) eqn:E2; simpl in H;
    try (injection H as <-; lia);
    destruct (- Z.of_nat n <=? i) eqn:E3, (i <? 0) eqn:E4; simpl in H;
    try discriminate; injection H as <-; lia.
Qed.

Lemma getitem_nat {A} (l : list A) (i : nat) x :
  l !! i = Some x -> getitem l (Z.of_nat i) = Ok x.
Proof.
  intros H. unfold getitem.
  rewrite py_index_nat by (by eapply lookup_lt_Some). by rewrite H.
Qed.

Lemma getitem_nat_pred {A} (l : list A) (i : nat) x :
  l !! i = Some x -> getitem l (Z.of_nat (S i) - 1) = Ok x.
Proof.
  intros H. replace (Z.of_nat (S i) - 1) with (Z.of_nat i) by lia.
  by apply getitem_nat.
Qed.

Lemma getitem_nat_inv {A} (l : list A) (i : nat) x :
  getitem l (Z.of_nat i) = Ok x -> l !! i = Some x.
Proof.
  unfold getitem. destruct (decide (i < length l)%nat) as [Hi|Hi].
  - rewrite py_index_nat by done. destruct (l !! i); intros; congruence.
  - by rewrite py_index_nat_ge by lia.
Qed.

Lemma getitem_raise {A} (l : list A) i e : getitem l i = Raise e -> e = IndexError.
Proof.
  unfold getitem. destruct (py_index _ _); [destruct (l !! _)|]; congruence.
Qed.

Lemma getitem_nat_ge {A} (l : list A) (i : nat) :
  (length l <= i)%nat -> getitem l (Z.of_nat i) = Raise IndexError.
Proof. intros H. unfold getitem. by rewrite py_index_nat_ge. Qed.

Lemma setitem_nat {A} (l : list A) (i : nat) x :
  (i < length l)%nat -> setitem l (Z.of_nat i) x = Ok (<[i:=x]> l).
Proof. intros H. unfold setitem. by rewrite py_index_nat. Qed.

Lemma setitem_raise {A} (l : list A) i x e : setitem l i x = Raise e -> e = IndexError.
Proof. unfold setitem. destruct (py_index _ _); congruence. Qed.

Lemma setitem_length {A} (l l' : list A) i x :
  setitem l i x = Ok l' -> length l' = length l.
Proof.
  unfold setitem. destruct (py_index _ _); [|done].
  intros [= <-]. apply length_insert.
Qed.

(** A loop over [seq a n] that keeps an invariant indexed by the counter. *)
Lemma for_each_seq_inv {S} (P : nat -> S -> Prop) (body : S -> nat -> result S)
    (a n : nat) (s : S) :
  P a s ->
  (forall k s, (a <= k < a + n)%nat -> P k s ->
     exists s', body s k = Ok s' /\ P (Datatypes.S k) s') ->
  exists s', for_each (seq a n) body s = Ok s' /\ P (a + n)%nat s'.
Proof.
  revert a s. induction n as [|n IH]; intros a s HP Hbody; simpl.
  - exists s. by rewrite Nat.add_0_r.
  - destruct (Hbody a s) as (s' & -> & HP'); [lia | done |]. simpl.
    destruct (IH (Datatypes.S a) s') as (s'' & -> & HP''); [done | |].
    + intros k s0 Hk. apply Hbody. lia.
    + exists s''. split; [done|]. by replace (a + Datatypes.S n)%nat with (Datatypes.S a + n)%nat by lia.
Qed.

Lemma m_for_seq_inv (P : nat -> HDF5 -> Prop) (body : nat -> method unit)
    (a n : nat) (self : HDF5) :
  P a self ->
  (forall k s, (a <= k < a + n)%nat -> P k s ->
     exists s', body k s = (Ok tt, s') /\ P (S k) s') ->
  exists s', m_for (seq a n) body self = (Ok tt, s') /\ P (a + n)%nat s'.
Proof.
  revert a self. induction n as [|n IH]; intros a self HP Hbody; simpl.
  - exists self. by rewrite Nat.add_0_r.
  - destruct (Hbody a self) as (s' & Hs' & HP'); [lia | done |].
    unfold m_bind. rewrite Hs'.
    destruct (IH (S a) s') as (s'' & -> & HP''); [done | |].
    + intros k s0 Hk. apply Hbody. lia.
    + exists s''. split; [done|]. by replace (a + S n)%nat with (S a + n)%nat by lia.
Qed.

Lemma for_each_ext_in {A S} (xs : list A) (f g : S -> A -> result S) s :
  (forall x s, x ∈ xs -> f s x = g s x) -> for_each xs f s = for_each xs g s.
Proof.
  revert s. induction xs as [|x xs IH]; intros s H; simpl; [done|].
  rewrite H by left. destruct (g s x); simpl; [|done].
  apply IH. intros. apply H. by right.
Qed.

(** ** Offsets *)

Lemma length_stops_from acc ns : length (stops_from acc ns) = length ns.
Proof. revert acc. induction ns; intros; simpl; auto. Qed.

Lemma length_starts_from acc ns : length (starts_from acc ns) = length ns.
Proof. revert acc. induction ns; intros; simpl; auto. Qed.

Lemma stops_from_lookup acc ns i :
  stops_from acc ns !! i = (fun n => acc + py_sum (take i ns) + n) <$> ns !! i.
Proof.
  revert acc i. induction ns as [|n ns IH]; intros acc [|i]; simpl; try done.
  - f_equal. unfold py_sum. simpl. lia.
  - rewrite IH. destruct (ns !! i); simpl; [|done]. f_equal. unfold py_sum. simpl. lia.
Qed.

Lemma starts_from_lookup acc ns i :
  starts_from acc ns !! i = (fun _ => acc + py_sum (take i ns)) <$> ns !! i.
Proof.
  revert acc i. induction ns as [|n ns IH]; intros acc [|i]; simpl; try done.
  - f_equal. unfold py_sum. simpl. lia.
  - rewrite IH. destruct (ns !! i); simpl; [|done]. f_equal. unfold py_sum. simpl. lia.
Qed.

Lemma py_sum_take_S ns i n :
  ns !! i = Some n -> py_sum (take (S i) ns) = py_sum (take i ns) + n.
Proof.
  intros H. erewrite take_S_r by done. unfold py_sum.
  rewrite foldr_app. simpl. generalize (take i ns). intros l.
  induction l as [|x l IH]; simpl; lia.
Qed.

Lemma py_sum_nonneg ns : Forall (fun n => 0 <= n) ns -> 0 <= py_sum ns.
Proof. induction 1; unfold py_sum in *; simpl; lia. Qed.

Lemma py_sum_app l1 l2 : py_sum (l1 ++ l2) = py_sum l1 + py_sum l2.
Proof. unfold py_sum. induction l1; simpl; lia. Qed.

Lemma py_sum_take_le ns i j :
  Forall (fun n => 0 <= n) ns -> (i <= j)%nat -> py_sum (take i ns) <= py_sum (take j ns).
Proof.
  intros Hns Hij. replace j with (i + (j - i))%nat by lia.
  rewrite <- take_take_drop, py_sum_app.
  assert (0 <= py_sum (take (j - i) (drop i ns))); [|lia].
  apply py_sum_nonneg. by apply Forall_take, Forall_drop.
Qed.

Lemma py_sum_take_total ns i :
  Forall (fun n => 0 <= n) ns -> py_sum (take i ns) <= py_sum ns.
Proof.
  intros Hns. rewrite <- (take_drop i ns) at 2. rewrite py_sum_app.
  assert (0 <= py_sum (drop i ns)); [|lia].
  apply py_sum_nonneg. by apply Forall_drop.
Qed.

Lemma stops_from_lookup_0 acc ns n :
  ns !! 0%nat = Some n -> stops_from acc ns !! 0%nat = Some (acc + n).
Proof. destruct ns; simpl; [done|]. by intros [= ->]. Qed.

Lemma starts_from_lookup_0 acc ns n :
  ns !! 0%nat = Some n -> starts_from acc ns !! 0%nat = Some acc.
Proof. destruct ns; simpl; [done|]. by intros [= ->]. Qed.

Lemma stops_from_lookup_S acc ns k prev n :
  stops_from acc ns !! k = Some prev -> ns !! S k = Some n ->
  stops_from acc ns !! S k = Some (prev + n).
Proof.
  rewrite !stops_from_lookup. intros Hk HS. rewrite HS. simpl.
  destruct (ns !! k) as [m|] eqn:Em; simpl in Hk; [|done].
  injection Hk as <-. f_equal. rewrite (py_sum_take_S _ _ _ Em). lia.
Qed.

Lemma starts_from_lookup_S acc ns k prev n :
  stops_from acc ns !! k = Some prev -> ns !! S k = Some n ->
  starts_from acc ns !! S k = Some prev.
Proof.
  rewrite stops_from_lookup, starts_from_lookup. intros Hk HS. rewrite HS. simpl.
  destruct (ns !! k) as [m|] eqn:Em; simpl in Hk; [|done].
  injection Hk as <-. f_equal. rewrite (py_sum_take_S _ _ _ Em). lia.
Qed.

(** Two lists of one length that agree below it are equal. *)
Lemma list_eq_lookup_lt {A} (l1 l2 : list A) :
  length l1 = length l2 ->
  (forall j, (j < length l2)%nat -> l1 !! j = l2 !! j) -> l1 = l2.
Proof.
  intros Hlen H. apply list_eq. intros j.
  destruct (decide (j < length l2)%nat); [by apply H|].
  rewrite !lookup_ge_None_2; [done | lia | lia].
Qed.

(** ** The constructor *)

Lemma init_stop_ok ns : init_stop (length ns) ns = Ok (stops_from 0 ns).
Proof.
  unfold init_stop.
  destruct (for_each_seq_inv
    (fun k stop => length stop = length ns /\
       forall j, (j < k)%nat -> stop !! j = stops_from 0 ns !! j)
    (fun stop i =>
      previous_dataset_stop <-
        (if bool_decide (i = 0%nat) then Ok 0 else getitem stop (Z.of_nat i - 1)) ;;
      n_i <- getitem ns (Z.of_nat i) ;;
      setitem stop (Z.of_nat i) (previous_dataset_stop + n_i))
    0%nat (length ns) (replicate (length ns) 0)) as (stop & -> & Hlen & Hstop).
  - split; [by rewrite length_replicate | intros; lia].
  - intros k stop Hk [Hlen Hstop].
    destruct (lookup_lt_is_Some_2 ns k) as [n Hn]; [lia|].
    destruct k as [|k].
    + rewrite bool_decide_eq_true_2 by done. simpl.
      rewrite (getitem_nat _ _ _ Hn). simpl.
      rewrite setitem_nat by lia. eexists; split; [done|].
      split; [by rewrite length_insert|].
      intros j Hj. assert (j = 0%nat) as -> by lia.
      rewrite list_lookup_insert_eq by lia.
      by rewrite (stops_from_lookup_0 _ _ _ Hn).
    + rewrite bool_decide_eq_false_2 by done.
      destruct (lookup_lt_is_Some_2 stop k) as [prev Hprev]; [lia|].
      rewrite (getitem_nat_pred _ _ _ Hprev). simpl.
      rewrite (getitem_nat _ _ _ Hn). simpl.
      rewrite setitem_nat by lia. eexists; split; [done|].
      split; [by rewrite length_insert|].
      intros j Hj. destruct (decide (j = S k)) as [->|Hne].
      * rewrite list_lookup_insert_eq by lia.
        rewrite Hstop in Hprev by lia.
        by rewrite (stops_from_lookup_S _ _ _ _ _ Hprev Hn).
      * rewrite list_lookup_insert_ne by done. apply Hstop. lia.
  - f_equal. apply list_eq_lookup_lt.
    + by rewrite length_stops_from.
    + rewrite length_stops_from. intros j Hj. apply Hstop. lia.
Qed.

Lemma init_start_ok ns :
  init_start (length ns) (stops_from 0 ns) = Ok (starts_from 0 ns).
Proof.
  unfold init_start.
  destruct (for_each_seq_inv
    (fun k start => length start = length ns /\
       forall j, (j < k)%nat -> start !! j = starts_from 0 ns !! j)
    (fun start i =>
      if bool_decide (i = 0%nat) then setitem start (Z.of_nat i) 0
      else s <- getitem (stops_from 0 ns) (Z.of_nat i - 1) ;; setitem start (Z.of_nat i) s)
    0%nat (length ns) (replicate (length ns) 0)) as (start & -> & Hlen & Hstart).
  - split; [by rewrite length_replicate | intros; lia].
  - intros k start Hk [Hlen Hstart].
    destruct (lookup_lt_is_Some_2 ns k) as [n Hn]; [lia|].
    destruct k as [|k].
    + rewrite bool_decide_eq_true_2 by done.
      rewrite setitem_nat by lia. eexists; split; [done|].
      split; [by rewrite length_insert|].
      intros j Hj. assert (j = 0%nat) as -> by lia.
      rewrite list_lookup_insert_eq by lia.
      by rewrite (starts_from_lookup_0 _ _ _ Hn).
    + rewrite bool_decide_eq_false_2 by done.
      destruct (lookup_lt_is_Some_2 (stops_from 0 ns) k) as [prev Hprev];
        [rewrite length_stops_from; lia|].
      rewrite (getitem_nat_pred _ _ _ Hprev). simpl.
      rewrite setitem_nat by lia. eexists; split; [done|].
      split; [by rewrite length_insert|].
      intros j Hj. destruct (decide (j = S k)) as [->|Hne].
      * rewrite list_lookup_insert_eq by lia.
        by rewrite (starts_from_lookup_S _ _ _ _ _ Hprev Hn).
      * rewrite list_lookup_insert_ne by done. apply Hstart. lia.
  - f_equal. apply list_eq_lookup_lt.
    + by rewrite length_starts_from.
    + rewrite length_starts_from. intros j Hj. apply Hstart. lia.
Qed.

(** Follow a successful run through its first binding. *)
Ltac bind_ok H :=
  match type of H with
  | rbind ?m _ = Ok _ =>
      let E := fresh "E" in destruct m eqn:E; simpl in H; [|discriminate H]
  end.

Lemma zip_with_sub_nil (ns : list Z) :
  zip_with (fun initial (removed : list Z) => initial - Z.of_nat (length removed))
    ns (replicate (length ns) []) = ns.
Proof. induction ns as [|n ns IH]; simpl; [done|]. rewrite IH. f_equal. lia. Qed.

Lemma init_checks_ok (n_cols : Z) (dt : np_dtype) (l : list Dataset) (u : unit) :
  for_each l (fun _ dataset =>
    if negb (bool_decide (Z.of_nat (shape dataset).2 = n_cols)) then Raise RuntimeError
    else if negb (bool_decide (dtype dataset = dt)) then Raise RuntimeError
    else Ok tt) tt = Ok u ->
  Forall (fun d => Z.of_nat (shape d).2 = n_cols /\ dtype d = dt) l.
Proof.
  induction l as [|d l IH]; simpl; [by constructor|].
  repeat case_bool_decide; simpl; try discriminate.
  intros Hloop. constructor; [done | by apply IH].
Qed.

(** The attributes a successful construction assigns. *)
Lemma init_attributes ds ns rbs cbs self :
  length ns = length ds ->
  __init__ ds ns rbs cbs = Ok self ->
  exists first,
    ds !! 0%nat = Some first /\
    datasets self = ds /\
    dataset_initial_n_rows self = ns /\
    dataset_n_rows self = ns /\
    total_n_rows self = py_sum ns /\
    dataset_removed_rows self = replicate (length ds) [] /\
    dataset_stop_example self = stops_from 0 ns /\
    dataset_start_example self = starts_from 0 ns /\
    dataset_n_cols self = Z.of_nat (shape first).2 /\
    dataset_pack_size self = dtype_bits (dtype first) /\
    (dataset_pack_size self = 32 \/ dataset_pack_size self = 64) /\
    Forall (fun d => Z.of_nat (shape d).2 = dataset_n_cols self /\ dtype d = dtype first) ds /\
    row_block_size self =
      match rbs with None => (fun c => Z.pos c.1) <$> chunks first | Some _ => None end /\
    col_block_size self =
      match cbs with None => (fun c => Z.pos c.2) <$> chunks first | Some _ => None end.
Proof.
  intros Hlen H. unfold __init__ in H.
  bind_ok H. rename a into first.
  apply (getitem_nat_inv _ 0%nat) in E. exists first. split; [done|].
  bind_ok H. bind_ok H. bind_ok H.
  apply init_checks_ok in E2.
  rewrite <- Hlen, init_stop_ok in H. simpl in H.
  rewrite init_start_ok in H. simpl in H.
  bind_ok H. injection H as <-. simpl.
  assert (Hall : Forall (fun d => Z.of_nat (shape d).2 = Z.of_nat (shape first).2 /\
                                  dtype d = dtype first) ds).
  { destruct ds as [|d0 ds']; [done|]. simpl in E. injection E as ->.
    constructor; [done|]. simpl in E2. by rewrite ?drop_0 in E2. }
  rewrite Hlen.
  repeat split; try done.
  - destruct (dtype first); simpl in *; congruence.
  - destruct (dtype first); simpl in *; try discriminate; injection E3 as <-; auto.
  - destruct rbs; [by injection E0 as <-|].
    destruct (chunks first); [by injection E0 as <-|done].
  - destruct cbs; [by injection E1 as <-|].
    destruct (chunks first); [by injection E1 as <-|done].
Qed.

Lemma init_Inv ds ns rbs cbs self :
  wf_args ds ns -> __init__ ds ns rbs cbs = Ok self -> Inv self.
Proof.
  intros Hwf H.
  assert (Hlen : length ns = length ds) by (symmetry; by eapply Forall2_length).
  destruct (init_attributes _ _ _ _ _ Hlen H)
    as (first & Hfirst & Hds & Hini & Hn & Htot & Hrem & Hstop & Hstart & Hcols
        & Hpack & Hpack' & Hall & _).
  split.
  - rewrite Hds. by destruct ds.
  - by rewrite Hini, Hds.
  - by rewrite Hrem, length_replicate, Hds.
  - rewrite Hini, Hrem, <- Hlen. unfold wf_args in Hwf. clear -Hwf.
    induction Hwf as [|d n ds ns Hd Hwf IH]; simpl; constructor; [|done].
    split; [lia|]. split; constructor.
  - by rewrite Hn, Hini, Hrem, <- Hlen, zip_with_sub_nil.
  - by rewrite Hstop, Hn.
  - by rewrite Hstart, Hn.
  - by rewrite Htot, Hn.
  - rewrite Hds, Hini, Hpack. unfold wf_args in Hwf.
    clear -Hwf Hall. induction Hwf as [|d n ds ns Hd Hwf IH]; [constructor|].
    inversion_clear Hall as [|?? [_ Hdt] Hall'].
    constructor; [rewrite <- Hdt; lia | by apply IH].
  - rewrite Hds. eapply Forall_impl; [apply Hall|]. by intros d [? _].
  - done.
Qed.

(** ** Locating a row *)

Lemma find_range_Some r ranges i :
  find_range r ranges = Some i ->
  exists s e, ranges !! i = Some (s, e) /\ s <= r < e.
Proof.
  revert i. induction ranges as [|[s e] ranges IH]; intros i; simpl; [done|].
  case_bool_decide.
  - intros [= <-]. by exists s, e.
  - destruct (find_range r ranges) as [j|]; simpl; [|done].
    intros [= <-]. by apply IH.
Qed.

Lemma find_range_None r ranges j s e :
  find_range r ranges = None -> ranges !! j = Some (s, e) -> ~ (s <= r < e).
Proof.
  revert j. induction ranges as [|[s0 e0] ranges IH]; intros j; simpl; [done|].
  case_bool_decide; [done|].
  destruct (find_range r ranges) as [k|] eqn:E; simpl; [done|].
  intros _. destruct j as [|j]; simpl.
  - intros [= -> ->]. lia.
  - by apply IH.
Qed.

Lemma find_range_offsets acc ns r :
  Forall (fun n => 0 <= n) ns ->
  acc <= r < acc + py_sum ns ->
  is_Some (find_range r (zip (starts_from acc ns) (stops_from acc ns))).
Proof.
  intros Hns. revert acc. induction Hns as [|n ns Hn Hns IH]; intros acc Hr.
  - unfold py_sum in Hr. simpl in Hr. lia.
  - simpl. case_bool_decide; [by eexists|].
    destruct (IH (acc + n)) as [i ->]; [|by eexists].
    unfold py_sum in *. simpl in Hr. lia.
Qed.

Lemma find_range_offsets_None acc ns r :
  Forall (fun n => 0 <= n) ns ->
  ~ (acc <= r < acc + py_sum ns) ->
  find_range r (zip (starts_from acc ns) (stops_from acc ns)) = None.
Proof.
  intros Hns. revert acc. induction Hns as [|n ns Hn Hns IH]; intros acc Hr; [done|].
  simpl. pose proof (py_sum_nonneg _ Hns).
  unfold py_sum in *. simpl in Hr.
  rewrite bool_decide_eq_false_2 by lia.
  rewrite IH; [done | lia].
Qed.

Lemma get_row_dataset_from_spec self r a m :
  (a + m <= length (dataset_start_example self))%nat ->
  (a + m <= length (dataset_stop_example self))%nat ->
  get_row_dataset_from self r (seq a m) =
  Ok (match find_range r
              (take m (drop a (zip (dataset_start_example self) (dataset_stop_example self)))) with
      | Some i => Z.of_nat (a + i)
      | None => -1
      end).
Proof.
  revert a. induction m as [|m IH]; intros a Ha Hb; simpl; [done|].
  destruct (lookup_lt_is_Some_2 (dataset_start_example self) a) as [s Hs]; [lia|].
  destruct (lookup_lt_is_Some_2 (dataset_stop_example self) a) as [e He]; [lia|].
  assert (Hz : zip (dataset_start_example self) (dataset_stop_example self) !! a = Some (s, e)).
  { rewrite lookup_zip_with, Hs. simpl. by rewrite He. }
  rewrite (drop_S _ _ _ Hz). simpl.
  rewrite (getitem_nat _ _ _ He). simpl.
  rewrite (getitem_nat _ _ _ Hs).
  destruct (e >? r) eqn:E1; simpl.
  - destruct (r >=? s) eqn:E2.
    + rewrite bool_decide_eq_true_2 by lia. f_equal. lia.
    + rewrite bool_decide_eq_false_2 by lia.
      rewrite IH by lia. f_equal.
      destruct (find_range _ _); simpl; [f_equal; lia | done].
  - rewrite bool_decide_eq_false_2 by lia.
    rewrite IH by lia. f_equal.
    destruct (find_range _ _); simpl; [f_equal; lia | done].
Qed.

Lemma get_row_dataset_spec self r :
  length (dataset_start_example self) = length (datasets self) ->
  length (dataset_stop_example self) = length (datasets self) ->
  _get_row_dataset self r =
  Ok (match find_range r (zip (dataset_start_example self) (dataset_stop_example self)) with
      | Some i => Z.of_nat i
      | None => -1
      end).
Proof.
  intros Ha Hb. unfold _get_row_dataset.
  rewrite get_row_dataset_from_spec by lia.
  rewrite drop_0, take_ge; [done|].
  rewrite length_zip_with. lia.
Qed.

(** ** The invariant *)

Lemma NoDup_bounded_length (l : list Z) (n : Z) :
  0 <= n -> NoDup l -> Forall (fun x => 0 <= x < n) l -> Z.of_nat (length l) <= n.
Proof.
  intros Hn Hnd Hl.
  assert (length l <= length (seqZ 0 n))%nat as Hlen.
  { apply submseteq_length, NoDup_submseteq; [done|].
    intros x Hx. rewrite Forall_forall in Hl.
    apply elem_of_seqZ. specialize (Hl x Hx). lia. }
  rewrite length_seqZ in Hlen. lia.
Qed.

Lemma Inv_lengths self :
  Inv self ->
  length (dataset_n_rows self) = length (datasets self) /\
  length (dataset_stop_example self) = length (datasets self) /\
  length (dataset_start_example self) = length (datasets self).
Proof.
  intros HI.
  assert (length (dataset_n_rows self) = length (datasets self)) as Hn.
  { rewrite (inv_n_rows _ HI), length_zip_with, (inv_len_initial _ HI), (inv_len_removed _ HI). lia. }
  by rewrite (inv_stop _ HI), (inv_start _ HI), length_stops_from, length_starts_from.
Qed.

Lemma Inv_n_rows_bounds self :
  Inv self ->
  Forall2 (fun initial n => 0 <= n <= initial)
    (dataset_initial_n_rows self) (dataset_n_rows self).
Proof.
  intros HI. rewrite (inv_n_rows _ HI).
  pose proof (inv_removed _ HI) as Hrem.
  induction Hrem as [|initial removed ins rems (Hi & Hnd & Hin) Hrem IH]; simpl; constructor; [|done].
  pose proof (NoDup_bounded_length _ _ Hi Hnd Hin). lia.
Qed.

Lemma Inv_n_rows_nonneg self :
  Inv self -> Forall (fun n => 0 <= n) (dataset_n_rows self).
Proof.
  intros HI. pose proof (Inv_n_rows_bounds _ HI) as H.
  induction H; constructor; [lia | done].
Qed.

Lemma Inv_ranges_lookup self i s e :
  Inv self ->
  zip (dataset_start_example self) (dataset_stop_example self) !! i = Some (s, e) ->
  exists n, dataset_n_rows self !! i = Some n /\
            dataset_start_example self !! i = Some s /\
            dataset_stop_example self !! i = Some e /\
            s = py_sum (take i (dataset_n_rows self)) /\ e = s + n.
Proof.
  intros HI Hz. apply lookup_zip_with_Some in Hz as (s' & e' & [= <- <-] & Hs & He).
  pose proof Hs as Hs'. pose proof He as He'.
  rewrite (inv_start _ HI), starts_from_lookup in Hs'.
  rewrite (inv_stop _ HI), stops_from_lookup in He'.
  destruct (dataset_n_rows self !! i) as [n|]; simpl in *; [|done].
  injection Hs' as <-. injection He' as <-. exists n. repeat split; auto; lia.
Qed.

Lemma locate_relative_in self r :
  Inv self -> 0 <= r < total_n_rows self ->
  exists i s n,
    locate_relative self r = Ok (Z.of_nat i, r - s) /\
    dataset_start_example self !! i = Some s /\
    dataset_n_rows self !! i = Some n /\
    0 <= r - s < n.
Proof.
  intros HI Hr. destruct (Inv_lengths _ HI) as (Hn & Hstop & Hstart).
  unfold locate_relative. rewrite get_row_dataset_spec by done.
  destruct (find_range_offsets 0 (dataset_n_rows self) r) as [i Hi].
  { by apply Inv_n_rows_nonneg. }
  { rewrite <- (inv_total _ HI). lia. }
  rewrite <- (inv_start _ HI), <- (inv_stop _ HI) in Hi. rewrite Hi. simpl.
  apply find_range_Some in Hi as (s & e & Hz & Hse).
  destruct (Inv_ranges_lookup _ _ _ _ HI Hz) as (n & Hni & Hs & He & _ & ->).
  rewrite (proj2 (Z.eqb_neq _ _)) by lia.
  rewrite (getitem_nat _ _ _ Hs). simpl.
  exists i, s, n. repeat split; auto; lia.
Qed.

Lemma locate_relative_out self r :
  Inv self -> ~ (0 <= r < total_n_rows self) ->
  locate_relative self r = Raise IndexError.
Proof.
  intros HI Hr. destruct (Inv_lengths _ HI) as (Hn & Hstop & Hstart).
  unfold locate_relative. rewrite get_row_dataset_spec by done.
  rewrite (inv_start _ HI), (inv_stop _ HI).
  rewrite find_range_offsets_None; [done | by apply Inv_n_rows_nonneg |].
  rewrite <- (inv_total _ HI). lia.
Qed.

(** ** The first loop of [remove_rows] *)

Lemma remove_rows_locate_eq self rows :
  remove_rows_locate self rows =
  for_each rows (fun acc r =>
    p <- locate_relative self r ;;
    l <- getitem acc p.1 ;;
    setitem acc p.1 (l ++ [p.2]))
  (replicate (length (datasets self)) []).
Proof.
  unfold remove_rows_locate. apply for_each_ext_in. intros r acc _.
  unfold locate_relative. destruct (_get_row_dataset self r) as [ds|e]; simpl; [|done].
  destruct (ds =? -1); simpl; [done|].
  destruct (getitem acc ds) as [l|e1] eqn:E1,
           (getitem (dataset_start_example self) ds) as [s|e2] eqn:E2; simpl;
    rewrite ?E1; simpl; try done.
  by rewrite (getitem_raise _ _ _ E1), (getitem_raise _ _ _ E2).
Qed.

Lemma remove_rows_locate_length self rows new :
  remove_rows_locate self rows = Ok new -> length new = length (datasets self).
Proof.
  rewrite remove_rows_locate_eq.
  assert (forall acc, for_each rows (fun acc r =>
      p <- locate_relative self r ;; l <- getitem acc p.1 ;; setitem acc p.1 (l ++ [p.2])) acc
      = Ok new -> length new = length acc) as H.
  { induction rows as [|r rows IH]; intros acc; simpl; [by intros [= ->]|].
    intros H. bind_ok H. rewrite (IH _ H).
    bind_ok E. bind_ok E. by eapply setitem_length. }
  intros Hn. by rewrite (H _ Hn), length_replicate.
Qed.

Lemma locate_step_ok self acc r :
  Inv self -> 0 <= r < total_n_rows self -> within_rows self acc ->
  exists acc',
    (p <- locate_relative self r ;; l <- getitem acc p.1 ;; setitem acc p.1 (l ++ [p.2]))
    = Ok acc' /\ within_rows self acc'.
Proof.
  intros HI Hr Hacc.
  destruct (locate_relative_in _ _ HI Hr) as (i & s & n & -> & Hs & Hn & Hrel). simpl.
  assert (length acc = length (dataset_n_rows self)) as Hlen
    by (symmetry; by eapply Forall2_length).
  destruct (lookup_lt_is_Some_2 acc i) as [l Hl].
  { rewrite Hlen. by eapply lookup_lt_Some. }
  rewrite (getitem_nat _ _ _ Hl). simpl.
  rewrite setitem_nat by (by eapply lookup_lt_Some).
  eexists; split; [done|]. unfold within_rows.
  rewrite <- (list_insert_id _ _ _ Hn).
  apply Forall2_insert; [done|].
  apply Forall_app. split; [|constructor; [lia | constructor]].
  eapply (Forall2_lookup_lr _ _ _ _ _ _ Hacc Hn Hl).
Qed.

Lemma remove_rows_locate_ok self rows :
  Inv self -> Forall (fun r => 0 <= r < total_n_rows self) rows ->
  exists new, remove_rows_locate self rows = Ok new /\ within_rows self new.
Proof.
  intros HI Hrows. rewrite remove_rows_locate_eq.
  assert (within_rows self (replicate (length (datasets self)) [])) as H0.
  { unfold within_rows. destruct (Inv_lengths _ HI) as (<- & _).
    induction (dataset_n_rows self); simpl; constructor; auto. }
  revert H0. generalize (replicate (length (datasets self)) ([] : list Z)).
  induction Hrows as [|r rows Hr Hrows IH]; intros acc Hacc; simpl.
  - by exists acc.
  - destruct (locate_step_ok _ _ _ HI Hr Hacc) as (acc' & -> & Hacc'). simpl.
    by apply IH.
Qed.

Lemma remove_rows_locate_raise self rows :
  Inv self -> Exists (fun r => ~ (0 <= r < total_n_rows self)) rows ->
  remove_rows_locate self rows = Raise IndexError.
Proof.
  intros HI Hrows. rewrite remove_rows_locate_eq.
  assert (within_rows self (replicate (length (datasets self)) [])) as H0.
  { unfold within_rows. destruct (Inv_lengths _ HI) as (<- & _).
    induction (dataset_n_rows self); simpl; constructor; auto. }
  revert H0. generalize (replicate (length (datasets self)) ([] : list Z)).
  induction rows as [|r rows IH]; intros acc Hacc; simpl.
  - by apply Exists_nil in Hrows.
  - destruct (decide (0 <= r < total_n_rows self)) as [Hr|Hr].
    + destruct (locate_step_ok _ _ _ HI Hr Hacc) as (acc' & -> & Hacc'). simpl.
      apply IH; [|done]. by apply Exists_cons in Hrows as [?|?].
    + by rewrite (locate_relative_out _ _ HI Hr).
Qed.

(** ** The second loop of [remove_rows] *)

Lemma remove_rows_update_run new k s new_k old_k init_k n_k prev :
  new !! k = Some new_k ->
  dataset_removed_rows s !! k = Some old_k ->
  dataset_initial_n_rows s !! k = Some init_k ->
  dataset_n_rows s !! k = Some n_k ->
  (k < length (dataset_stop_example s))%nat ->
  (k < length (dataset_start_example s))%nat ->
  (k = 0%nat /\ prev = 0 \/
   exists k', k = S k' /\ dataset_stop_example s !! k' = Some prev) ->
  let n' := if bool_decide (0 < length new_k)%nat
            then init_k - Z.of_nat (length (merge_removed old_k new_k)) else n_k in
  exists s',
    remove_rows_update new k s = (Ok tt, s') /\
    same_frame s s' /\
    total_n_rows s' = total_n_rows s /\
    dataset_removed_rows s' = <[k:=merge_removed old_k new_k]> (dataset_removed_rows s) /\
    dataset_n_rows s' = <[k:=n']> (dataset_n_rows s) /\
    dataset_stop_example s' = <[k:=n' + prev]> (dataset_stop_example s) /\
    dataset_start_example s' = <[k:=prev]> (dataset_start_example s).
Proof.
  intros Hnew Hold Hinit Hn Hstop Hstart Hprev n'.
  pose proof (lookup_lt_Some _ _ _ Hold) as Hk1.
  pose proof (lookup_lt_Some _ _ _ Hn) as Hk2.
  unfold remove_rows_update, m_bind, m_read, m_setitem, m_ret.
  rewrite (getitem_nat _ _ _ Hnew).
  unfold merge_removed in *. subst n'.
  destruct (bool_decide (0 < length new_k)%nat) eqn:Enew.
  - rewrite (getitem_nat _ _ _ Hold).
    rewrite setitem_nat by done. simpl.
    rewrite (getitem_nat _ _ _ Hinit).
    rewrite (getitem_nat _ _ (sorted_set (old_k ++ new_k)))
      by (by apply list_lookup_insert_eq).
    rewrite setitem_nat by done. simpl.
    rewrite (getitem_nat _ _ (init_k - Z.of_nat (length (sorted_set (old_k ++ new_k)))))
      by (by apply list_lookup_insert_eq).
    destruct Hprev as [[-> ->]|(k' & -> & Hk')].
    + rewrite bool_decide_eq_true_2 by done.
      rewrite setitem_nat by done. simpl.
      rewrite setitem_nat by done. simpl.
      eexists; split; [done|]. by repeat split.
    + rewrite bool_decide_eq_false_2 by done. simpl.
      rewrite (getitem_nat_pred _ _ _ Hk').
      rewrite setitem_nat by done. simpl.
      rewrite (getitem_nat_pred _ _ prev)
        by (rewrite list_lookup_insert_ne by lia; done).
      rewrite setitem_nat by done. simpl.
      eexists; split; [done|]. by repeat split.
  - rewrite (getitem_nat _ _ _ Hn).
    destruct Hprev as [[-> ->]|(k' & -> & Hk')].
    + rewrite bool_decide_eq_true_2 by done.
      rewrite setitem_nat by done. simpl.
      rewrite setitem_nat by done. simpl.
      eexists; split; [done|].
      repeat split; simpl; try done; by rewrite list_insert_id.
    + rewrite bool_decide_eq_false_2 by done. simpl.
      rewrite (getitem_nat_pred _ _ _ Hk').
      rewrite setitem_nat by done. simpl.
      rewrite (getitem_nat_pred _ _ prev)
        by (rewrite list_lookup_insert_ne by lia; done).
      rewrite setitem_nat by done. simpl.
      eexists; split; [done|].
      repeat split; simpl; try done; by rewrite list_insert_id.
Qed.

Lemma HDF5_eq (a b : HDF5) :
  same_frame a b ->
  dataset_n_rows b = dataset_n_rows a ->
  total_n_rows b = total_n_rows a ->
  dataset_removed_rows b = dataset_removed_rows a ->
  dataset_stop_example b = dataset_stop_example a ->
  dataset_start_example b = dataset_start_example a ->
  b = a.
Proof. intros []. destruct a, b; simpl in *. intros. by subst. Qed.

Lemma merge_removed_nil old new :
  ~ (0 < length new)%nat -> merge_removed old new = old.
Proof. intros H. unfold merge_removed. by rewrite bool_decide_eq_false_2. Qed.

Lemma remove_rows_ok self rows new :
  Inv self ->
  remove_rows_locate self rows = Ok new ->
  remove_rows rows self = (Ok tt, remove_rows_result self new).
Proof.
  intros HI Hloc.
  pose proof (remove_rows_locate_length _ _ _ Hloc) as Hnew.
  destruct (Inv_lengths _ HI) as (Hlen_n & Hlen_stop & Hlen_start).
  pose proof (inv_len_initial _ HI) as Hlen_i.
  pose proof (inv_len_removed _ HI) as Hlen_r.
  set (n := length (datasets self)) in *.
  set (R' := zip_with merge_removed (dataset_removed_rows self) new).
  set (N' := zip_with (fun initial removed => initial - Z.of_nat (length removed))
               (dataset_initial_n_rows self) R').
  assert (HlenR' : length R' = n) by (unfold R'; rewrite length_zip_with; lia).
  assert (HlenN' : length N' = n) by (unfold N'; rewrite length_zip_with; lia).
  unfold remove_rows, m_bind at 1, m_read at 1. rewrite Hloc.
  unfold m_bind at 1, m_read at 1. unfold m_bind at 1. fold n.
  destruct (m_for_seq_inv
    (fun k s =>
       same_frame self s /\
       total_n_rows s = total_n_rows self /\
       length (dataset_removed_rows s) = n /\
       length (dataset_n_rows s) = n /\
       length (dataset_stop_example s) = n /\
       length (dataset_start_example s) = n /\
       (forall j, (j < k)%nat ->
          dataset_removed_rows s !! j = R' !! j /\
          dataset_n_rows s !! j = N' !! j /\
          dataset_stop_example s !! j = stops_from 0 N' !! j /\
          dataset_start_example s !! j = starts_from 0 N' !! j) /\
       (forall j, (k <= j)%nat ->
          dataset_removed_rows s !! j = dataset_removed_rows self !! j /\
          dataset_n_rows s !! j = dataset_n_rows self !! j))
    (remove_rows_update new) 0%nat n self)
    as (s' & -> & Hfr & Htot & Hl1 & Hl2 & Hl3 & Hl4 & Hdone & _).
  - repeat split; try done; try lia.
  - intros k s Hk (Hfr & Htot & Hl1 & Hl2 & Hl3 & Hl4 & Hdone & Htodo).
    destruct (Htodo k) as [Hr Hn]; [lia|].
    destruct (lookup_lt_is_Some_2 new k) as [new_k Hnew_k]; [lia|].
    destruct (lookup_lt_is_Some_2 (dataset_removed_rows self) k) as [old_k Hold_k]; [lia|].
    destruct (lookup_lt_is_Some_2 (dataset_initial_n_rows self) k) as [init_k Hinit_k]; [lia|].
    assert (Hn_k : dataset_n_rows self !! k = Some (init_k - Z.of_nat (length old_k))).
    { rewrite (inv_n_rows _ HI), lookup_zip_with, Hinit_k. simpl. by rewrite Hold_k. }
    assert (HR'k : R' !! k = Some (merge_removed old_k new_k)).
    { unfold R'. rewrite lookup_zip_with, Hold_k. simpl. by rewrite Hnew_k. }
    assert (HN'k : N' !! k = Some (init_k - Z.of_nat (length (merge_removed old_k new_k)))).
    { unfold N'. rewrite lookup_zip_with, Hinit_k. simpl. by rewrite HR'k. }
    assert (Hprev : exists prev,
      (k = 0%nat /\ prev = 0 \/
         exists k', k = S k' /\ dataset_stop_example s !! k' = Some prev) /\
      stops_from 0 N' !! k =
        Some (init_k - Z.of_nat (length (merge_removed old_k new_k)) + prev) /\
      starts_from 0 N' !! k = Some prev).
    { destruct k as [|k'].
      - exists 0. split; [by left|].
        rewrite (stops_from_lookup_0 _ _ _ HN'k), (starts_from_lookup_0 _ _ _ HN'k).
        split; f_equal; lia.
      - destruct (lookup_lt_is_Some_2 (stops_from 0 N') k') as [prev Hp].
        { rewrite length_stops_from. lia. }
        exists prev. split.
        + right. exists k'. split; [done|].
          destruct (Hdone k') as (_ & _ & -> & _); [lia | done].
        + rewrite (stops_from_lookup_S _ _ _ _ _ Hp HN'k).
          rewrite (starts_from_lookup_S _ _ _ _ _ Hp HN'k).
          split; f_equal; lia. }
    destruct Hprev as (prev & Hprev & HSk & HTk).
    destruct (remove_rows_update_run new k s new_k old_k init_k
                (init_k - Z.of_nat (length old_k)) prev)
      as (s' & Hrun & Hfr' & Htot' & Hr' & Hn' & Hs' & Ht'); try done; try lia.
    { by rewrite Hr. }
    { by rewrite (frame_initial_n_rows _ _ Hfr). }
    { by rewrite Hn. }
    exists s'. split; [done|].
    assert (Hval : (if bool_decide (0 < length new_k)%nat
                    then init_k - Z.of_nat (length (merge_removed old_k new_k))
                    else init_k - Z.of_nat (length old_k)) =
                   init_k - Z.of_nat (length (merge_removed old_k new_k))).
    { case_bool_decide; [done|]. by rewrite merge_removed_nil. }
    rewrite Hval in Hn', Hs'.
    split; [by eapply same_frame_trans|].
    split; [congruence|].
    rewrite Hr', Hn', Hs', Ht', !length_insert.
    repeat split; try done.
    + destruct (decide (j = k)) as [->|Hne].
      * by rewrite list_lookup_insert_eq by lia.
      * rewrite list_lookup_insert_ne by done. apply Hdone. lia.
    + destruct (decide (j = k)) as [->|Hne].
      * by rewrite list_lookup_insert_eq by lia.
      * rewrite list_lookup_insert_ne by done. apply Hdone. lia.
    + destruct (decide (j = k)) as [->|Hne].
      * by rewrite list_lookup_insert_eq by lia.
      * rewrite list_lookup_insert_ne by done. apply Hdone. lia.
    + destruct (decide (j = k)) as [->|Hne].
      * by rewrite list_lookup_insert_eq by lia.
      * rewrite list_lookup_insert_ne by done. apply Hdone. lia.
    + rewrite list_lookup_insert_ne by lia. apply Htodo. lia.
    + rewrite list_lookup_insert_ne by lia. apply Htodo. lia.
  - f_equal. simpl in Hdone.
    assert (dataset_removed_rows s' = R') as HR.
    { apply list_eq_lookup_lt; [lia|]. intros j Hj. apply Hdone. lia. }
    assert (dataset_n_rows s' = N') as HN.
    { apply list_eq_lookup_lt; [lia|]. intros j Hj. apply Hdone. lia. }
    assert (dataset_stop_example s' = stops_from 0 N') as HS.
    { apply list_eq_lookup_lt; [rewrite length_stops_from; lia|].
      rewrite length_stops_from. intros j Hj. apply Hdone. lia. }
    assert (dataset_start_example s' = starts_from 0 N') as HT.
    { apply list_eq_lookup_lt; [rewrite length_starts_from; lia|].
      rewrite length_starts_from. intros j Hj. apply Hdone. lia. }
    apply HDF5_eq; simpl; try done.
    + destruct Hfr. by split.
    + by rewrite HN.
Qed.

(** ** [sorted(set(...))] *)

Lemma elem_of_sorted_set x l : x ∈ sorted_set l <-> x ∈ l.
Proof.
  unfold sorted_set. rewrite merge_sort_Permutation. apply elem_of_remove_dups.
Qed.

Lemma NoDup_sorted_set l : NoDup (sorted_set l).
Proof.
  unfold sorted_set. rewrite merge_sort_Permutation. apply NoDup_remove_dups.
Qed.

Lemma sorted_set_ext l1 l2 :
  (forall x, x ∈ l1 <-> x ∈ l2) -> sorted_set l1 = sorted_set l2.
Proof.
  intros H. apply (Sorted_unique Z.le).
  - apply Sorted_merge_sort, _.
  - apply Sorted_merge_sort, _.
  - apply NoDup_Permutation; try apply NoDup_sorted_set.
    intros x. by rewrite !elem_of_sorted_set.
Qed.

(** ** [remove_rows] keeps the invariant *)

Lemma remove_rows_result_Inv self new :
  Inv self -> within_rows self new -> Inv (remove_rows_result self new).
Proof.
  intros HI Hnew.
  destruct (Inv_lengths _ HI) as (Hlen_n & _).
  pose proof (inv_len_initial _ HI) as Hlen_i.
  pose proof (inv_len_removed _ HI) as Hlen_r.
  assert (length new = length (datasets self)) as Hlen_new.
  { rewrite <- Hlen_n. symmetry. by eapply Forall2_length. }
  split; simpl; try apply HI; try done.
  - rewrite length_zip_with. lia.
  - apply Forall2_same_length_lookup. split; [rewrite length_zip_with; lia|].
    intros i initial merged Hi Hm.
    apply lookup_zip_with_Some in Hm as (old & new_i & -> & Hold & Hnew_i).
    destruct (Forall2_lookup_lr _ _ _ _ _ _ (inv_removed _ HI) Hi Hold) as (H0 & Hnd & Hrange).
    split; [done|]. unfold merge_removed. case_bool_decide; [|done].
    split; [apply NoDup_sorted_set|].
    apply Forall_forall. intros x Hx.
    apply elem_of_sorted_set, elem_of_app in Hx as [Hx|Hx].
    + rewrite Forall_forall in Hrange. by apply Hrange.
    + destruct (lookup_lt_is_Some_2 (dataset_n_rows self) i) as [n Hn].
      { rewrite Hlen_n, <- Hlen_i. by eapply lookup_lt_Some. }
      pose proof (Forall2_lookup_lr _ _ _ _ _ _ (Inv_n_rows_bounds _ HI) Hi Hn) as Hb.
      pose proof (Forall2_lookup_lr _ _ _ _ _ _ Hnew Hn Hnew_i) as Hw.
      rewrite Forall_forall in Hw. specialize (Hw x Hx). simpl in *. lia.
Qed.

Lemma reachable_Inv self : reachable self -> Inv self.
Proof.
  induction 1 as [ds ns rbs cbs self Hwf Hinit | rows self self' Hreach IH Hrm].
  - by eapply init_Inv.
  - destruct (decide (Forall (fun r => 0 <= r < total_n_rows self) rows)) as [Hrows|Hrows].
    + destruct (remove_rows_locate_ok _ _ IH Hrows) as (new & Hloc & Hnew).
      rewrite (remove_rows_ok _ _ _ IH Hloc) in Hrm. injection Hrm as <-.
      by apply remove_rows_result_Inv.
    + apply not_Forall_Exists in Hrows; [|apply _].
      pose proof (remove_rows_locate_raise _ _ IH Hrows) as Hloc.
      unfold remove_rows, m_bind, m_read in Hrm. by rewrite Hloc in Hrm.
Qed.

(** A call that raises leaves a reachable object as it was, so every call
    leads to a reachable object. *)
Lemma remove_rows_reachable rows self :
  reachable self -> reachable (remove_rows rows self).2.
Proof.
  intros Hreach. pose proof (reachable_Inv _ Hreach) as HI.
  destruct (decide (Forall (fun r => 0 <= r < total_n_rows self) rows)) as [Hrows|Hrows].
  - destruct (remove_rows_locate_ok _ _ HI Hrows) as (new & Hloc & Hnew).
    apply (reachable_remove rows self); [done|].
    by rewrite (remove_rows_ok _ _ _ HI Hloc).
  - apply not_Forall_Exists in Hrows; [|apply _].
    pose proof (remove_rows_locate_raise _ _ HI Hrows) as Hloc.
    unfold remove_rows, m_bind, m_read. by rewrite Hloc.
Qed.

Lemma remove_rows_calls_reachable calls self :
  reachable self -> reachable (remove_rows_calls calls self).
Proof.
  revert self. induction calls as [|rows calls IH]; intros self Hreach; simpl; [done|].
  by apply IH, remove_rows_reachable.
Qed.

(** ** The script's collection *)

Lemma script_ac_init :
  __init__ [script_ds1; script_ds2; script_ds3] [96; 96; 96] None None = Ok script_ac.
Proof. reflexivity. Qed.

Lemma script_ac_reachable : reachable script_ac.
Proof.
  eapply reachable_init; [|exact script_ac_init].
  repeat constructor; simpl; lia.
Qed.

(** ** Out-of-bounds removal *)

(** C3. On a reachable object, [remove_rows] with a row outside
    [0, total_n_rows), negative ones included, raises [IndexError] and leaves
    every attribute as it was. *)
Theorem remove_rows_out_of_bounds (self : HDF5) (rows : list Z) :
  reachable self ->
  Exists (fun r => ~ (0 <= r < total_n_rows self)) rows ->
  remove_rows rows self = (Raise IndexError, self).
Proof.
  intros Hreach Hrows. pose proof (reachable_Inv _ Hreach) as HI.
  unfold remove_rows, m_bind, m_read.
  by rewrite (remove_rows_locate_raise _ _ HI Hrows).
Qed.

Lemma remove_rows_out_of_bounds_witness :
  remove_rows [5; -1; 288] script_ac = (Raise IndexError, script_ac).
Proof.
  apply remove_rows_out_of_bounds.
  - exact script_ac_reachable.
  - apply Exists_cons_tl, Exists_cons_hd. simpl. lia.
Defined.

(** ** Contiguous offsets *)

(** C4. On a reachable object the first range starts at 0, every range stops
    at its start plus the dataset's current row count, the next range starts
    where the previous one stops, the total is the sum of the current row
    counts, and every row of [0, total_n_rows) lies in exactly one range,
    all ranges lying within [0, total_n_rows]. *)
Theorem offsets_partition (self : HDF5) :
  reachable self ->
  let start := dataset_start_example self in
  let stop := dataset_stop_example self in
  let n_rows := dataset_n_rows self in
  length start = length (datasets self) /\
  length stop = length (datasets self) /\
  length n_rows = length (datasets self) /\
  start !! 0%nat = Some 0 /\
  (forall i s n, start !! i = Some s -> n_rows !! i = Some n -> stop !! i = Some (s + n)) /\
  (forall i e, stop !! i = Some e -> (S i < length (datasets self))%nat ->
     start !! S i = Some e) /\
  total_n_rows self = py_sum n_rows /\
  (forall r, 0 <= r < total_n_rows self ->
     exists i s e,
       start !! i = Some s /\ stop !! i = Some e /\ s <= r < e /\
       forall j s' e', start !! j = Some s' -> stop !! j = Some e' -> s' <= r < e' -> j = i) /\
  (forall i s e, start !! i = Some s -> stop !! i = Some e ->
     0 <= s <= e /\ e <= total_n_rows self).
Proof.
  intros Hreach start stop n_rows. pose proof (reachable_Inv _ Hreach) as HI.
  destruct (Inv_lengths _ HI) as (Hlen_n & Hlen_stop & Hlen_start).
  pose proof (Inv_n_rows_nonneg _ HI) as Hnn.
  assert (Hclosed : forall i s e, start !! i = Some s -> stop !! i = Some e ->
            exists n, n_rows !! i = Some n /\ s = py_sum (take i n_rows) /\ e = s + n).
  { intros i s e Hs He. destruct (Inv_ranges_lookup self i s e HI) as (n & ? & _ & _ & ? & ?).
    - rewrite lookup_zip_with. fold start. rewrite Hs. simpl. fold stop. by rewrite He.
    - by exists n. }
  split_and!; try done.
  - subst start. rewrite (inv_start _ HI), starts_from_lookup.
    destruct (dataset_n_rows self) as [|n ns] eqn:En; simpl; [|done].
    pose proof (inv_datasets _ HI). destruct (datasets self); simpl in *; [done | lia].
  - intros i s n Hs Hn. subst start stop n_rows.
    rewrite (inv_start _ HI), starts_from_lookup, Hn in Hs. injection Hs as <-.
    rewrite (inv_stop _ HI), stops_from_lookup, Hn. simpl. f_equal; lia.
  - intros i e He Hi. subst start stop.
    destruct (lookup_lt_is_Some_2 (dataset_n_rows self) (S i)) as [n' Hn']; [lia|].
    rewrite (inv_stop _ HI) in He. rewrite (inv_start _ HI).
    by rewrite (starts_from_lookup_S _ _ _ _ _ He Hn').
  - apply HI.
  - intros r Hr.
    destruct (find_range_offsets 0 n_rows r) as [i Hi]; [done | |].
    { subst n_rows. rewrite <- (inv_total _ HI). lia. }
    apply find_range_Some in Hi as (s & e & Hz & Hse).
    subst n_rows. rewrite <- (inv_start _ HI), <- (inv_stop _ HI) in Hz.
    destruct (Inv_ranges_lookup _ _ _ _ HI Hz) as (n & Hn & Hs & He & Hs' & He').
    exists i, s, e. split_and!; try done; try lia.
    intros j sj ej Hsj Hej Hrj.
    destruct (Hclosed _ _ _ Hsj Hej) as (nj & Hnj & Hsj' & Hej').
    destruct (Nat.lt_trichotomy j i) as [Hlt|[->|Hgt]]; [|done|].
    + exfalso.
      pose proof (py_sum_take_le (dataset_n_rows self) (S j) i Hnn) as Hle.
      rewrite (py_sum_take_S _ _ _ Hnj) in Hle. lia.
    + exfalso.
      pose proof (py_sum_take_le (dataset_n_rows self) (S i) j Hnn) as Hle.
      rewrite (py_sum_take_S _ _ _ Hn) in Hle. lia.
  - intros i s e Hs He.
    destruct (Hclosed _ _ _ Hs He) as (n & Hn & -> & ->).
    pose proof (py_sum_nonneg (take i n_rows)) as H0.
    pose proof Hnn as Hnn'. rewrite Forall_forall in Hnn'.
    specialize (Hnn' n (list_elem_of_lookup_2 _ _ _ Hn)).
    split; [split; [by apply H0, Forall_take | lia]|].
    rewrite (inv_total _ HI). fold n_rows. rewrite <- (py_sum_take_S _ _ _ Hn).
    by apply py_sum_take_total.
Qed.

Lemma offsets_partition_witness :
  dataset_start_example script_ac !! 0%nat = Some 0 /\
  total_n_rows script_ac = py_sum (dataset_n_rows script_ac).
Proof.
  pose proof (offsets_partition script_ac script_ac_reachable) as H.
  simpl in H. destruct H as (_ & _ & _ & H0 & _ & _ & Ht & _). by split.
Defined.

(** ** Removing the same rows twice *)

Lemma remove_rows_success self rows s1 :
  Inv self -> remove_rows rows self = (Ok tt, s1) ->
  exists new,
    remove_rows_locate self rows = Ok new /\ within_rows self new /\
    s1 = remove_rows_result self new.
Proof.
  intros HI Hrm.
  destruct (decide (Forall (fun r => 0 <= r < total_n_rows self) rows)) as [Hrows|Hrows].
  - destruct (remove_rows_locate_ok _ _ HI Hrows) as (new & Hloc & Hnew).
    rewrite (remove_rows_ok _ _ _ HI Hloc) in Hrm. injection Hrm as <-.
    by exists new.
  - apply not_Forall_Exists in Hrows; [|apply _].
    pose proof (remove_rows_locate_raise _ _ HI Hrows) as Hloc.
    unfold remove_rows, m_bind, m_read in Hrm. by rewrite Hloc in Hrm.
Qed.


(** ** Boolean masks *)

Lemma py_index_Z n i : 0 <= i < Z.of_nat n -> py_index n i = Some (Z.to_nat i).
Proof.
  intros Hi. unfold py_index.
  by rewrite (proj2 (Z.leb_le _ _)), (proj2 (Z.ltb_lt _ _)) by lia.
Qed.

Lemma setitem_Z {A} (l : list A) i x :
  0 <= i < Z.of_nat (length l) -> setitem l i x = Ok (<[Z.to_nat i:=x]> l).
Proof. intros Hi. unfold setitem. by rewrite py_index_Z. Qed.

Lemma getitem_Z {A} (l : list A) i x :
  0 <= i -> l !! Z.to_nat i = Some x -> getitem l i = Ok x.
Proof.
  intros Hi Hl. rewrite <- (Z2Nat.id i) by done. by apply getitem_nat.
Qed.

Lemma slice_bound_in n i : 0 <= i <= Z.of_nat n -> slice_bound n i = Z.to_nat i.
Proof.
  intros Hi. unfold slice_bound. rewrite (proj2 (Z.ltb_ge _ _)) by lia. f_equal. lia.
Qed.

Lemma clear_from_spec (n : nat) (initial : Z) :
  0 <= initial ->
  clear_from (replicate n true) initial =
  (fun p => bool_decide (p < initial)) <$> seqZ 0 (Z.of_nat n).
Proof.
  intros Hi. unfold clear_from. rewrite length_replicate.
  set (k := slice_bound n initial).
  assert (Hk : k = Z.to_nat (Z.min initial (Z.of_nat n))).
  { unfold k, slice_bound. by rewrite (proj2 (Z.ltb_ge _ _)) by lia. }
  apply list_eq_lookup_lt.
  { rewrite length_app, length_take, !length_replicate, length_fmap, length_seqZ. lia. }
  rewrite length_fmap, length_seqZ. intros j Hj.
  rewrite list_lookup_fmap, lookup_seqZ_lt by lia. simpl.
  destruct (decide (j < k)%nat) as [Hlt|Hge].
  - rewrite lookup_app_l by (rewrite length_take, length_replicate; lia).
    rewrite lookup_take_lt by done. rewrite lookup_replicate_2 by lia.
    by rewrite bool_decide_eq_true_2 by lia.
  - rewrite lookup_app_r by (rewrite length_take, length_replicate; lia).
    rewrite length_take, length_replicate.
    rewrite lookup_replicate_2 by lia.
    by rewrite bool_decide_eq_false_2 by lia.
Qed.

Lemma clear_at_spec (n : nat) (initial : Z) (removed : list Z) (m : list bool) :
  length m = n ->
  Forall (fun x => 0 <= x < Z.of_nat n) removed ->
  exists m',
    clear_at m removed = Ok m' /\ length m' = n /\
    forall j, m' !! j = (fun b => b && bool_decide (Z.of_nat j ∉ removed)) <$> m !! j.
Proof.
  intros Hlen Hrem. revert m Hlen.
  induction Hrem as [|x removed Hx Hrem IH]; intros m Hlen; simpl.
  - exists m. repeat split; [done|]. intros j.
    destruct (m !! j) as [b|]; simpl; [|done].
    by rewrite andb_true_r.
  - unfold clear_at. simpl. rewrite setitem_Z by lia. simpl.
    destruct (IH (<[Z.to_nat x:=false]> m)) as (m' & Hm' & Hlen' & Hlook).
    { by rewrite length_insert. }
    exists m'. unfold clear_at in Hm'. repeat split; [done | done |].
    intros j. rewrite Hlook.
    destruct (decide (j = Z.to_nat x)) as [->|Hne].
    + rewrite list_lookup_insert_eq by lia.
      destruct (lookup_lt_is_Some_2 m (Z.to_nat x)) as [b ->]; [lia|]. simpl.
      rewrite (bool_decide_eq_false_2 (_ ∉ x :: _)).
      * by rewrite andb_false_r.
      * intros Hn. apply Hn. rewrite Z2Nat.id by lia. by left.
    + rewrite list_lookup_insert_ne by done.
      destruct (m !! j) as [b|]; simpl; [|done]. do 2 f_equal.
      apply bool_decide_ext. rewrite not_elem_of_cons.
      split; [|by intros [_ ?]]. intros ?. split; [lia | done].
Qed.

Lemma row_mask_spec (n : nat) (initial : Z) (removed : list Z) :
  0 <= initial <= Z.of_nat n ->
  Forall (fun x => 0 <= x < initial) removed ->
  clear_at (clear_from (replicate n true) initial) removed =
  Ok (keep_mask n initial removed).
Proof.
  intros Hi Hrem. rewrite clear_from_spec by lia.
  destruct (clear_at_spec n initial removed
              ((fun p => bool_decide (p < initial)) <$> seqZ 0 (Z.of_nat n)))
    as (m' & -> & Hlen & Hlook).
  { rewrite length_fmap, length_seqZ. lia. }
  { eapply Forall_impl; [done|]. simpl. lia. }
  f_equal. unfold keep_mask. apply list_eq_lookup_lt.
  { rewrite length_fmap, length_seqZ. lia. }
  rewrite length_fmap, length_seqZ. intros j Hj.
  rewrite Hlook, !list_lookup_fmap, lookup_seqZ_lt by lia. simpl. f_equal.
  rewrite <- bool_decide_and. done.
Qed.

Lemma length_filter_zip_mask {A} (bits : list A) (mask : list bool) :
  length bits = length mask ->
  length (filter (fun p : A * bool => p.2 = true) (zip bits mask)) =
  length (filter (fun b : bool => b = true) mask).
Proof.
  revert mask. induction bits as [|x bits IH]; intros [|b mask] Hlen; simpl in *; try done.
  rewrite !filter_cons. simpl. injection Hlen as Hlen.
  destruct (decide (b = true)); simpl; by rewrite IH.
Qed.

Lemma length_filter_bool_decide {A} (Q : A -> Prop) `{!forall x, Decision (Q x)}
    (l : list A) :
  length (filter (fun b : bool => b = true) ((fun x => bool_decide (Q x)) <$> l)) =
  length (filter Q l).
Proof.
  induction l as [|x l IH]; [done|].
  rewrite fmap_cons, !filter_cons.
  destruct (decide (Q x)) as [HQ|HQ].
  - rewrite decide_True by (by apply bool_decide_eq_true_2).
    simpl. by rewrite IH.
  - rewrite decide_False by (by rewrite bool_decide_eq_false_2).
    done.
Qed.

Lemma keep_mask_count (n : nat) (initial : Z) (removed : list Z) :
  0 <= initial <= Z.of_nat n ->
  NoDup removed ->
  Forall (fun x => 0 <= x < initial) removed ->
  Z.of_nat (length (filter (fun b : bool => b = true) (keep_mask n initial removed))) =
  initial - Z.of_nat (length removed).
Proof.
  intros Hi Hnd Hrem. unfold keep_mask.
  rewrite (length_filter_bool_decide (fun p => p < initial /\ p ∉ removed)).
  set (X := filter (fun p => p < initial /\ p ∉ removed) (seqZ 0 (Z.of_nat n))).
  rewrite Forall_forall in Hrem.
  assert (Hperm : removed ++ X ≡ₚ seqZ 0 initial).
  { apply NoDup_Permutation.
    - apply NoDup_app. split; [done|]. split.
      + intros x Hx HX. apply list_elem_of_filter in HX as [[_ HX] _]. done.
      + apply NoDup_filter, NoDup_seqZ.
    - apply NoDup_seqZ.
    - intros x. rewrite elem_of_app, elem_of_seqZ. unfold X.
      rewrite list_elem_of_filter, elem_of_seqZ. split.
      + intros [Hx|[[Hx _] Hx']]; [specialize (Hrem x Hx); simpl in Hrem|]; lia.
      + intros Hx. destruct (decide (x ∈ removed)); [by left|]. right.
        split; [split; [lia|done] | lia]. }
  apply Permutation_length in Hperm.
  rewrite length_app, length_seqZ in Hperm. lia.
Qed.

Lemma length_surviving {A} (initial : Z) (removed : list Z) (bits : list A) :
  0 <= initial <= Z.of_nat (length bits) ->
  NoDup removed ->
  Forall (fun x => 0 <= x < initial) removed ->
  Z.of_nat (length (surviving initial removed bits)) = initial - Z.of_nat (length removed).
Proof.
  intros Hi Hnd Hrem. unfold surviving.
  rewrite length_fmap, length_filter_zip_mask.
  - by apply keep_mask_count.
  - unfold keep_mask. rewrite length_fmap, length_seqZ. lia.
Qed.

Lemma length_unpack (bits : Z) (a : list Z) :
  length (_unpack_binary_bytes_from_ints bits a) = (length a * Z.to_nat bits)%nat.
Proof.
  unfold _unpack_binary_bytes_from_ints.
  induction a as [|w a IH]; [done|].
  rewrite bind_cons, length_app, length_fmap, length_seq, IH. simpl. lia.
Qed.

Lemma length_physical_column self d column :
  length (physical_column self d column) =
  ((shape d).1 * Z.to_nat (dataset_pack_size self))%nat.
Proof.
  unfold physical_column. by rewrite length_unpack, length_fmap, length_seq.
Qed.

(** ** [get_column] *)

(** The body of the loop of [get_column], on a reachable object. *)
Lemma get_column_dataset_spec self column res i d initial removed s n :
  Inv self ->
  0 <= column < dataset_n_cols self ->
  datasets self !! i = Some d ->
  dataset_initial_n_rows self !! i = Some initial ->
  dataset_removed_rows self !! i = Some removed ->
  dataset_start_example self !! i = Some s ->
  dataset_n_rows self !! i = Some n ->
  get_column_dataset self column res (i, d) =
  np_assign_slice res s (s + n)
    (Z.b2z <$> surviving initial removed (physical_column self d column)) /\
  Z.of_nat (length (surviving initial removed (physical_column self d column))) = n.
Proof.
  intros HI Hc Hd Hi Hr Hs Hn.
  destruct (Forall2_lookup_lr _ _ _ _ _ _ (inv_removed _ HI) Hi Hr) as (H0 & Hnd & Hrange).
  pose proof (Forall2_lookup_lr _ _ _ _ _ _ (inv_capacity _ HI) Hd Hi) as Hcap.
  simpl in Hcap.
  assert (Hpack : 0 <= dataset_pack_size self) by (destruct (inv_pack_size _ HI); lia).
  assert (Hcap' : 0 <= initial <=
                  Z.of_nat ((shape d).1 * Z.to_nat (dataset_pack_size self))) by lia.
  assert (Hn' : n = initial - Z.of_nat (length removed)).
  { rewrite (inv_n_rows _ HI), lookup_zip_with, Hi in Hn. simpl in Hn.
    rewrite Hr in Hn. simpl in Hn. congruence. }
  assert (He : dataset_stop_example self !! i = Some (s + n)).
  { rewrite (inv_start _ HI), starts_from_lookup, Hn in Hs. injection Hs as <-.
    rewrite (inv_stop _ HI), stops_from_lookup, Hn. simpl. f_equal; lia. }
  split.
  - unfold get_column_dataset.
    rewrite (getitem_nat _ _ _ Hi). simpl.
    rewrite (getitem_nat _ _ _ Hr). simpl.
    rewrite row_mask_spec by done. simpl.
    unfold h5_column.
    pose proof (inv_n_cols _ HI) as Hcols. rewrite Forall_forall in Hcols.
    rewrite py_index_Z by (rewrite (Hcols d (list_elem_of_lookup_2 _ _ _ Hd)); lia).
    simpl. fold (physical_column self d column).
    unfold np_select.
    rewrite bool_decide_eq_true_2.
    2:{ rewrite length_physical_column. unfold keep_mask.
        rewrite length_fmap, length_seqZ. lia. }
    simpl. rewrite (getitem_nat _ _ _ Hs). simpl.
    rewrite (getitem_nat _ _ _ He). simpl.
    unfold surviving. by rewrite length_physical_column.
  - rewrite length_surviving; [lia | | done | done].
    by rewrite length_physical_column.
Qed.

Lemma for_each_imap_from {A S} (P : nat -> S -> Prop)
    (body : S -> nat * A -> result S) (l : list A) (a : nat) (s : S) :
  P a s ->
  (forall k x s, l !! k = Some x -> P (a + k)%nat s ->
     exists s', body s ((a + k)%nat, x) = Ok s' /\ P (Datatypes.S (a + k)) s') ->
  exists s', for_each (imap (fun i x => ((a + i)%nat, x)) l) body s = Ok s' /\
             P (a + length l)%nat s'.
Proof.
  revert a s. induction l as [|x l IH]; intros a s HP Hbody; simpl.
  - exists s. by rewrite Nat.add_0_r.
  - destruct (Hbody 0%nat x s) as (s' & Hs' & HP'); [done | by rewrite Nat.add_0_r |].
    rewrite Nat.add_0_r in Hs', HP'. rewrite Nat.add_0_r, Hs'. simpl.
    destruct (IH (Datatypes.S a) s') as (s'' & Hs'' & HP''); [done | |].
    + intros k y s0 Hk HPk. replace (Datatypes.S a + k)%nat with (a + Datatypes.S k)%nat in * by lia.
      by apply Hbody.
    + exists s''. split.
      * rewrite <- Hs''. f_equal. apply imap_ext. intros i y _. simpl. f_equal. lia.
      * by replace (a + Datatypes.S (length l))%nat with (Datatypes.S a + length l)%nat by lia.
Qed.

Lemma for_each_enumerate {A S} (P : nat -> S -> Prop)
    (body : S -> nat * A -> result S) (l : list A) (s : S) :
  P 0%nat s ->
  (forall k x s, l !! k = Some x -> P k s ->
     exists s', body s (k, x) = Ok s' /\ P (Datatypes.S k) s') ->
  exists s', for_each (imap pair l) body s = Ok s' /\ P (length l) s'.
Proof.
  intros HP Hbody.
  destruct (for_each_imap_from P body l 0%nat s HP) as (s' & Hs' & HP'); [|by exists s'].
  intros k x s0 Hk HPk. simpl in *. by apply Hbody.
Qed.

Lemma np_assign_slice_fill (pre v : list Z) (m : nat) (s n : Z) :
  Z.of_nat (length pre) = s ->
  Z.of_nat (length v) = n ->
  (length v <= m)%nat ->
  np_assign_slice (pre ++ replicate m 0) s (s + n) v =
  Ok (pre ++ v ++ replicate (m - length v) 0).
Proof.
  intros Hs Hn Hm. unfold np_assign_slice.
  rewrite length_app, length_replicate.
  rewrite !slice_bound_in by lia.
  replace (Z.to_nat (s + n) - Z.to_nat s)%nat with (length v) by lia.
  rewrite bool_decide_eq_true_2 by done.
  replace (Z.to_nat s) with (length pre) by lia.
  rewrite take_app_length. f_equal. f_equal. f_equal.
  rewrite drop_app_ge by lia.
  replace (length pre + length v - length pre)%nat with (length v) by lia.
  by rewrite drop_replicate.
Qed.

(** C5. On a reachable object and for a column within [0, n_cols),
    [get_column] returns, dataset after dataset, the bits of the physical
    rows that are below the dataset's declared row count and not among its
    removed rows, and their number is [total_n_rows]. *)
Theorem get_column_spec (self : HDF5) (column : Z) :
  reachable self ->
  0 <= column < dataset_n_cols self ->
  get_column self column = Ok (column_rows self column) /\
  Z.of_nat (length (column_rows self column)) = total_n_rows self.
Proof.
  intros Hreach Hc. pose proof (reachable_Inv _ Hreach) as HI.
  destruct (Inv_lengths _ HI) as (Hlen_n & Hlen_stop & Hlen_start).
  pose proof (inv_len_initial _ HI) as Hlen_i.
  pose proof (inv_len_removed _ HI) as Hlen_r.
  pose proof (Inv_n_rows_nonneg _ HI) as Hnn.
  unfold column_rows.
  set (V := zip_with
    (fun d ir => Z.b2z <$> surviving ir.1 ir.2 (physical_column self d column))
    (datasets self)
    (zip (dataset_initial_n_rows self) (dataset_removed_rows self))).
  assert (HlenV : length V = length (datasets self)).
  { unfold V. rewrite !length_zip_with. lia. }
  assert (Htot : 0 <= total_n_rows self).
  { rewrite (inv_total _ HI). by apply py_sum_nonneg. }
  unfold get_column, np_zeros. rewrite (proj2 (Z.ltb_ge _ _)) by lia. simpl.
  destruct (for_each_enumerate
    (fun k res =>
       res = mjoin (take k V) ++
             replicate (Z.to_nat (total_n_rows self) - length (mjoin (take k V))) 0 /\
       Z.of_nat (length (mjoin (take k V))) = py_sum (take k (dataset_n_rows self)))
    (get_column_dataset self column) (datasets self)
    (replicate (Z.to_nat (total_n_rows self)) 0)) as (res & Hres & -> & Hlen).
  - simpl. split; [f_equal; lia | done].
  - intros k d res Hd [-> Hpre].
    pose proof (lookup_lt_Some _ _ _ Hd) as Hk.
    destruct (lookup_lt_is_Some_2 (dataset_initial_n_rows self) k) as [initial Hi]; [lia|].
    destruct (lookup_lt_is_Some_2 (dataset_removed_rows self) k) as [removed Hr]; [lia|].
    destruct (lookup_lt_is_Some_2 (dataset_n_rows self) k) as [n Hn]; [lia|].
    assert (Hs : dataset_start_example self !! k = Some (py_sum (take k (dataset_n_rows self)))).
    { rewrite (inv_start _ HI), starts_from_lookup, Hn. simpl. f_equal; lia. }
    destruct (get_column_dataset_spec self column
      (mjoin (take k V) ++
       replicate (Z.to_nat (total_n_rows self) - length (mjoin (take k V))) 0)
      k d initial removed _ n HI Hc Hd Hi Hr Hs Hn) as [-> Hcount].
    assert (HV : V !! k = Some (Z.b2z <$> surviving initial removed (physical_column self d column))).
    { unfold V. rewrite lookup_zip_with, Hd. simpl.
      rewrite lookup_zip_with, Hi. simpl. by rewrite Hr. }
    pose proof (py_sum_take_total (dataset_n_rows self) (S k) Hnn) as Hle.
    rewrite (py_sum_take_S _ _ _ Hn), <- (inv_total _ HI) in Hle.
    rewrite np_assign_slice_fill; [| done | by rewrite length_fmap | rewrite length_fmap; lia].
    eexists; split; [done|].
    rewrite (take_S_r _ _ _ HV), join_app. simpl. rewrite app_nil_r.
    rewrite <- app_assoc, !length_app, length_fmap.
    split; [do 3 f_equal; lia|].
    rewrite (py_sum_take_S _ _ _ Hn). lia.
  - rewrite <- HlenV, !take_ge in * by lia.
    rewrite <- (inv_total _ HI) in Hlen.
    rewrite Hres. split; [|done].
    f_equal. replace (Z.to_nat (total_n_rows self) - length (mjoin V))%nat with 0%nat by lia.
    simpl. by rewrite app_nil_r.
Qed.

Lemma script_removed_reachable : reachable script_removed.
Proof.
  apply (reachable_remove [0; 31; 97; 145; 234] script_ac);
    [exact script_ac_reachable | vm_compute; reflexivity].
Qed.

Lemma get_column_spec_witness :
  get_column script_removed 0 = Ok (column_rows script_removed 0) /\
  Z.of_nat (length (column_rows script_removed 0)) = total_n_rows script_removed.
Proof.
  apply get_column_spec.
  - exact script_removed_reachable.
  - vm_compute. by split.
Defined.

(** ** [build_row_mask] *)

Lemma mask_widths w :
  w ∈ [8; 16; 32; 64] ->
  0 < w /\ bool_decide (w ∈ [8; 16; 32; 64; 128]) = true /\
  exists d, np_dtype_u (w / 8) = Ok d /\ dtype_bits d = w.
Proof.
  intros Hw. repeat (apply elem_of_cons in Hw as [->|Hw]);
    [| | | |by apply elem_of_nil in Hw];
    (split; [lia|]; split; [by vm_compute|]; eexists; split; [by vm_compute | done]).
Qed.

Lemma ceil_div_pos a w :
  0 < w -> ceil_div a w = Ok ((a + w - 1) / w).
Proof.
  intros Hw. unfold ceil_div. rewrite (proj2 (Z.eqb_neq _ _)) by lia. f_equal.
  apply (Z.div_unique _ _ _ (w - 1 - (- a) mod w)).
  - left. pose proof (Z.mod_pos_bound (- a) w Hw). lia.
  - pose proof (Z.div_mod (- a) w). lia.
Qed.

Lemma row_word_bound r n w :
  0 < w -> 0 <= r < n -> 0 <= r / w < (n + w - 1) / w.
Proof.
  intros Hw Hr. split; [apply Z.div_pos; lia|].
  replace (n + w - 1) with ((n - 1) + 1 * w) by lia.
  rewrite Z.div_add by lia.
  pose proof (Z.div_le_mono r (n - 1) w). lia.
Qed.

Lemma testbit_set_bit old e b :
  0 <= e -> 0 <= b ->
  Z.testbit (Z.lor old (Z.shiftl 1 e)) b = Z.testbit old b || bool_decide (b = e).
Proof.
  intros He Hb. rewrite Z.lor_spec, Z.shiftl_1_l, Z.pow2_bits_eqb by done.
  f_equal. destruct (Z.eqb_spec e b); [by rewrite bool_decide_eq_true_2 |
                                      by rewrite bool_decide_eq_false_2].
Qed.

(** The loop of [build_row_mask]: row [r] sets bit [w - 1 - r mod w] of
    word [r / w] and nothing else changes. *)
Lemma build_row_mask_loop (w : Z) (rows masks : list Z) :
  0 < w ->
  Forall (fun r => 0 <= r / w < Z.of_nat (length masks)) rows ->
  exists masks',
    for_each rows (build_row_mask_step w) masks = Ok masks' /\
    length masks' = length masks /\
    forall (k : nat) (b : Z), 0 <= b ->
      Z.testbit (masks' !!! k) b = true <->
      Z.testbit (masks !!! k) b = true \/
      exists r, r ∈ rows /\ r / w = Z.of_nat k /\ b = w - 1 - r mod w.
Proof.
  intros Hw Hrows. revert masks Hrows.
  induction rows as [|r rows IH]; intros masks Hrows; simpl.
  - exists masks. split_and!; try done. intros k b Hb. split; [by left|].
    intros [?|(r & Hr & _)]; [done | by apply elem_of_nil in Hr].
  - inversion_clear Hrows as [|?? Hr Hrows'].
    unfold build_row_mask_step at 1.
    destruct (lookup_lt_is_Some_2 masks (Z.to_nat (r / w))) as [old Hold]; [lia|].
    rewrite (getitem_Z _ _ _ (proj1 Hr) Hold). simpl.
    rewrite setitem_Z by done. simpl.
    set (e := w - (r - w * (r / w)) - 1).
    assert (He : e = w - 1 - r mod w) by (unfold e; rewrite Z.mod_eq by lia; lia).
    assert (He0 : 0 <= e) by (pose proof (Z.mod_pos_bound r w Hw); lia).
    destruct (IH (<[Z.to_nat (r / w):=Z.lor old (Z.shiftl 1 e)]> masks))
      as (masks' & -> & Hlen & Hbits).
    { by rewrite length_insert. }
    exists masks'. split; [done|]. split; [by rewrite Hlen, length_insert|].
    intros k b Hb. rewrite Hbits by done.
    destruct (decide (k = Z.to_nat (r / w))) as [->|Hne].
    + rewrite list_lookup_total_insert_eq by lia.
      rewrite (list_lookup_total_correct _ _ _ Hold).
      rewrite testbit_set_bit, orb_true_iff, bool_decide_eq_true by done.
      split.
      * intros [[? | ->] | (r' & Hr' & ?)]; [by left | |].
        -- right. exists r. split; [by left|]. split; [lia | done].
        -- right. exists r'. split; [by right | done].
      * intros [?|(r' & Hr' & Hq & ->)]; [by left; left|].
        apply elem_of_cons in Hr' as [-> | Hr']; [left; right; lia|].
        right. by exists r'.
    + rewrite list_lookup_total_insert_ne by done.
      split.
      * intros [?|(r' & Hr' & ?)]; [by left|]. right. exists r'. split; [by right | done].
      * intros [?|(r' & Hr' & Hq & ->)]; [by left|].
        apply elem_of_cons in Hr' as [-> | Hr']; [lia|].
        right. by exists r'.
Qed.

(** For the widths numpy has an unsigned type of, [build_row_mask] returns
    [ceil(row_count / w)] words, row [r] setting bit [w - 1 - r mod w] of
    word [r div w] and no other bit being set. *)
Lemma build_row_mask_spec (rows : list Z) (row_count w : Z) :
  w ∈ [8; 16; 32; 64] ->
  Forall (fun r => 0 <= r < row_count) rows ->
  exists masks,
    build_row_mask rows row_count w = Ok masks /\
    length masks = Z.to_nat ((row_count + w - 1) / w) /\
    forall (k : nat) (word b : Z), masks !! k = Some word -> 0 <= b ->
      Z.testbit word b = true <->
      exists r, r ∈ rows /\ r / w = Z.of_nat k /\ b = w - 1 - r mod w.
Proof.
  intros Hw Hrows. destruct (mask_widths _ Hw) as (Hpos & Hin & d & Hd & Hbits).
  unfold build_row_mask. rewrite Hin. simpl.
  rewrite ceil_div_pos by done. simpl.
  destruct (build_row_mask_loop w rows
              (replicate (Z.to_nat ((row_count + w - 1) / w)) 0) Hpos)
    as (masks & -> & Hlen & Hmask).
  { rewrite length_replicate. eapply Forall_impl; [done|]. simpl. intros r Hr.
    pose proof (row_word_bound r row_count w Hpos Hr). lia. }
  simpl. rewrite Hd. simpl. rewrite length_replicate in Hlen.
  exists (np_array masks d). split; [done|].
  split; [by unfold np_array; rewrite length_fmap|].
  intros k word b Hword Hb. unfold np_array in Hword. rewrite Hbits in Hword.
  rewrite list_lookup_fmap in Hword.
  destruct (masks !! k) as [m|] eqn:Hm; simpl in Hword; [|done].
  injection Hword as <-.
  pose proof (Hmask k b Hb) as Hkb.
  rewrite (list_lookup_total_correct _ _ _ Hm) in Hkb.
  assert (Hzero : Z.testbit
            ((replicate (Z.to_nat ((row_count + w - 1) / w)) 0) !!! k) b = false).
  { rewrite (list_lookup_total_correct _ _ 0); [apply Z.bits_0|].
    apply lookup_replicate_2. apply lookup_lt_Some in Hm. lia. }
  rewrite Hzero in Hkb.
  destruct (decide (b < w)) as [Hlt|Hge].
  - rewrite Z.mod_pow2_bits_low by lia. rewrite Hkb.
    split; [by intros [?|?] | by right].
  - rewrite Z.mod_pow2_bits_high by lia. split; [done|].
    intros (r & _ & _ & ->). pose proof (Z.mod_pos_bound r w Hpos). lia.
Qed.

Lemma build_row_mask_empty (row_count w : Z) :
  w ∈ [8; 16; 32; 64] ->
  build_row_mask [] row_count w = Ok (replicate (Z.to_nat ((row_count + w - 1) / w)) 0).
Proof.
  intros Hw. destruct (mask_widths _ Hw) as (Hpos & Hin & d & Hd & Hbits).
  unfold build_row_mask. rewrite Hin. simpl.
  rewrite ceil_div_pos by done. simpl. rewrite Hd. simpl. f_equal.
  unfold np_array. rewrite fmap_replicate. f_equal.
Qed.

Lemma build_row_mask_other_width (rows : list Z) (row_count w : Z) :
  w ∉ [8; 16; 32; 64; 128] -> build_row_mask rows row_count w = Raise ValueError.
Proof.
  intros Hw. unfold build_row_mask. by rewrite bool_decide_eq_false_2.
Qed.

(** C6, as the code behaves at width 128, which its own check and error
    message list as supported: the loop runs, then the array cannot be built,
    numpy having no unsigned type of 16 bytes.  Whatever the rows, the call
    raises; with row 0 of one row it raises [TypeError]. *)
Theorem build_row_mask_128 :
  (forall rows row_count, exists e, build_row_mask rows row_count 128 = Raise e) /\
  build_row_mask [0] 1 128 = Raise TypeError /\
  build_row_mask [] 0 128 = Raise TypeError.
Proof.
  split; [|by vm_compute].
  intros rows row_count. unfold build_row_mask. simpl.
  destruct (for_each _ _ _); simpl; eauto.
Qed.

(** ** Repeated rows in [sum_rows] *)

Lemma repeats_refl {A} (l : list A) : repeats l l.
Proof. induction l; constructor; auto. Qed.

Lemma repeats_nil_l {A} (l : list A) : repeats [] l -> l = [].
Proof.
  intros H. remember (@nil A) as l0 eqn:E in H.
  induction H as [|x l0 l' H IH|x l0 l' H IH]; [done | done |].
  by specialize (IH E).
Qed.

Lemma repeats_nil_r {A} (l : list A) : repeats l [] -> l = [].
Proof. by inversion 1. Qed.

Lemma repeats_length_pos {A} (l l' : list A) :
  repeats l l' -> (0 < length l)%nat <-> (0 < length l')%nat.
Proof.
  intros H. destruct l as [|x l], l' as [|y l']; simpl; try (split; lia).
  - by apply repeats_nil_l in H.
  - by apply repeats_nil_r in H.
Qed.

Lemma repeats_elem_of {A} (l l' : list A) x : repeats l l' -> x ∈ l <-> x ∈ l'.
Proof.
  induction 1 as [|y l l' H IH|y l l' H IH]; [done | |].
  - by rewrite !elem_of_cons, IH.
  - rewrite IH, !elem_of_cons. tauto.
Qed.

Lemma repeats_filter {A} (P : A -> Prop) `{!forall x, Decision (P x)} (l l' : list A) :
  repeats l l' -> repeats (filter P l) (filter P l').
Proof.
  induction 1 as [|y l l' Hr IH|y l l' Hr IH]; [constructor | |].
  - rewrite !filter_cons. destruct (decide (P y)); [by constructor | done].
  - rewrite !filter_cons in *. destruct (decide (P y)); [by constructor | done].
Qed.

Lemma repeats_fmap {A B} (f : A -> B) (l l' : list A) :
  repeats l l' -> repeats (f <$> l) (f <$> l').
Proof. induction 1; rewrite ?fmap_cons in *; by constructor. Qed.

Lemma comprehension_repeats {A B} (f : A -> result B) (l l' : list A) :
  repeats l l' -> result_rel repeats (comprehension f l) (comprehension f l').
Proof.
  induction 1 as [|x l l' H IH|x l l' H IH]; simpl in *.
  - constructor.
  - destruct (f x) as [y|e]; simpl; [|done].
    destruct (comprehension f l), (comprehension f l'); simpl in *; try done.
    by constructor.
  - destruct (f x) as [y|e]; simpl in *; [|done].
    destruct (comprehension f l), (comprehension f l'); simpl in *; try done.
    by constructor.
Qed.

Lemma comprehension_ext {A B} (f g : A -> result B) (l : list A) :
  (forall x, f x = g x) -> comprehension f l = comprehension g l.
Proof. intros H. induction l as [|x l IH]; simpl; [done|]. by rewrite H, IH. Qed.

(** A loop whose body changes nothing when run again on the same element
    does not see repetitions. *)
Lemma for_each_repeats {A S} (body : S -> A -> result S) (l l' : list A) (s : S) :
  (forall s x s', body s x = Ok s' -> body s' x = Ok s') ->
  repeats l l' -> for_each l body s = for_each l' body s.
Proof.
  intros Hidem H. revert s.
  induction H as [|x l l' H IH|x l l' H IH]; intros s; simpl; [done | |].
  - destruct (body s x); simpl; [apply IH | done].
  - rewrite IH. simpl. destruct (body s x) as [s1|e] eqn:E; simpl; [|done].
    by rewrite (Hidem _ _ _ E).
Qed.

Lemma build_row_mask_step_idem w masks idx masks' :
  build_row_mask_step w masks idx = Ok masks' ->
  build_row_mask_step w masks' idx = Ok masks'.
Proof.
  unfold build_row_mask_step, getitem, setitem.
  destruct (py_index (length masks) (idx / w)) as [k|] eqn:Ek; [|done].
  destruct (masks !! k) as [old|] eqn:Eold; simpl; [|done].
  intros [= <-].
  rewrite length_insert, Ek.
  rewrite list_lookup_insert_eq by (by eapply lookup_lt_Some). simpl.
  rewrite list_insert_insert_eq. do 2 f_equal.
  by rewrite <- Z.lor_assoc, Z.lor_diag.
Qed.

Lemma build_row_mask_repeats (l l' : list Z) (n w : Z) :
  repeats l l' -> build_row_mask l n w = build_row_mask l' n w.
Proof.
  intros H. unfold build_row_mask.
  destruct (negb _); [done|]. destruct (ceil_div n w); simpl; [|done].
  by rewrite (for_each_repeats _ l l' _ (build_row_mask_step_idem w) H).
Qed.

Lemma sum_rows_masks_repeats self (rel rel' : list (list Z)) :
  Forall2 repeats rel rel' -> sum_rows_masks self rel = sum_rows_masks self rel'.
Proof.
  intros H. unfold sum_rows_masks. apply comprehension_ext. intros i.
  pose proof (Forall2_length _ _ _ H) as Hlen.
  destruct (decide (i < length rel)%nat) as [Hi|Hi].
  - destruct (lookup_lt_is_Some_2 rel i Hi) as [a Ha].
    destruct (lookup_lt_is_Some_2 rel' i) as [a' Ha']; [lia|].
    pose proof (Forall2_lookup_lr _ _ _ _ _ _ H Ha Ha') as Hr.
    rewrite (getitem_nat _ _ _ Ha), (getitem_nat _ _ _ Ha'). simpl.
    pose proof (repeats_length_pos _ _ Hr) as Hpos.
    destruct (decide (0 < length a)%nat) as [Hp|Hp].
    + rewrite !bool_decide_eq_true_2 by tauto.
      destruct (getitem (dataset_n_rows self) (Z.of_nat i)); simpl; [|done].
      by apply build_row_mask_repeats.
    + rewrite !bool_decide_eq_false_2 by tauto. done.
  - rewrite (getitem_nat_ge rel), (getitem_nat_ge rel') by lia. done.
Qed.

Lemma get_row_dataset_from_range self r idxs ds :
  get_row_dataset_from self r idxs = Ok ds ->
  ds = -1 \/ exists i, i ∈ idxs /\ ds = Z.of_nat i.
Proof.
  induction idxs as [|i idxs IH]; simpl.
  - intros [= <-]. by left.
  - intros H.
    assert (get_row_dataset_from self r idxs = Ok ds ->
            ds = -1 \/ exists j, j ∈ i :: idxs /\ ds = Z.of_nat j) as Hrec.
    { intros H'. destruct (IH H') as [?|(j & ? & ?)]; [by left|].
      right. exists j. split; [by right | done]. }
    bind_ok H. destruct (a >? r); [|by apply Hrec].
    bind_ok H. destruct (r >=? a0); [|by apply Hrec].
    injection H as <-. right. exists i. split; [by left | done].
Qed.

Lemma locate_physical_range self r ds p :
  locate_physical self r = Ok (ds, p) ->
  exists i, ds = Z.of_nat i /\ (i < length (datasets self))%nat.
Proof.
  unfold locate_physical. intros H. bind_ok H.
  destruct (get_row_dataset_from_range _ _ _ _ E) as [->|(i & Hi & ->)]; [done|].
  destruct (negb _); [|done]. bind_ok H. bind_ok H. injection H as <- <-.
  exists i. split; [done|]. apply elem_of_seq in Hi. lia.
Qed.

Lemma distribute_lookup n pairs (j : nat) :
  (j < n)%nat ->
  distribute n pairs !! j = Some ((filter (fun q => q.1 = Z.of_nat j) pairs).*2).
Proof.
  intros Hj. unfold distribute. by rewrite list_lookup_fmap, lookup_seq_lt.
Qed.

Lemma length_distribute n pairs : length (distribute n pairs) = n.
Proof. unfold distribute. by rewrite length_fmap, length_seq. Qed.

Lemma distribute_nil (acc : list (list Z)) :
  zip_with app acc (distribute (length acc) []) = acc.
Proof.
  apply list_eq_lookup_lt; [rewrite length_zip_with, length_distribute; lia|].
  intros j Hj. rewrite lookup_zip_with, distribute_lookup by done.
  destruct (acc !! j); simpl; [|done]. by rewrite app_nil_r.
Qed.

Lemma distribute_cons (acc : list (list Z)) (i : nat) (a : list Z) (p : Z) pairs :
  acc !! i = Some a ->
  zip_with app (<[i:=a ++ [p]]> acc) (distribute (length acc) pairs) =
  zip_with app acc (distribute (length acc) ((Z.of_nat i, p) :: pairs)).
Proof.
  intros Ha. pose proof (lookup_lt_Some _ _ _ Ha) as Hi.
  apply list_eq_lookup_lt.
  { by rewrite !length_zip_with, length_insert, !length_distribute. }
  rewrite length_zip_with, length_distribute. intros j Hj.
  rewrite !lookup_zip_with, !distribute_lookup by lia.
  rewrite filter_cons. simpl.
  destruct (decide (j = i)) as [->|Hne].
  - rewrite list_lookup_insert_eq by done. rewrite Ha. simpl.
    rewrite decide_True by done. by rewrite <- app_assoc.
  - rewrite list_lookup_insert_ne by done.
    rewrite decide_False by lia. done.
Qed.

Lemma sum_rows_locate_pairs self rows :
  sum_rows_locate self rows =
  (pairs <- comprehension (locate_physical self) rows ;;
   Ok (distribute (length (datasets self)) pairs)).
Proof.
  unfold sum_rows_locate.
  set (n := length (datasets self)).
  assert (Hgen : forall acc, length acc = n ->
    for_each rows (fun dataset_relative_rows row_idx =>
      ds_idx <- _get_row_dataset self row_idx ;;
      if negb (ds_idx =? -1) then
        start <- getitem (dataset_start_example self) ds_idx ;;
        let relative_row_idx := row_idx - start in
        removed <- getitem (dataset_removed_rows self) ds_idx ;;
        let deleted_row_offset :=
          Z.of_nat (length (filter (fun x => x <= relative_row_idx) removed)) in
        let relative_row_idx := relative_row_idx + deleted_row_offset in
        l <- getitem dataset_relative_rows ds_idx ;;
        setitem dataset_relative_rows ds_idx (l ++ [relative_row_idx])
      else Raise IndexError) acc =
    (pairs <- comprehension (locate_physical self) rows ;;
     Ok (zip_with app acc (distribute n pairs)))).
  { induction rows as [|r rows IH]; intros acc Hacc; simpl.
    - subst n. rewrite <- Hacc. by rewrite distribute_nil.
    - destruct (locate_physical self r) as [[ds p]|e] eqn:Eloc.
      + destruct (locate_physical_range _ _ _ _ Eloc) as (i & -> & Hi).
        unfold locate_physical in Eloc.
        destruct (_get_row_dataset self r) as [ds|e]; simpl in *; [|done].
        destruct (negb (ds =? -1)); [|done].
        destruct (getitem (dataset_start_example self) ds) as [start|e]; simpl in *; [|done].
        destruct (getitem (dataset_removed_rows self) ds) as [removed|e]; simpl in *; [|done].
        injection Eloc as -> <-.
        destruct (lookup_lt_is_Some_2 acc i) as [a Ha]; [lia|].
        rewrite (getitem_nat _ _ _ Ha). simpl.
        rewrite setitem_nat by lia. simpl.
        rewrite IH by (by rewrite length_insert).
        destruct (comprehension (locate_physical self) rows) as [pairs|e]; simpl; [|done].
        f_equal. subst n. rewrite <- Hacc. by apply distribute_cons.
      + unfold locate_physical in Eloc.
        destruct (_get_row_dataset self r) as [ds|e']; simpl in *; [|congruence].
        destruct (negb (ds =? -1)); simpl in *; [|congruence].
        destruct (getitem (dataset_start_example self) ds) as [start|e'];
          simpl in *; [|congruence].
        destruct (getitem (dataset_removed_rows self) ds) as [removed|e'];
          simpl in *; congruence. }
  rewrite Hgen by (by rewrite length_replicate).
  destruct (comprehension (locate_physical self) rows) as [pairs|e]; simpl; [|done].
  f_equal. apply list_eq_lookup_lt.
  { rewrite length_zip_with, length_distribute, length_replicate. lia. }
  rewrite length_distribute. intros j Hj.
  rewrite lookup_zip_with, distribute_lookup by lia.
  by rewrite lookup_replicate_2 by lia.
Qed.

Lemma distribute_repeats n pairs pairs' :
  repeats pairs pairs' -> Forall2 repeats (distribute n pairs) (distribute n pairs').
Proof.
  intros H. apply Forall2_same_length_lookup. split; [by rewrite !length_distribute|].
  intros j a a' Ha Ha'.
  pose proof (lookup_lt_Some _ _ _ Ha) as Hj. rewrite length_distribute in Hj.
  rewrite distribute_lookup in Ha, Ha' by done.
  injection Ha as <-. injection Ha' as <-.
  by apply repeats_fmap, repeats_filter.
Qed.

(** The masks do not see rows written several times in a row. *)
Lemma sum_rows_row_masks_repeats self rows rows' :
  repeats rows rows' -> sum_rows_row_masks self rows = sum_rows_row_masks self rows'.
Proof.
  intros H. unfold sum_rows_row_masks. rewrite !sum_rows_locate_pairs.
  pose proof (comprehension_repeats (locate_physical self) _ _ H) as Hrel.
  destruct (comprehension (locate_physical self) rows) as [pairs|e],
           (comprehension (locate_physical self) rows') as [pairs'|e'];
    simpl in *; try done; [|by subst].
  by apply sum_rows_masks_repeats, distribute_repeats.
Qed.

Lemma repeats_dedup_adj (l : list Z) : repeats (dedup_adj l) l.
Proof.
  induction l as [|x l IH]; [constructor|].
  destruct l as [|y l]; [repeat constructor|].
  change (dedup_adj (x :: y :: l))
    with (if bool_decide (x = y) then dedup_adj (y :: l) else x :: dedup_adj (y :: l)).
  case_bool_decide as Hxy.
  - subst y. by constructor.
  - by constructor.
Qed.

Lemma dedup_adj_strict (l : list Z) :
  StronglySorted Z.le l -> StronglySorted Z.lt (dedup_adj l).
Proof.
  induction 1 as [|x l Hl IH Hx]; [constructor|].
  destruct l as [|y l]; [repeat constructor|].
  change (dedup_adj (x :: y :: l))
    with (if bool_decide (x = y) then dedup_adj (y :: l) else x :: dedup_adj (y :: l)).
  case_bool_decide as Hxy; [done|].
  constructor; [done|].
  apply Forall_forall. intros z Hz.
  apply (repeats_elem_of _ _ z (repeats_dedup_adj (y :: l))) in Hz.
  rewrite Forall_forall in Hx.
  pose proof (Hx y ltac:(by left)). pose proof (Hx z Hz).
  apply elem_of_cons in Hz as [->|Hz]; [lia|].
  apply StronglySorted_inv in Hl as [_ Hy]. rewrite Forall_forall in Hy.
  specialize (Hy z Hz). lia.
Qed.

Lemma StronglySorted_lt_NoDup (l : list Z) : StronglySorted Z.lt l -> NoDup l.
Proof.
  induction 1 as [|x l Hl IH Hx]; constructor; [|done].
  intros Hin. rewrite Forall_forall in Hx. specialize (Hx x Hin). lia.
Qed.

Lemma StronglySorted_lt_le (l : list Z) : StronglySorted Z.lt l -> Sorted Z.le l.
Proof.
  intros H. apply StronglySorted_Sorted.
  induction H as [|x l Hl IH Hx]; constructor; [done|].
  eapply Forall_impl; [done|]. simpl. lia.
Qed.

Lemma dedup_adj_np_sort (rows : list Z) : dedup_adj (np_sort rows) = sorted_set rows.
Proof.
  assert (Hs : StronglySorted Z.lt (dedup_adj (np_sort rows))).
  { apply dedup_adj_strict. unfold np_sort. apply StronglySorted_merge_sort; apply _. }
  apply (Sorted_unique Z.le).
  - by apply StronglySorted_lt_le.
  - apply Sorted_merge_sort, _.
  - apply NoDup_Permutation.
    + by apply StronglySorted_lt_NoDup.
    + apply NoDup_sorted_set.
    + intros x. rewrite (repeats_elem_of _ _ x (repeats_dedup_adj _)).
      unfold np_sort. rewrite merge_sort_Permutation. by rewrite elem_of_sorted_set.
Qed.

Lemma sum_rows_row_masks_set self rows rows' :
  (forall r, r ∈ rows <-> r ∈ rows') ->
  sum_rows_row_masks self (np_sort rows) = sum_rows_row_masks self (np_sort rows').
Proof.
  intros H.
  rewrite <- (sum_rows_row_masks_repeats self _ _ (repeats_dedup_adj (np_sort rows))).
  rewrite <- (sum_rows_row_masks_repeats self _ _ (repeats_dedup_adj (np_sort rows'))).
  by rewrite !dedup_adj_np_sort, (sorted_set_ext _ _ H).
Qed.

Lemma sum_rows_unfold self rows :
  sum_rows self rows =
  (res <- np_zeros (dataset_n_cols self) ;;
   dataset_row_masks <- sum_rows_row_masks self (np_sort rows) ;;
   res <- sum_rows_stream self dataset_row_masks
            (_column_sum_dtype (Z.of_nat (length rows))) res ;;
   Ok (_column_sum_dtype (Z.of_nat (length rows)), res)).
Proof.
  unfold sum_rows, sum_rows_row_masks.
  destruct (np_zeros _); simpl; [|done].
  by destruct (sum_rows_locate self (np_sort rows)).
Qed.

(** C7 as stated fails.  A row listed [k] times is not counted [k] times: the
    rows are OR-ed into a bit mask.  Row 31 of the script's collection has
    its bit set in column 0, and listing it twice gives the count 1, the
    same as listing it once. *)
Lemma sum_rows_duplicates_counterexample :
  (l ← match get_column script_ac 0 with Ok l => Some l | Raise _ => None end; l !! 31%nat)
    = Some 1 /\
  sum_rows script_ac [31] = Ok (uint8, [1; 0; 0]) /\
  sum_rows script_ac [31; 31] = Ok (uint8, [1; 0; 0]) /\
  sum_rows script_ac [31; 31] <> Ok (uint8, [2; 0; 0]).
Proof. by vm_compute. Qed.

(** C7, amended. The result of [sum_rows] depends on the rows only through
    the set of distinct rows and the element type chosen from their number:
    two sequences with the same elements and the same result type give the
    same outcome, so a row listed several times is counted once. *)
Theorem sum_rows_set_semantics (self : HDF5) (rows rows' : list Z) :
  (forall r, r ∈ rows <-> r ∈ rows') ->
  _column_sum_dtype (Z.of_nat (length rows)) = _column_sum_dtype (Z.of_nat (length rows')) ->
  sum_rows self rows = sum_rows self rows'.
Proof.
  intros Hset Hdt.
  by rewrite !sum_rows_unfold, Hdt, (sum_rows_row_masks_set self _ _ Hset).
Qed.

Lemma sum_rows_set_semantics_witness :
  sum_rows script_removed [40; 7; 40; 40; 7] = sum_rows script_removed [7; 40].
Proof.
  apply sum_rows_set_semantics.
  - intros r. rewrite !elem_of_cons, !elem_of_nil. tauto.
  - reflexivity.
Defined.

(** ** The result type and the empty request *)

Lemma iinfo_max_values :
  iinfo_max uint8 = 255 /\ iinfo_max uint16 = 65535 /\
  iinfo_max uint32 = 4294967295 /\ iinfo_max uint64 = 18446744073709551615.
Proof. by vm_compute. Qed.

Lemma column_sum_dtype_cases (n : Z) :
  (n <= 255 /\ _column_sum_dtype n = uint8) \/
  (255 < n <= 65535 /\ _column_sum_dtype n = uint16) \/
  (65535 < n <= 4294967295 /\ _column_sum_dtype n = uint32) \/
  (4294967295 < n /\ _column_sum_dtype n = uint64).
Proof.
  unfold _column_sum_dtype.
  destruct iinfo_max_values as (-> & -> & -> & _).
  destruct (Z.leb_spec n 255); [by left|].
  destruct (Z.leb_spec n 65535); [right; left; split; [lia | done]|].
  destruct (Z.leb_spec n 4294967295); [right; right; left; split; [lia | done]|].
  right; right; right. split; [lia | done].
Qed.

(** The element type holds every count up to the number of rows, and no
    narrower unsigned type does. *)
Lemma column_sum_dtype_fits (n : Z) :
  0 <= n <= iinfo_max uint64 -> n <= iinfo_max (_column_sum_dtype n).
Proof.
  destruct iinfo_max_values as (H8 & H16 & H32 & H64). rewrite H64. intros Hn.
  destruct (column_sum_dtype_cases n) as [[? ->]|[[? ->]|[[? ->]|[? ->]]]]; lia.
Qed.

Lemma column_sum_dtype_smallest (n : Z) (d : np_dtype) :
  d ∈ [uint8; uint16; uint32; uint64] -> n <= iinfo_max d ->
  dtype_bits (_column_sum_dtype n) <= dtype_bits d.
Proof.
  destruct iinfo_max_values as (H8 & H16 & H32 & H64).
  intros Hd Hn.
  repeat (apply elem_of_cons in Hd as [-> | Hd]); [| | | |by apply elem_of_nil in Hd];
    rewrite ?H8, ?H16, ?H32, ?H64 in Hn;
    destruct (column_sum_dtype_cases n) as [[? ->]|[[? ->]|[[? ->]|[? ->]]]];
    cbn [dtype_bits]; lia.
Qed.

Lemma sum_rows_locate_nil self :
  sum_rows_locate self [] = Ok (replicate (length (datasets self)) []).
Proof. done. Qed.

Lemma sum_rows_masks_nil self :
  sum_rows_masks self (replicate (length (datasets self)) [])
  = Ok (replicate (length (datasets self)) []).
Proof.
  unfold sum_rows_masks.
  set (n := length (datasets self)).
  assert (forall a m, (a + m <= n)%nat ->
    comprehension (fun i : nat =>
      rel <- getitem (replicate n ([] : list Z)) (Z.of_nat i) ;;
      if bool_decide (0 < length rel)%nat then
        rel <- getitem (replicate n []) (Z.of_nat i) ;;
        n <- getitem (dataset_n_rows self) (Z.of_nat i) ;;
        build_row_mask rel n (dataset_pack_size self)
      else Ok []) (seq a m) = Ok (replicate m [])) as H.
  { intros a m. revert a. induction m as [|m IH]; intros a Ha; simpl; [done|].
    rewrite (getitem_nat _ _ []) by (apply lookup_replicate_2; lia). simpl.
    rewrite IH by lia. done. }
  by apply H.
Qed.

Lemma sum_rows_stream_skip self dt res (c : Z) :
  col_block_size self = Some c -> c <> 0 ->
  sum_rows_stream self (replicate (length (datasets self)) []) dt res = Ok res.
Proof.
  intros Hc Hc0. unfold sum_rows_stream. rewrite Hc. simpl.
  unfold ceil_div. rewrite (proj2 (Z.eqb_neq _ _)) by done. simpl.
  destruct (for_each_enumerate (fun _ r => r = res)
    (sum_rows_dataset self (replicate (length (datasets self)) [])
       (- (- dataset_n_cols self / c)) dt)
    (datasets self) res) as (res' & -> & ->); [done | | done].
  intros k d r Hd ->. exists res. split; [|done].
  unfold sum_rows_dataset.
  rewrite (getitem_nat _ _ []); [done|].
  apply lookup_replicate_2. by eapply lookup_lt_Some.
Qed.

(** With the column block size assigned, an empty request gives zeros, one
    per column, of the narrowest type, and no dataset is read. *)
Lemma sum_rows_empty self (c : Z) :
  col_block_size self = Some c -> c <> 0 -> 0 <= dataset_n_cols self ->
  sum_rows self [] = Ok (uint8, replicate (Z.to_nat (dataset_n_cols self)) 0).
Proof.
  intros Hc Hc0 Hn. unfold sum_rows, np_zeros.
  rewrite (proj2 (Z.ltb_ge _ _)) by lia. simpl.
  rewrite sum_rows_masks_nil. simpl.
  by rewrite (sum_rows_stream_skip _ _ _ c).
Qed.

(** ** Block sizes *)

Lemma init_block_sizes ds ns rbs cbs self :
  __init__ ds ns rbs cbs = Ok self ->
  exists first, ds !! 0%nat = Some first /\
    row_block_size self =
      match rbs with None => (fun c => Z.pos c.1) <$> chunks first | Some _ => None end /\
    col_block_size self =
      match cbs with None => (fun c => Z.pos c.2) <$> chunks first | Some _ => None end /\
    (rbs = None \/ cbs = None -> is_Some (chunks first)).
Proof.
  intros H. unfold __init__ in H.
  bind_ok H. rename a into first.
  apply (getitem_nat_inv _ 0%nat) in E. exists first. split; [done|].
  bind_ok H. bind_ok H. bind_ok H. bind_ok H. bind_ok H. bind_ok H.
  injection H as <-. simpl.
  destruct rbs, cbs, (chunks first); simpl in *;
    repeat match goal with H : Ok _ = Ok _ |- _ => injection H as <- end;
    try discriminate; split_and!; try done; try (intros [?|?]; done); by eexists.
Qed.

(** A block size given to the constructor is not stored, and [sum_rows] then
    has no column block size to read. *)
Lemma init_override_not_stored ds ns rbs c self rows :
  __init__ ds ns rbs (Some c) = Ok self ->
  col_block_size self = None /\ exists e, sum_rows self rows = Raise e.
Proof.
  intros H. destruct (init_block_sizes _ _ _ _ _ H) as (first & _ & _ & Hc & _).
  split; [done|]. rewrite sum_rows_unfold.
  destruct (np_zeros _); simpl; [|by eexists].
  destruct (sum_rows_row_masks _ _); simpl; [|by eexists].
  unfold sum_rows_stream. rewrite Hc. simpl. by eexists.
Qed.

(** ** Where the code departs from the specification *)

Lemma script_removed_64_reachable : reachable script_removed_64.
Proof.
  apply (reachable_remove (seqZ 0 64) script_ac);
    [exact script_ac_reachable | vm_compute; reflexivity].
Qed.

Lemma ones_ac_init : __init__ [ones_dataset] [288] None None = Ok ones_ac.
Proof. reflexivity. Qed.

(** C1, on the code as written: the sums are not those of [get_column].
    On the script's collection as constructed, row 95 has its bit set in the
    three columns and [sum_rows] counts none of them: the block holds the
    third packed row alone and the popcount pairs it with the first word of
    the mask.  After the script's removal, row 30 has no bit in column 0
    and [sum_rows] counts one: the offset added sends it to the removed
    physical row 31.  After 64 rows of the first dataset are removed, the
    in-bounds row 31 raises [IndexError]: the mask is as long as the current
    row count and the physical row lies beyond it. *)
Theorem sum_rows_not_get_column :
  (exists c0 c1 c2,
     get_column script_ac 0 = Ok c0 /\ get_column script_ac 1 = Ok c1 /\
     get_column script_ac 2 = Ok c2 /\
     [count_set c0 [95]; count_set c1 [95]; count_set c2 [95]] = [1; 1; 1] /\
     sum_rows script_ac [95] = Ok (uint8, [0; 0; 0])) /\
  (exists c0,
     get_column script_removed 0 = Ok c0 /\ count_set c0 [30] = 0 /\
     dataset_removed_rows script_removed = [[0; 31]; [1; 49]; [42]] /\
     locate_physical script_removed 30 = Ok (0, 31) /\
     sum_rows script_removed [30] = Ok (uint8, [1; 0; 0])) /\
  (0 <= 31 < total_n_rows script_removed_64 /\
   sum_rows script_removed_64 [31] = Raise IndexError).
Proof.
  split_and!.
  - eexists _, _, _. split_and!; [vm_compute; reflexivity .. | |]; by vm_compute.
  - eexists. split_and!; [vm_compute; reflexivity | ..]; by vm_compute.
  - by vm_compute.
  - by vm_compute.
  - by vm_compute.
Qed.

(** C8, on the code as written.  The 40 rows [ones_rows] of a column of set
    bits select nine mask words; with one packed row per block every block is
    masked with the first word, 32 bits, so that 288 is added into the 8-bit
    counter chosen for 40 rows and 32 is returned.  And with a column block
    size given to the constructor an empty request raises instead of
    returning zeros. *)
Theorem sum_rows_counter_overflow :
  (length ones_rows = 40%nat /\
   _column_sum_dtype (Z.of_nat (length ones_rows)) = uint8 /\
   (exists c, get_column ones_ac 0 = Ok c /\ count_set c ones_rows = 40) /\
   (exists masks,
      sum_rows_row_masks ones_ac (np_sort ones_rows) = Ok masks /\
      sum_rows_stream ones_ac masks uint16 [0] = Ok [288]) /\
   iinfo_max uint8 < 288 /\
   sum_rows ones_ac ones_rows = Ok (uint8, [32])) /\
  (exists self, script_ac_blocks = Ok self /\ sum_rows self [] = Raise AttributeError).
Proof.
  split; [split_and!|].
  - done.
  - done.
  - eexists. split; [vm_compute; reflexivity | by vm_compute].
  - eexists. split; [vm_compute; reflexivity | by vm_compute].
  - done.
  - by vm_compute.
  - eexists. split; [vm_compute; reflexivity | by vm_compute].
Qed.

(** C9, on the code as written.  Constructed with block sizes 1 and 3, the
    script's collection has neither attribute, and [sum_rows] raises
    [AttributeError] on a valid row; constructed without them it takes the
    first dataset's chunk shape and [sum_rows] returns. *)
Theorem block_size_override_not_stored :
  (exists self,
     script_ac_blocks = Ok self /\
     row_block_size self = None /\ col_block_size self = None /\
     0 <= 0 < total_n_rows self /\
     sum_rows self [0] = Raise AttributeError) /\
  (__init__ [script_ds1; script_ds2; script_ds3] [96; 96; 96] None None = Ok script_ac /\
   chunks script_ds1 = Some (1%positive, 3%positive) /\
   row_block_size script_ac = Some 1 /\ col_block_size script_ac = Some 3 /\
   sum_rows script_ac [0] = Ok (uint8, [0; 0; 0])).
Proof.
  split.
  - eexists. split; [vm_compute; reflexivity|]. by vm_compute.
  - by vm_compute.
Qed.

(** * Further properties of the code *)

(** ** [build_row_mask] and [_column_sum_dtype] *)

(** X1. For a width of 8, 16, 32 or 64 bits and rows within [0, row_count),
    [build_row_mask] returns [ceil(row_count / w)] words in which row [r] sets
    bit [w - 1 - r mod w] of word [r div w] and no other bit is set; without
    rows the words are all zero. *)
Theorem build_row_mask_supported_widths (rows : list Z) (row_count w : Z) :
  w ∈ [8; 16; 32; 64] ->
  Forall (fun r => 0 <= r < row_count) rows ->
  exists masks,
    build_row_mask rows row_count w = Ok masks /\
    length masks = Z.to_nat ((row_count + w - 1) / w) /\
    (forall (k : nat) (word b : Z), masks !! k = Some word -> 0 <= b ->
       Z.testbit word b = true <->
       exists r, r ∈ rows /\ r / w = Z.of_nat k /\ b = w - 1 - r mod w) /\
    (rows = [] -> masks = replicate (Z.to_nat ((row_count + w - 1) / w)) 0).
Proof.
  intros Hw Hrows.
  destruct (build_row_mask_spec rows row_count w Hw Hrows) as (masks & Hm & Hlen & Hbits).
  exists masks. split_and!; try done.
  intros ->. rewrite (build_row_mask_empty row_count w Hw) in Hm. congruence.
Qed.

Lemma build_row_mask_supported_widths_witness :
  exists masks, build_row_mask [0; 9; 15] 16 8 = Ok masks /\ length masks = 2%nat.
Proof.
  destruct (build_row_mask_supported_widths [0; 9; 15] 16 8) as (masks & Hm & Hlen & _).
  - by left.
  - repeat constructor; lia.
  - exists masks. split; [exact Hm | exact Hlen].
Defined.

(** X2. For a row count that a 64-bit counter can hold, the element type
    [_column_sum_dtype] selects can hold it, and no narrower unsigned type
    can. *)
Theorem column_sum_dtype_smallest_fitting (n : Z) :
  0 <= n <= iinfo_max uint64 ->
  n <= iinfo_max (_column_sum_dtype n) /\
  forall d, d ∈ [uint8; uint16; uint32; uint64] -> n <= iinfo_max d ->
    dtype_bits (_column_sum_dtype n) <= dtype_bits d.
Proof.
  intros Hn. split; [by apply column_sum_dtype_fits|].
  intros d Hd Hfit. by apply column_sum_dtype_smallest.
Qed.

Lemma column_sum_dtype_smallest_fitting_witness :
  300 <= iinfo_max (_column_sum_dtype 300).
Proof.
  apply (column_sum_dtype_smallest_fitting 300). by vm_compute.
Defined.

(** ** Locating rows *)

(** X3. On a reachable object [_get_row_dataset] returns, for a row of
    [0, total_n_rows), the index of the dataset whose range holds it, and -1
    for any other row. *)
Theorem get_row_dataset_located (self : HDF5) (r : Z) :
  reachable self ->
  (0 <= r < total_n_rows self ->
   exists (i : nat) s e,
     _get_row_dataset self r = Ok (Z.of_nat i) /\
     dataset_start_example self !! i = Some s /\
     dataset_stop_example self !! i = Some e /\ s <= r < e) /\
  (~ (0 <= r < total_n_rows self) -> _get_row_dataset self r = Ok (-1)).
Proof.
  intros Hreach. pose proof (reachable_Inv _ Hreach) as HI.
  destruct (Inv_lengths _ HI) as (Hn & Hstop & Hstart).
  pose proof (Inv_n_rows_nonneg _ HI) as Hnn.
  rewrite get_row_dataset_spec by done. split.
  - intros Hr.
    destruct (find_range_offsets 0 (dataset_n_rows self) r Hnn) as [i Hi].
    { rewrite <- (inv_total _ HI). lia. }
    rewrite <- (inv_start _ HI), <- (inv_stop _ HI) in Hi. rewrite Hi.
    apply find_range_Some in Hi as (s & e & Hz & Hse).
    destruct (Inv_ranges_lookup _ _ _ _ HI Hz) as (n & _ & Hs & He & _).
    by exists i, s, e.
  - intros Hr. rewrite (inv_start _ HI), (inv_stop _ HI).
    rewrite find_range_offsets_None; [done | done |].
    rewrite <- (inv_total _ HI). lia.
Qed.

Lemma get_row_dataset_located_witness :
  _get_row_dataset script_removed 100 = Ok 1 /\
  _get_row_dataset script_removed 283 = Ok (-1).
Proof.
  destruct (get_row_dataset_located script_removed 283 script_removed_reachable) as [_ Hout].
  split; [by vm_compute|]. apply Hout. vm_compute. intros [_ H]. discriminate H.
Defined.

(** ** More on [remove_rows] *)

Lemma py_sum_le (l1 l2 : list Z) :
  Forall2 Z.le l1 l2 -> py_sum l1 <= py_sum l2.
Proof. induction 1; unfold py_sum in *; simpl; lia. Qed.

Lemma merge_removed_incl old new x : x ∈ old -> x ∈ merge_removed old new.
Proof.
  intros Hx. unfold merge_removed. case_bool_decide; [|done].
  apply elem_of_sorted_set, elem_of_app. by left.
Qed.

Lemma merge_removed_length old new :
  NoDup old -> (length old <= length (merge_removed old new))%nat.
Proof.
  intros Hnd. apply submseteq_length, NoDup_submseteq; [done|].
  intros x. apply merge_removed_incl.
Qed.

Lemma zip_with_replicate_nil_merge (olds : list (list Z)) :
  zip_with merge_removed olds (replicate (length olds) []) = olds.
Proof. induction olds as [|o olds IH]; simpl; [done|]. by rewrite IH. Qed.

(** X4. On a reachable object [shape] is the sum over the datasets of the
    declared row count less the number of removed rows, next to the column
    count that every dataset has. *)
Theorem shape_invariant (self : HDF5) :
  reachable self ->
  (shape_of self).1 =
    py_sum (zip_with (fun initial removed => initial - Z.of_nat (length removed))
              (dataset_initial_n_rows self) (dataset_removed_rows self)) /\
  0 <= (shape_of self).1 /\
  Forall (fun d => Z.of_nat (shape d).2 = (shape_of self).2) (datasets self).
Proof.
  intros Hreach. pose proof (reachable_Inv _ Hreach) as HI. simpl.
  split_and!.
  - by rewrite (inv_total _ HI), <- (inv_n_rows _ HI).
  - rewrite (inv_total _ HI). by apply py_sum_nonneg, Inv_n_rows_nonneg.
  - apply HI.
Qed.

Lemma shape_invariant_witness : (shape_of script_removed).1 = 283.
Proof.
  destruct (shape_invariant script_removed script_removed_reachable) as (-> & _).
  by vm_compute.
Defined.

(** X5. On a reachable object [remove_rows] succeeds on rows that are all
    in bounds; no row that was removed comes back, no dataset's row count
    grows, and the total does not grow. *)
Theorem remove_rows_in_bounds (self : HDF5) (rows : list Z) :
  reachable self ->
  Forall (fun r => 0 <= r < total_n_rows self) rows ->
  exists self',
    remove_rows rows self = (Ok tt, self') /\
    Forall2 (fun old new => forall x, x ∈ old -> x ∈ new)
      (dataset_removed_rows self) (dataset_removed_rows self') /\
    Forall2 (fun n n' => n' <= n) (dataset_n_rows self) (dataset_n_rows self') /\
    total_n_rows self' <= total_n_rows self.
Proof.
  intros Hreach Hrows. pose proof (reachable_Inv _ Hreach) as HI.
  destruct (remove_rows_locate_ok _ _ HI Hrows) as (new & Hloc & Hnew).
  exists (remove_rows_result self new).
  split; [by apply remove_rows_ok|].
  destruct (Inv_lengths _ HI) as (Hlen_n & _).
  pose proof (inv_len_initial _ HI) as Hlen_i.
  pose proof (inv_len_removed _ HI) as Hlen_r.
  assert (length new = length (datasets self)) as Hlen_new.
  { rewrite <- Hlen_n. symmetry. by eapply Forall2_length. }
  assert (Hn : Forall2 (fun n n' => n' <= n) (dataset_n_rows self)
                 (dataset_n_rows (remove_rows_result self new))).
  { simpl. rewrite (inv_n_rows _ HI) at 1.
    apply Forall2_same_length_lookup. split; [rewrite !length_zip_with; lia|].
    intros i n n' Hi Hi'.
    apply lookup_zip_with_Some in Hi as (initial & old & -> & Hinit & Hold).
    apply lookup_zip_with_Some in Hi' as (initial' & merged & -> & Hinit' & Hm).
    apply lookup_zip_with_Some in Hm as (old' & new_i & -> & Hold' & Hnew_i).
    rewrite Hinit in Hinit'. injection Hinit' as <-.
    rewrite Hold in Hold'. injection Hold' as <-.
    destruct (Forall2_lookup_lr _ _ _ _ _ _ (inv_removed _ HI) Hinit Hold) as (_ & Hnd & _).
    pose proof (merge_removed_length old new_i Hnd). lia. }
  split_and!; [|done|].
  - simpl. apply Forall2_same_length_lookup. split; [rewrite length_zip_with; lia|].
    intros i old merged Hold Hm x Hx.
    apply lookup_zip_with_Some in Hm as (old' & new_i & -> & Hold' & Hnew_i).
    rewrite Hold in Hold'. injection Hold' as <-. by apply merge_removed_incl.
  - change (total_n_rows (remove_rows_result self new))
      with (py_sum (dataset_n_rows (remove_rows_result self new))).
    rewrite (inv_total _ HI). apply py_sum_le.
    apply Forall2_flip. eapply Forall2_impl; [exact Hn|]. intros x y Hxy. exact Hxy.
Qed.

Lemma remove_rows_in_bounds_witness :
  exists self', remove_rows [5; 100; 5] script_removed = (Ok tt, self') /\
                total_n_rows self' <= total_n_rows script_removed.
Proof.
  destruct (remove_rows_in_bounds script_removed [5; 100; 5]) as (self' & H1 & _ & _ & H2).
  - exact script_removed_reachable.
  - repeat constructor; by vm_compute.
  - by exists self'.
Defined.

(** X6. On a reachable object [remove_rows] of no rows succeeds and leaves
    every attribute as it was: the offsets it recomputes are the ones the
    object has. *)
Theorem remove_rows_nothing (self : HDF5) :
  reachable self -> remove_rows [] self = (Ok tt, self).
Proof.
  intros Hreach. pose proof (reachable_Inv _ Hreach) as HI.
  rewrite (remove_rows_ok self [] (replicate (length (datasets self)) []) HI) by done.
  f_equal. unfold remove_rows_result.
  rewrite <- (inv_len_removed _ HI), zip_with_replicate_nil_merge.
  rewrite <- (inv_n_rows _ HI), <- (inv_stop _ HI), <- (inv_start _ HI), <- (inv_total _ HI).
  by destruct self.
Qed.

Lemma remove_rows_nothing_witness : remove_rows [] script_removed = (Ok tt, script_removed).
Proof. apply remove_rows_nothing. exact script_removed_reachable. Defined.

Lemma comprehension_elem_of {A B} (f : A -> result B) (l : list A) (ys : list B) y :
  comprehension f l = Ok ys -> y ∈ ys <-> exists x, x ∈ l /\ f x = Ok y.
Proof.
  revert ys. induction l as [|x l IH]; intros ys; simpl.
  - intros [= <-]. split; [by intros ?%elem_of_nil|].
    by intros (x & ?%elem_of_nil & _).
  - intros H. bind_ok H. bind_ok H. injection H as <-.
    rewrite elem_of_cons, (IH _ eq_refl). split.
    + intros [->|(x' & Hx' & Hf)]; [exists x; split; [by left | done]|].
      exists x'. split; [by right | done].
    + intros (x' & Hx' & Hf). apply elem_of_cons in Hx' as [->|Hx'].
      * left. congruence.
      * right. by exists x'.
Qed.

Lemma comprehension_raise {A B} (f : A -> result B) (l : list A) (e : exn) :
  (forall x, x ∈ l -> (exists y, f x = Ok y) \/ f x = Raise e) ->
  (exists x, x ∈ l /\ f x = Raise e) ->
  comprehension f l = Raise e.
Proof.
  induction l as [|x l IH]; intros Hall (x0 & Hx0 & Hf0); simpl.
  - by apply elem_of_nil in Hx0.
  - destruct (Hall x ltac:(by left)) as [[y Hy]|Hy]; rewrite Hy; simpl; [|done].
    rewrite IH; [done | |].
    + intros x' Hx'. apply Hall. by right.
    + apply elem_of_cons in Hx0 as [->|Hx0]; [congruence|]. by exists x0.
Qed.

Lemma elem_of_distribute (n : nat) pairs (i : nat) l x :
  distribute n pairs !! i = Some l -> x ∈ l <-> (Z.of_nat i, x) ∈ pairs.
Proof.
  intros Hl. pose proof (lookup_lt_Some _ _ _ Hl) as Hi. rewrite length_distribute in Hi.
  rewrite distribute_lookup in Hl by done. injection Hl as <-.
  rewrite list_elem_of_fmap. split.
  - intros ([ds p] & -> & Hin). apply list_elem_of_filter in Hin as [Hds Hin].
    simpl in *. by subst ds.
  - intros Hin. exists (Z.of_nat i, x). split; [done|].
    by apply list_elem_of_filter.
Qed.

(** A loop that appends each located row to the list of its dataset gives
    the rows of each dataset in the order they came. *)
Lemma locate_loop_pairs (f : Z -> result (Z * Z)) (rows : list Z) (acc : list (list Z)) :
  (forall r ds p, f r = Ok (ds, p) ->
     exists i : nat, ds = Z.of_nat i /\ (i < length acc)%nat) ->
  for_each rows (fun acc r =>
    p <- f r ;; l <- getitem acc p.1 ;; setitem acc p.1 (l ++ [p.2])) acc =
  (pairs <- comprehension f rows ;;
   Ok (zip_with app acc (distribute (length acc) pairs))).
Proof.
  revert acc. induction rows as [|r rows IH]; intros acc Hf; simpl.
  - by rewrite distribute_nil.
  - destruct (f r) as [[ds p]|e] eqn:Er; simpl; [|done].
    destruct (Hf _ _ _ Er) as (i & -> & Hi).
    destruct (lookup_lt_is_Some_2 acc i Hi) as [a Ha].
    rewrite (getitem_nat _ _ _ Ha). simpl.
    rewrite setitem_nat by done. simpl.
    rewrite IH by (by rewrite length_insert).
    destruct (comprehension f rows) as [pairs|e]; simpl; [|done].
    f_equal. rewrite length_insert. by apply distribute_cons.
Qed.

Lemma locate_relative_range self r ds p :
  locate_relative self r = Ok (ds, p) ->
  exists i : nat, ds = Z.of_nat i /\ (i < length (datasets self))%nat.
Proof.
  unfold locate_relative. intros H. bind_ok H.
  destruct (get_row_dataset_from_range _ _ _ _ E) as [->|(i & Hi & ->)]; [done|].
  destruct (_ =? _); [done|]. bind_ok H. injection H as <- <-.
  exists i. split; [done|]. apply elem_of_seq in Hi. lia.
Qed.

Lemma remove_rows_locate_pairs self rows :
  remove_rows_locate self rows =
  (pairs <- comprehension (locate_relative self) rows ;;
   Ok (distribute (length (datasets self)) pairs)).
Proof.
  rewrite remove_rows_locate_eq, locate_loop_pairs.
  - rewrite length_replicate.
    destruct (comprehension _ rows) as [pairs|e]; simpl; [|done]. f_equal.
    apply list_eq_lookup_lt.
    { rewrite length_zip_with, length_distribute, length_replicate. lia. }
    rewrite length_distribute. intros j Hj.
    rewrite lookup_zip_with, distribute_lookup by lia.
    by rewrite lookup_replicate_2 by lia.
  - rewrite length_replicate. apply locate_relative_range.
Qed.

Lemma merge_removed_ext old new new' :
  (forall x, x ∈ new <-> x ∈ new') -> merge_removed old new = merge_removed old new'.
Proof.
  intros H. unfold merge_removed.
  assert ((0 < length new)%nat <-> (0 < length new')%nat) as Hpos.
  { destruct new as [|a new], new' as [|b new']; simpl; try (split; lia).
    - destruct (H b) as [_ Hb]. by apply elem_of_nil in Hb; [|left].
    - destruct (H a) as [Ha _]. by apply elem_of_nil in Ha; [|left]. }
  rewrite (bool_decide_ext _ _ Hpos). case_bool_decide; [|done].
  apply sorted_set_ext. intros x. rewrite !elem_of_app, H. tauto.
Qed.

(** X7. On a reachable object the effect of [remove_rows] depends on the
    rows only as a set: two sequences with the same elements, in any order
    and with any repetition, give the same outcome and the same attributes. *)
Theorem remove_rows_set (self : HDF5) (rows rows' : list Z) :
  reachable self ->
  (forall r, r ∈ rows <-> r ∈ rows') ->
  remove_rows rows self = remove_rows rows' self.
Proof.
  intros Hreach Hset. pose proof (reachable_Inv _ Hreach) as HI.
  destruct (decide (Forall (fun r => 0 <= r < total_n_rows self) rows)) as [Hrows|Hrows].
  - assert (Hrows' : Forall (fun r => 0 <= r < total_n_rows self) rows').
    { rewrite Forall_forall in *. intros r Hr. by apply Hrows, Hset. }
    destruct (remove_rows_locate_ok _ _ HI Hrows) as (new & Hloc & _).
    destruct (remove_rows_locate_ok _ _ HI Hrows') as (new' & Hloc' & _).
    rewrite (remove_rows_ok _ _ _ HI Hloc), (remove_rows_ok _ _ _ HI Hloc').
    f_equal. unfold remove_rows_result.
    assert (Hz : zip_with merge_removed (dataset_removed_rows self) new =
                 zip_with merge_removed (dataset_removed_rows self) new').
    { rewrite remove_rows_locate_pairs in Hloc, Hloc'.
      destruct (comprehension _ rows) as [pairs|] eqn:Ep; simpl in Hloc; [|done].
      destruct (comprehension _ rows') as [pairs'|] eqn:Ep'; simpl in Hloc'; [|done].
      injection Hloc as <-. injection Hloc' as <-.
      apply list_eq_lookup_lt; [rewrite !length_zip_with, !length_distribute; lia|].
      intros j Hj. rewrite !lookup_zip_with.
      destruct (dataset_removed_rows self !! j) as [old|]; simpl; [|done].
      rewrite length_zip_with, length_distribute in Hj.
      assert (Hjn : (j < length (datasets self))%nat) by lia.
      rewrite !distribute_lookup by done. simpl. f_equal.
      apply merge_removed_ext. intros x.
      rewrite (elem_of_distribute _ pairs j _ x (distribute_lookup _ _ _ Hjn)).
      rewrite (elem_of_distribute _ pairs' j _ x (distribute_lookup _ _ _ Hjn)).
      rewrite (comprehension_elem_of _ _ _ _ Ep), (comprehension_elem_of _ _ _ _ Ep').
      split; intros (r & Hr & Hf); exists r; (split; [by apply Hset | done]). }
    by rewrite Hz.
  - assert (Hrows' : ~ Forall (fun r => 0 <= r < total_n_rows self) rows').
    { intros H. apply Hrows. rewrite Forall_forall in *. intros r Hr. by apply H, Hset. }
    apply not_Forall_Exists in Hrows; [|apply _].
    apply not_Forall_Exists in Hrows'; [|apply _].
    unfold remove_rows, m_bind, m_read.
    by rewrite (remove_rows_locate_raise _ _ HI Hrows),
               (remove_rows_locate_raise _ _ HI Hrows').
Qed.

Lemma remove_rows_set_witness :
  remove_rows [120; 3; 120; 50] script_removed = remove_rows [3; 50; 120] script_removed.
Proof.
  apply remove_rows_set.
  - exact script_removed_reachable.
  - intros r. rewrite !elem_of_cons, !elem_of_nil. tauto.
Defined.

(** ** Errors of [sum_rows] and [build_row_mask] *)

Lemma locate_physical_in self r :
  Inv self -> 0 <= r < total_n_rows self -> exists p, locate_physical self r = Ok p.
Proof.
  intros HI Hr. destruct (locate_relative_in _ _ HI Hr) as (i & s & n & Hloc & Hs & Hn & _).
  unfold locate_relative in Hloc. unfold locate_physical.
  destruct (_get_row_dataset self r) as [ds|]; simpl in *; [|done].
  destruct (ds =? -1); simpl in *; [done|].
  destruct (getitem (dataset_start_example self) ds) as [s'|]; simpl in *; [|done].
  injection Hloc as -> _.
  destruct (lookup_lt_is_Some_2 (dataset_removed_rows self) i) as [rem Hrem].
  { rewrite (inv_len_removed _ HI). destruct (Inv_lengths _ HI) as (<- & _).
    by eapply lookup_lt_Some. }
  rewrite (getitem_nat _ _ _ Hrem). simpl. by eexists.
Qed.

Lemma locate_physical_out self r :
  Inv self -> ~ (0 <= r < total_n_rows self) -> locate_physical self r = Raise IndexError.
Proof.
  intros HI Hr. pose proof (locate_relative_out _ _ HI Hr) as Hloc.
  unfold locate_relative in Hloc. unfold locate_physical.
  destruct (Inv_lengths _ HI) as (Hn & Hstop & Hstart).
  rewrite get_row_dataset_spec in * by done.
  rewrite (inv_start _ HI), (inv_stop _ HI) in *.
  rewrite find_range_offsets_None; [done | by apply Inv_n_rows_nonneg |].
  rewrite <- (inv_total _ HI). lia.
Qed.

(** X8. On a reachable object [sum_rows] raises [IndexError] as soon as one
    requested row lies outside [0, total_n_rows). *)
Theorem sum_rows_out_of_bounds (self : HDF5) (rows : list Z) :
  reachable self ->
  Exists (fun r => ~ (0 <= r < total_n_rows self)) rows ->
  sum_rows self rows = Raise IndexError.
Proof.
  intros Hreach Hrows. pose proof (reachable_Inv _ Hreach) as HI.
  assert (Hcols : 0 <= dataset_n_cols self).
  { pose proof (inv_n_cols _ HI) as Hc. pose proof (inv_datasets _ HI) as Hd.
    destruct (datasets self) as [|d ds]; [done|].
    inversion_clear Hc as [|?? Hd0 _]. lia. }
  unfold sum_rows, np_zeros. rewrite (proj2 (Z.ltb_ge _ _)) by lia. simpl.
  rewrite sum_rows_locate_pairs.
  rewrite (comprehension_raise _ _ IndexError); [done | |].
  - intros r _. destruct (decide (0 <= r < total_n_rows self)) as [Hr|Hr].
    + left. by apply locate_physical_in.
    + right. by apply locate_physical_out.
  - apply Exists_exists in Hrows as (r & Hr & Hout). exists r. split.
    + unfold np_sort. by rewrite merge_sort_Permutation.
    + by apply locate_physical_out.
Qed.

Lemma sum_rows_out_of_bounds_witness :
  sum_rows script_removed [4; 283; 7] = Raise IndexError.
Proof.
  apply sum_rows_out_of_bounds.
  - exact script_removed_reachable.
  - apply Exists_cons_tl, Exists_cons_hd. vm_compute. intros [_ H]. discriminate H.
Defined.

Lemma build_row_mask_step_raise w masks idx e :
  build_row_mask_step w masks idx = Raise e -> e = IndexError.
Proof.
  unfold build_row_mask_step.
  destruct (getitem masks (idx / w)) eqn:E; simpl.
  - apply setitem_raise.
  - intros [= <-]. by eapply getitem_raise.
Qed.

Lemma build_row_mask_step_length w masks idx masks' :
  build_row_mask_step w masks idx = Ok masks' -> length masks' = length masks.
Proof.
  unfold build_row_mask_step.
  destruct (getitem masks (idx / w)); simpl; [apply setitem_length | done].
Qed.

Lemma py_index_None (n : nat) (i : Z) :
  ~ (- Z.of_nat n <= i < Z.of_nat n) -> py_index n i = None.
Proof.
  intros Hi. unfold py_index.
  destruct (0 <=? i) eqn:E1, (i <? Z.of_nat n) eqn:E2; simpl;
    destruct (- Z.of_nat n <=? i) eqn:E3, (i <? 0) eqn:E4; simpl; try done; lia.
Qed.

(** X9. For a width that passes the check, a row whose word lies at or
    beyond the end of the mask makes [build_row_mask] raise [IndexError]:
    the mask is never extended. *)
Theorem build_row_mask_beyond_mask (rows : list Z) (row_count w : Z) :
  w ∈ [8; 16; 32; 64; 128] ->
  0 <= row_count ->
  Exists (fun r => (row_count + w - 1) / w <= r / w) rows ->
  build_row_mask rows row_count w = Raise IndexError.
Proof.
  intros Hw Hn Hrows.
  assert (Hpos : 0 < w).
  { repeat (apply elem_of_cons in Hw as [-> | Hw]); try lia. by apply elem_of_nil in Hw. }
  unfold build_row_mask. rewrite bool_decide_eq_true_2 by done. simpl.
  rewrite ceil_div_pos by done. simpl.
  set (N := (row_count + w - 1) / w) in *.
  assert (HN : 0 <= N) by (apply Z.div_pos; lia).
  assert (Hloop : forall masks, length masks = Z.to_nat N ->
            for_each rows (build_row_mask_step w) masks = Raise IndexError).
  { induction rows as [|r rows IH]; intros masks Hlen; [by apply Exists_nil in Hrows|].
    simpl. destruct (build_row_mask_step w masks r) as [masks'|e] eqn:E; simpl.
    - apply IH; [|by rewrite (build_row_mask_step_length _ _ _ _ E)].
      apply Exists_cons in Hrows as [Hr|Hrows]; [|done]. exfalso.
      unfold build_row_mask_step, getitem in E.
      rewrite py_index_None in E by lia. done.
    - by rewrite (build_row_mask_step_raise _ _ _ _ E). }
  by rewrite Hloop by (by rewrite length_replicate).
Qed.

Lemma build_row_mask_beyond_mask_witness :
  build_row_mask [63] 32 32 = Raise IndexError.
Proof.
  apply build_row_mask_beyond_mask.
  - do 2 right. by left.
  - lia.
  - apply Exists_cons_hd. by vm_compute.
Defined.

(** ** The constructor's outcomes *)

Lemma init_checks_pass (n_cols : Z) (dt : np_dtype) (l : list Dataset) :
  Forall (fun d => Z.of_nat (shape d).2 = n_cols /\ dtype d = dt) l ->
  for_each l (fun _ dataset =>
    if negb (bool_decide (Z.of_nat (shape dataset).2 = n_cols)) then Raise RuntimeError
    else if negb (bool_decide (dtype dataset = dt)) then Raise RuntimeError
    else Ok tt) tt = Ok tt.
Proof.
  induction 1 as [|d l [Hc Hd] _ IH]; simpl; [done|].
  by rewrite !bool_decide_eq_true_2 by done.
Qed.

Lemma init_checks_fail (n_cols : Z) (dt : np_dtype) (l : list Dataset) :
  Exists (fun d => Z.of_nat (shape d).2 <> n_cols \/ dtype d <> dt) l ->
  for_each l (fun _ dataset =>
    if negb (bool_decide (Z.of_nat (shape dataset).2 = n_cols)) then Raise RuntimeError
    else if negb (bool_decide (dtype dataset = dt)) then Raise RuntimeError
    else Ok tt) tt = Raise RuntimeError.
Proof.
  induction l as [|d l IH]; intros H; [by apply Exists_nil in H|]. simpl.
  destruct (decide (Z.of_nat (shape d).2 = n_cols)) as [Hc|Hc];
    [rewrite (bool_decide_eq_true_2 _ Hc) | by rewrite (bool_decide_eq_false_2 _ Hc)].
  destruct (decide (dtype d = dt)) as [Hd|Hd];
    [rewrite (bool_decide_eq_true_2 _ Hd) | by rewrite (bool_decide_eq_false_2 _ Hd)].
  simpl. apply IH. apply Exists_cons in H as [[?|?]|?]; done.
Qed.

Lemma getitem_0 {A} (l : list A) x : l !! 0%nat = Some x -> getitem l 0 = Ok x.
Proof. intros H. by apply (getitem_nat l 0%nat). Qed.

(** X10. The constructor succeeds on a non-empty list of datasets with one
    column count and one word type, uint32 or uint64, one row count per
    dataset, and chunked storage unless both block sizes are given; the
    object then has the sum of the row counts as its first dimension, the
    datasets' column count as its second, no removed row and the word width
    as pack size. *)
Theorem init_succeeds (ds : list Dataset) (ns : list Z) (rbs cbs : option Z)
    (first : Dataset) :
  ds !! 0%nat = Some first ->
  length ns = length ds ->
  Forall (fun d => (shape d).2 = (shape first).2 /\ dtype d = dtype first) ds ->
  dtype first = uint32 \/ dtype first = uint64 ->
  (rbs = None \/ cbs = None -> is_Some (chunks first)) ->
  exists self,
    __init__ ds ns rbs cbs = Ok self /\
    shape_of self = (py_sum ns, Z.of_nat (shape first).2) /\
    datasets self = ds /\
    dataset_removed_rows self = replicate (length ds) [] /\
    dataset_n_rows self = ns /\
    dataset_pack_size self = dtype_bits (dtype first).
Proof.
  intros Hfirst Hlen Hall Hdt Hchunks. unfold __init__.
  rewrite (getitem_0 _ _ Hfirst). simpl.
  assert (Hr : exists r, match rbs with
                 | Some _ => Ok None
                 | None => match chunks first with
                           | Some c => Ok (Some (Z.pos c.1))
                           | None => Raise TypeError
                           end
                 end = Ok r).
  { destruct rbs; [by eexists|]. destruct Hchunks as [c ->]; [by left|]. by eexists. }
  assert (Hc : exists r, match cbs with
                 | Some _ => Ok None
                 | None => match chunks first with
                           | Some c => Ok (Some (Z.pos c.2))
                           | None => Raise TypeError
                           end
                 end = Ok r).
  { destruct cbs; [by eexists|]. destruct Hchunks as [c ->]; [by right|]. by eexists. }
  destruct Hr as [r ->], Hc as [c ->]. simpl.
  rewrite init_checks_pass.
  2:{ apply Forall_drop. eapply Forall_impl; [exact Hall|]. simpl.
      intros d [-> ->]. done. }
  simpl. rewrite <- Hlen, init_stop_ok. simpl. rewrite init_start_ok. simpl.
  destruct Hdt as [Hdt|Hdt]; rewrite Hdt; simpl; eexists; by split_and!.
Qed.

Lemma init_succeeds_witness :
  exists self,
    __init__ [script_ds2; script_ds3] [70; 96] (Some 4) None = Ok self /\
    shape_of self = (166, 3).
Proof.
  destruct (init_succeeds [script_ds2; script_ds3] [70; 96] (Some 4) None script_ds2)
    as (self & Hinit & Hshape & _).
  - reflexivity.
  - reflexivity.
  - by repeat constructor.
  - by left.
  - intros _. by eexists.
  - exists self. split; [exact Hinit | exact Hshape].
Defined.

(** X11. A dataset after the first whose column count or word type differs
    from the first's makes the constructor raise [RuntimeError], when the
    block sizes could be determined. *)
Theorem init_mismatched_datasets (first : Dataset) (rest : list Dataset) (ns : list Z)
    (rbs cbs : option Z) :
  (rbs = None \/ cbs = None -> is_Some (chunks first)) ->
  Exists (fun d => (shape d).2 <> (shape first).2 \/ dtype d <> dtype first) rest ->
  __init__ (first :: rest) ns rbs cbs = Raise RuntimeError.
Proof.
  intros Hchunks Hbad. unfold __init__. simpl.
  assert (Hr : exists r, match rbs with
                 | Some _ => Ok None
                 | None => match chunks first with
                           | Some c => Ok (Some (Z.pos c.1))
                           | None => Raise TypeError
                           end
                 end = Ok r).
  { destruct rbs; [by eexists|]. destruct Hchunks as [c ->]; [by left|]. by eexists. }
  assert (Hc : exists r, match cbs with
                 | Some _ => Ok None
                 | None => match chunks first with
                           | Some c => Ok (Some (Z.pos c.2))
                           | None => Raise TypeError
                           end
                 end = Ok r).
  { destruct cbs; [by eexists|]. destruct Hchunks as [c ->]; [by right|]. by eexists. }
  destruct Hr as [r ->], Hc as [c ->]. simpl.
  rewrite drop_0, init_checks_fail; [done|].
  eapply Exists_impl; [exact Hbad|]. simpl. intros d [H|H]; [left; lia | by right].
Qed.

Lemma init_mismatched_datasets_witness :
  __init__ [script_ds1; script_ds2; ones_dataset] [96; 96; 288] None None
  = Raise RuntimeError.
Proof.
  apply init_mismatched_datasets.
  - intros _. by eexists.
  - apply Exists_cons_tl, Exists_cons_hd. left. simpl. lia.
Defined.

(** X12. With homogeneous datasets and one row count per dataset, a word
    type other than uint32 and uint64 makes the constructor raise
    [ValueError]. *)
Theorem init_unsupported_dtype (ds : list Dataset) (ns : list Z) (rbs cbs : option Z)
    (first : Dataset) :
  ds !! 0%nat = Some first ->
  length ns = length ds ->
  Forall (fun d => (shape d).2 = (shape first).2 /\ dtype d = dtype first) ds ->
  (rbs = None \/ cbs = None -> is_Some (chunks first)) ->
  dtype first <> uint32 -> dtype first <> uint64 ->
  __init__ ds ns rbs cbs = Raise ValueError.
Proof.
  intros Hfirst Hlen Hall Hchunks H32 H64. unfold __init__.
  rewrite (getitem_0 _ _ Hfirst). simpl.
  assert (Hr : exists r, match rbs with
                 | Some _ => Ok None
                 | None => match chunks first with
                           | Some c => Ok (Some (Z.pos c.1))
                           | None => Raise TypeError
                           end
                 end = Ok r).
  { destruct rbs; [by eexists|]. destruct Hchunks as [c ->]; [by left|]. by eexists. }
  assert (Hc : exists r, match cbs with
                 | Some _ => Ok None
                 | None => match chunks first with
                           | Some c => Ok (Some (Z.pos c.2))
                           | None => Raise TypeError
                           end
                 end = Ok r).
  { destruct cbs; [by eexists|]. destruct Hchunks as [c ->]; [by right|]. by eexists. }
  destruct Hr as [r ->], Hc as [c ->]. simpl.
  rewrite init_checks_pass.
  2:{ apply Forall_drop. eapply Forall_impl; [exact Hall|]. simpl.
      intros d [-> ->]. done. }
  simpl. rewrite <- Hlen, init_stop_ok. simpl. rewrite init_start_ok. simpl.
  by destruct (dtype first).
Qed.

Lemma init_unsupported_dtype_witness :
  __init__ [{| shape := (2%nat, 5%nat); dtype := uint16; chunks := None; words := fun _ _ => 0 |}]
    [10] (Some 1) (Some 5) = Raise ValueError.
Proof.
  eapply init_unsupported_dtype; try done.
  - by repeat constructor.
  - intros [?|?]; done.
Defined.

(** X13. When a block size is left out and the first dataset is not chunked,
    the constructor raises [TypeError]. *)
Theorem init_unchunked (ds : list Dataset) (ns : list Z) (rbs cbs : option Z)
    (first : Dataset) :
  ds !! 0%nat = Some first ->
  chunks first = None ->
  rbs = None \/ cbs = None ->
  __init__ ds ns rbs cbs = Raise TypeError.
Proof.
  intros Hfirst Hchunks Hnone. unfold __init__.
  rewrite (getitem_0 _ _ Hfirst). simpl. rewrite Hchunks.
  destruct rbs, cbs; simpl; try done. by destruct Hnone.
Qed.

Lemma init_unchunked_witness :
  __init__ [{| shape := (2%nat, 5%nat); dtype := uint32; chunks := None; words := fun _ _ => 0 |}]
    [10] (Some 1) None = Raise TypeError.
Proof. eapply init_unchunked; [done | done | by right]. Defined.

(** ** The empty request *)

Lemma init_n_cols ds ns rbs cbs self :
  __init__ ds ns rbs cbs = Ok self ->
  exists first, ds !! 0%nat = Some first /\ dataset_n_cols self = Z.of_nat (shape first).2.
Proof.
  intros H. unfold __init__ in H.
  bind_ok H. rename a into first.
  apply (getitem_nat_inv _ 0%nat) in E. exists first. split; [done|].
  bind_ok H. bind_ok H. bind_ok H. bind_ok H. bind_ok H. bind_ok H.
  by injection H as <-.
Qed.

Lemma remove_rows_calls_same_frame calls self :
  same_frame self (remove_rows_calls calls self).
Proof.
  revert self. induction calls as [|rows calls IH]; intros self; simpl.
  - apply same_frame_refl.
  - eapply same_frame_trans; [apply keeps_frame_remove_rows | apply IH].
Qed.

(** X14. On an object constructed without a column block size, and after
    any [remove_rows] calls on it, [sum_rows] of no rows returns a zero per
    column in the 8-bit type. *)
Theorem sum_rows_empty_request (ds : list Dataset) (ns : list Z) (rbs : option Z)
    (self : HDF5) (calls : list (list Z)) :
  __init__ ds ns rbs None = Ok self ->
  sum_rows (remove_rows_calls calls self) [] =
  Ok (uint8, replicate (Z.to_nat (dataset_n_cols self)) 0).
Proof.
  intros Hinit.
  destruct (init_block_sizes _ _ _ _ _ Hinit) as (first & Hfirst & _ & Hcbs & Hchunks).
  destruct (init_n_cols _ _ _ _ _ Hinit) as (first' & Hfirst' & Hcols).
  destruct Hchunks as [c Hc]; [by right|]. rewrite Hc in Hcbs. simpl in Hcbs.
  pose proof (remove_rows_calls_same_frame calls self) as Hfr.
  rewrite <- (frame_n_cols _ _ Hfr).
  apply (sum_rows_empty _ (Z.pos c.2)).
  - by rewrite (frame_col_block_size _ _ Hfr).
  - done.
  - rewrite (frame_n_cols _ _ Hfr), Hcols. lia.
Qed.

Lemma sum_rows_empty_request_witness :
  sum_rows (remove_rows_calls [[0; 31]; [500]; [7]] script_ac) [] = Ok (uint8, [0; 0; 0]).
Proof.
  exact (sum_rows_empty_request _ _ _ _ [[0; 31]; [500]; [7]] script_ac_init).
Defined.

(** ** The rows a removal records *)

Lemma locate_relative_exact self (i : nat) s n r :
  Inv self ->
  dataset_start_example self !! i = Some s ->
  dataset_n_rows self !! i = Some n ->
  s <= r < s + n ->
  locate_relative self r = Ok (Z.of_nat i, r - s).
Proof.
  intros HI Hs Hn Hr.
  pose proof (Inv_n_rows_nonneg _ HI) as Hnn.
  assert (Hs' : s = py_sum (take i (dataset_n_rows self))).
  { rewrite (inv_start _ HI), starts_from_lookup, Hn in Hs. simpl in Hs.
    injection Hs as <-. lia. }
  assert (Hbound : 0 <= r < total_n_rows self).
  { pose proof (py_sum_nonneg (take i (dataset_n_rows self))
                  ltac:(by apply Forall_take)).
    pose proof (py_sum_take_total (dataset_n_rows self) (S i) Hnn) as Hle.
    rewrite (py_sum_take_S _ _ _ Hn), <- (inv_total _ HI) in Hle. lia. }
  destruct (locate_relative_in _ _ HI Hbound) as (j & sj & nj & -> & Hsj & Hnj & Hrj).
  assert (Hsj' : sj = py_sum (take j (dataset_n_rows self))).
  { rewrite (inv_start _ HI), starts_from_lookup, Hnj in Hsj. simpl in Hsj.
    injection Hsj as <-. lia. }
  destruct (Nat.lt_trichotomy j i) as [Hlt|[->|Hgt]].
  - exfalso. pose proof (py_sum_take_le (dataset_n_rows self) (S j) i Hnn) as Hle.
    rewrite (py_sum_take_S _ _ _ Hnj) in Hle. lia.
  - do 2 f_equal. lia.
  - exfalso. pose proof (py_sum_take_le (dataset_n_rows self) (S i) j Hnn) as Hle.
    rewrite (py_sum_take_S _ _ _ Hn) in Hle. lia.
Qed.

(** The local list of a dataset after the first loop of [remove_rows]: the
    requested rows of its range, relative to its start. *)
Lemma remove_rows_locate_elem_of self rows new (i : nat) s n new_i x :
  Inv self ->
  Forall (fun r => 0 <= r < total_n_rows self) rows ->
  remove_rows_locate self rows = Ok new ->
  dataset_start_example self !! i = Some s ->
  dataset_n_rows self !! i = Some n ->
  new !! i = Some new_i ->
  x ∈ new_i <-> 0 <= x < n /\ s + x ∈ rows.
Proof.
  intros HI Hrows Hloc Hs Hn Hnew.
  rewrite remove_rows_locate_pairs in Hloc.
  destruct (comprehension _ rows) as [pairs|] eqn:Ep; simpl in Hloc; [|done].
  injection Hloc as <-.
  rewrite (elem_of_distribute _ _ _ _ x Hnew), (comprehension_elem_of _ _ _ _ Ep).
  split.
  - intros (r & Hr & Hf). rewrite Forall_forall in Hrows.
    destruct (locate_relative_in _ _ HI (Hrows r Hr)) as (j & sj & nj & Hf' & Hsj & Hnj & Hrj).
    rewrite Hf in Hf'. injection Hf' as Hij ->. apply Nat2Z.inj in Hij. subst j.
    rewrite Hs in Hsj. injection Hsj as <-. rewrite Hn in Hnj. injection Hnj as <-.
    split; [done|]. by replace (s + (r - s)) with r by lia.
  - intros [Hx Hin]. exists (s + x). split; [done|].
    rewrite (locate_relative_exact self i s n) by (done || lia).
    do 2 f_equal. lia.
Qed.

Lemma py_sum_insert (l : list Z) (i : nat) (x y : Z) :
  l !! i = Some x -> py_sum (<[i:=y]> l) = py_sum l - x + y.
Proof.
  revert i. induction l as [|a l IH]; intros [|i]; simpl; try done.
  - intros [= ->]. unfold py_sum. simpl. lia.
  - intros H. specialize (IH _ H). unfold py_sum in *. simpl. lia.
Qed.

(** X15. On a reachable object, removing all the current rows of a dataset
    that had no removed row leaves the dataset in the collection with a row
    count of zero, the other datasets' row counts as they were, and the total
    lower by the rows removed. *)
Theorem remove_rows_whole_dataset (self : HDF5) (i : nat) (s n : Z) :
  reachable self ->
  dataset_start_example self !! i = Some s ->
  dataset_n_rows self !! i = Some n ->
  dataset_removed_rows self !! i = Some [] ->
  exists self',
    remove_rows (seqZ s n) self = (Ok tt, self') /\
    datasets self' = datasets self /\
    dataset_n_rows self' = <[i:=0]> (dataset_n_rows self) /\
    total_n_rows self' = total_n_rows self - n.
Proof.
  intros Hreach Hs Hn Hrem. pose proof (reachable_Inv _ Hreach) as HI.
  pose proof (Inv_n_rows_nonneg _ HI) as Hnn.
  destruct (Inv_lengths _ HI) as (Hlen_n & _).
  pose proof (inv_len_initial _ HI) as Hlen_i.
  pose proof (inv_len_removed _ HI) as Hlen_r.
  assert (Hs' : s = py_sum (take i (dataset_n_rows self))).
  { pose proof Hs as Hs'. rewrite (inv_start _ HI), starts_from_lookup, Hn in Hs'.
    simpl in Hs'. injection Hs' as <-. lia. }
  assert (Hrows : Forall (fun r => 0 <= r < total_n_rows self) (seqZ s n)).
  { apply Forall_forall. intros r Hr. apply elem_of_seqZ in Hr.
    pose proof (py_sum_nonneg (take i (dataset_n_rows self))
                  ltac:(by apply Forall_take)).
    pose proof (py_sum_take_total (dataset_n_rows self) (S i) Hnn) as Hle.
    rewrite (py_sum_take_S _ _ _ Hn), <- (inv_total _ HI) in Hle. lia. }
  destruct (remove_rows_locate_ok _ _ HI Hrows) as (new & Hloc & Hnew).
  assert (Hlen_new : length new = length (datasets self)).
  { rewrite <- Hlen_n. symmetry. by eapply Forall2_length. }
  exists (remove_rows_result self new).
  split; [by apply remove_rows_ok|]. split; [done|].
  assert (Hrows' : dataset_n_rows (remove_rows_result self new)
                   = <[i:=0]> (dataset_n_rows self)).
  { simpl. apply list_eq_lookup_lt.
    { rewrite length_insert, !length_zip_with. lia. }
    rewrite length_insert. intros j Hj.
    destruct (lookup_lt_is_Some_2 (dataset_initial_n_rows self) j) as [init_j Hinit]; [lia|].
    destruct (lookup_lt_is_Some_2 (dataset_removed_rows self) j) as [old_j Hold]; [lia|].
    destruct (lookup_lt_is_Some_2 new j) as [new_j Hnew_j]; [lia|].
    destruct (lookup_lt_is_Some_2 (dataset_n_rows self) j) as [n_j Hn_j]; [lia|].
    destruct (lookup_lt_is_Some_2 (dataset_start_example self) j) as [s_j Hs_j].
    { destruct (Inv_lengths _ HI) as (_ & _ & ->). lia. }
    assert (Hn_j' : n_j = init_j - Z.of_nat (length old_j)).
    { rewrite (inv_n_rows _ HI), lookup_zip_with, Hinit in Hn_j. simpl in Hn_j.
      rewrite Hold in Hn_j. simpl in Hn_j. congruence. }
    rewrite lookup_zip_with, Hinit. simpl.
    rewrite lookup_zip_with, Hold. simpl. rewrite Hnew_j. simpl.
    pose proof (fun x => remove_rows_locate_elem_of self _ new j s_j n_j new_j x
                           HI Hrows Hloc Hs_j Hn_j Hnew_j) as Helem.
    destruct (decide (j = i)) as [->|Hne].
    - rewrite list_lookup_insert_eq by lia. f_equal.
      rewrite Hs in Hs_j. injection Hs_j as <-. rewrite Hn in Hn_j. injection Hn_j as <-.
      rewrite Hrem in Hold. injection Hold as <-. simpl in Hn_j'.
      assert (Hperm : merge_removed [] new_j ≡ₚ seqZ 0 n).
      { unfold merge_removed. case_bool_decide as Hpos.
        - apply NoDup_Permutation; [apply NoDup_sorted_set | apply NoDup_seqZ |].
          intros x. rewrite elem_of_sorted_set, app_nil_l, Helem, !elem_of_seqZ. lia.
        - destruct new_j as [|a new_j]; [|simpl in Hpos; lia].
          destruct (decide (0 < n)) as [Hn0|Hn0].
          + destruct (Helem 0) as [_ H0]. exfalso.
            eapply not_elem_of_nil, H0. rewrite elem_of_seqZ. lia.
          + rewrite seqZ_nil by lia. done. }
      apply Permutation_length in Hperm. rewrite length_seqZ in Hperm.
      pose proof (Forall_lookup_1 _ _ _ _ Hnn Hn). simpl in *. lia.
    - rewrite list_lookup_insert_ne by done. rewrite Hn_j. f_equal.
      assert (new_j = []) as ->.
      { destruct new_j as [|a new_j]; [done|]. exfalso.
        destruct (Helem a) as [[Ha Hin] _]; [by left|].
        apply elem_of_seqZ in Hin.
        assert (Hs_j' : s_j = py_sum (take j (dataset_n_rows self))).
        { pose proof Hs_j as H'. rewrite (inv_start _ HI), starts_from_lookup, Hn_j in H'.
          simpl in H'. injection H' as <-. lia. }
        destruct (Nat.lt_trichotomy j i) as [Hlt|[->|Hgt]]; [|done|].
        - pose proof (py_sum_take_le (dataset_n_rows self) (S j) i Hnn) as Hle.
          rewrite (py_sum_take_S _ _ _ Hn_j) in Hle. lia.
        - pose proof (py_sum_take_le (dataset_n_rows self) (S i) j Hnn) as Hle.
          rewrite (py_sum_take_S _ _ _ Hn) in Hle. lia. }
      rewrite merge_removed_nil by (simpl; lia). lia. }
  split; [done|].
  change (total_n_rows (remove_rows_result self new))
    with (py_sum (dataset_n_rows (remove_rows_result self new))).
  rewrite Hrows', (py_sum_insert _ _ _ _ Hn), (inv_total _ HI). lia.
Qed.

Lemma remove_rows_whole_dataset_witness :
  exists self',
    remove_rows (seqZ 96 96) script_ac = (Ok tt, self') /\
    datasets self' = datasets script_ac /\
    dataset_n_rows self' = <[1%nat:=0]> (dataset_n_rows script_ac) /\
    total_n_rows self' = total_n_rows script_ac - 96.
Proof.
  apply (remove_rows_whole_dataset script_ac 1 96 96);
    [exact script_ac_reachable | by vm_compute ..].
Defined.

(** ** [get_column] after a first removal *)

Lemma keep_from_app {A} (P : nat -> bool) (o : nat) (l1 l2 : list A) :
  keep_from P o (l1 ++ l2) = keep_from P o l1 ++ keep_from P (o + length l1) l2.
Proof.
  revert o. induction l1 as [|x l1 IH]; intros o; simpl.
  - by rewrite Nat.add_0_r.
  - rewrite IH. replace (S o + length l1)%nat with (o + S (length l1))%nat by lia.
    by destruct (P o).
Qed.

Lemma keep_from_ext {A} (P Q : nat -> bool) (o o' : nat) (l : list A) :
  (forall j, (j < length l)%nat -> P (o + j)%nat = Q (o' + j)%nat) ->
  keep_from P o l = keep_from Q o' l.
Proof.
  revert o o'. induction l as [|x l IH]; intros o o' H; simpl; [done|].
  pose proof (H 0%nat ltac:(simpl; lia)) as H0. rewrite !Nat.add_0_r in H0.
  rewrite H0, (IH (S o) (S o')); [done|].
  intros j Hj. specialize (H (S j) ltac:(simpl; lia)).
  by replace (o + S j)%nat with (S o + j)%nat in H by lia;
     replace (o' + S j)%nat with (S o' + j)%nat in H by lia.
Qed.

Lemma keep_from_all {A} (P : nat -> bool) (o : nat) (l : list A) :
  (forall j, (j < length l)%nat -> P (o + j)%nat = true) -> keep_from P o l = l.
Proof.
  revert o. induction l as [|x l IH]; intros o H; simpl; [done|].
  pose proof (H 0%nat ltac:(simpl; lia)) as H0. rewrite Nat.add_0_r in H0.
  rewrite H0, IH; [done|].
  intros j Hj. specialize (H (S j) ltac:(simpl; lia)).
  by replace (o + S j)%nat with (S o + j)%nat in H by lia.
Qed.

Lemma keep_from_none {A} (P : nat -> bool) (o : nat) (l : list A) :
  (forall j, (j < length l)%nat -> P (o + j)%nat = false) -> keep_from P o l = [].
Proof.
  revert o. induction l as [|x l IH]; intros o H; simpl; [done|].
  pose proof (H 0%nat ltac:(simpl; lia)) as H0. rewrite Nat.add_0_r in H0.
  rewrite H0, IH; [done|].
  intros j Hj. specialize (H (S j) ltac:(simpl; lia)).
  by replace (o + S j)%nat with (S o + j)%nat in H by lia.
Qed.

Lemma keep_from_fmap {A B} (f : A -> B) (P : nat -> bool) (o : nat) (l : list A) :
  keep_from P o (f <$> l) = f <$> keep_from P o l.
Proof.
  revert o. induction l as [|x l IH]; intros o; [done|].
  rewrite fmap_cons. simpl. rewrite IH. by destruct (P o).
Qed.

Lemma keep_from_below {A} (P : nat -> bool) (k : nat) (l : list A) :
  (forall p, P p = true -> (p < k)%nat) ->
  keep_from P 0 l = keep_from P 0 (take k l).
Proof.
  intros H. rewrite <- (take_drop k l) at 1.
  rewrite keep_from_app, (keep_from_none P _ (drop k l)); [by rewrite app_nil_r|].
  intros j Hj. rewrite length_drop in Hj. rewrite length_take.
  destruct (P _) eqn:E; [|done]. apply H in E. lia.
Qed.

Lemma keep_from_mjoin {A} (P : nat -> bool) (V V' : list (list A)) (o : nat) :
  length V = length V' ->
  (forall i v v', V !! i = Some v -> V' !! i = Some v' ->
     keep_from P (o + length (mjoin (take i V))) v = v') ->
  keep_from P o (mjoin V) = mjoin V'.
Proof.
  revert V' o. induction V as [|v V IH]; intros [|v' V'] o Hlen H; simpl in *; try done.
  rewrite keep_from_app. f_equal.
  - specialize (H 0%nat v v' eq_refl eq_refl). simpl in H. by rewrite Nat.add_0_r in H.
  - apply IH; [lia|]. intros i w w' Hw Hw'.
    specialize (H (S i) w w' Hw Hw'). simpl in H.
    rewrite length_app in H. by rewrite <- Nat.add_assoc.
Qed.

Lemma filter_zip_keep_from {A} (g : Z -> bool) (o : nat) (bits : list A) :
  (filter (fun p : A * bool => p.2 = true)
     (zip bits (g <$> seqZ (Z.of_nat o) (Z.of_nat (length bits))))).*1 =
  keep_from (fun p => g (Z.of_nat p)) o bits.
Proof.
  revert o. induction bits as [|x bits IH]; intros o; [done|].
  rewrite length_cons, Nat2Z.inj_succ, seqZ_cons by lia.
  rewrite Z.pred_succ, fmap_cons.
  replace (Z.succ (Z.of_nat o)) with (Z.of_nat (S o)) by lia.
  change (zip (x :: bits) (g (Z.of_nat o) :: (g <$> seqZ (Z.of_nat (S o)) (Z.of_nat (length bits)))))
    with ((x, g (Z.of_nat o)) :: zip bits (g <$> seqZ (Z.of_nat (S o)) (Z.of_nat (length bits)))).
  rewrite filter_cons. cbn [keep_from snd].
  destruct (g (Z.of_nat o)).
  - rewrite decide_True by done. rewrite fmap_cons. cbn [fst]. by rewrite IH.
  - rewrite decide_False by done. by rewrite IH.
Qed.

Lemma surviving_keep_from {A} (initial : Z) (removed : list Z) (bits : list A) :
  surviving initial removed bits =
  keep_from (fun p => bool_decide (Z.of_nat p < initial /\ Z.of_nat p ∉ removed)) 0 bits.
Proof.
  unfold surviving, keep_mask.
  exact (filter_zip_keep_from (fun p => bool_decide (p < initial /\ p ∉ removed)) 0 bits).
Qed.

Lemma column_parts_length self column (k : nat) :
  Inv self ->
  Z.of_nat (length (mjoin (take k (column_parts self column)))) =
  py_sum (take k (dataset_n_rows self)).
Proof.
  intros HI. destruct (Inv_lengths _ HI) as (Hlen_n & _).
  pose proof (inv_len_initial _ HI) as Hlen_i.
  pose proof (inv_len_removed _ HI) as Hlen_r.
  assert (HlenV : length (column_parts self column) = length (datasets self)).
  { unfold column_parts. rewrite !length_zip_with. lia. }
  induction k as [|k IH]; [done|].
  destruct (decide (k < length (datasets self))%nat) as [Hk|Hk].
  - destruct (lookup_lt_is_Some_2 (datasets self) k) as [d Hd]; [lia|].
    destruct (lookup_lt_is_Some_2 (dataset_initial_n_rows self) k) as [initial Hi]; [lia|].
    destruct (lookup_lt_is_Some_2 (dataset_removed_rows self) k) as [removed Hr]; [lia|].
    destruct (lookup_lt_is_Some_2 (dataset_n_rows self) k) as [n Hn]; [lia|].
    assert (HV : column_parts self column !! k =
                 Some (Z.b2z <$> surviving initial removed (physical_column self d column))).
    { unfold column_parts. rewrite lookup_zip_with, Hd. simpl.
      rewrite lookup_zip_with, Hi. simpl. by rewrite Hr. }
    destruct (Forall2_lookup_lr _ _ _ _ _ _ (inv_removed _ HI) Hi Hr) as (H0 & Hnd & Hrange).
    pose proof (Forall2_lookup_lr _ _ _ _ _ _ (inv_capacity _ HI) Hd Hi) as Hcap.
    simpl in Hcap.
    assert (Hpack : 0 <= dataset_pack_size self) by (destruct (inv_pack_size _ HI); lia).
    assert (Hn' : n = initial - Z.of_nat (length removed)).
    { rewrite (inv_n_rows _ HI), lookup_zip_with, Hi in Hn. simpl in Hn.
      rewrite Hr in Hn. simpl in Hn. congruence. }
    rewrite (take_S_r _ _ _ HV), join_app, length_app. simpl. rewrite app_nil_r.
    rewrite (py_sum_take_S _ _ _ Hn), length_fmap, Nat2Z.inj_add, IH.
    rewrite length_surviving; [lia | | done | done].
    rewrite length_physical_column. lia.
  - rewrite !take_ge in * by lia. done.
Qed.

(** What [get_column] returns on an object that satisfies the invariant. *)
Lemma get_column_parts self column :
  Inv self ->
  0 <= column < dataset_n_cols self ->
  get_column self column = Ok (mjoin (column_parts self column)).
Proof.
  intros HI Hc.
  destruct (Inv_lengths _ HI) as (Hlen_n & Hlen_stop & Hlen_start).
  pose proof (inv_len_initial _ HI) as Hlen_i.
  pose proof (inv_len_removed _ HI) as Hlen_r.
  pose proof (Inv_n_rows_nonneg _ HI) as Hnn.
  set (V := column_parts self column).
  assert (HlenV : length V = length (datasets self)).
  { unfold V, column_parts. rewrite !length_zip_with. lia. }
  assert (Htot : 0 <= total_n_rows self).
  { rewrite (inv_total _ HI). by apply py_sum_nonneg. }
  unfold get_column, np_zeros. rewrite (proj2 (Z.ltb_ge _ _)) by lia. simpl.
  destruct (for_each_enumerate
    (fun k res =>
       res = mjoin (take k V) ++
             replicate (Z.to_nat (total_n_rows self) - length (mjoin (take k V))) 0)
    (get_column_dataset self column) (datasets self)
    (replicate (Z.to_nat (total_n_rows self)) 0)) as (res & Hres & ->).
  - simpl. f_equal; lia.
  - intros k d res Hd ->.
    pose proof (lookup_lt_Some _ _ _ Hd) as Hk.
    pose proof (column_parts_length self column k HI) as Hpre. fold V in Hpre.
    destruct (lookup_lt_is_Some_2 (dataset_initial_n_rows self) k) as [initial Hi]; [lia|].
    destruct (lookup_lt_is_Some_2 (dataset_removed_rows self) k) as [removed Hr]; [lia|].
    destruct (lookup_lt_is_Some_2 (dataset_n_rows self) k) as [n Hn]; [lia|].
    assert (Hs : dataset_start_example self !! k = Some (py_sum (take k (dataset_n_rows self)))).
    { rewrite (inv_start _ HI), starts_from_lookup, Hn. simpl. f_equal; lia. }
    destruct (get_column_dataset_spec self column
      (mjoin (take k V) ++
       replicate (Z.to_nat (total_n_rows self) - length (mjoin (take k V))) 0)
      k d initial removed _ n HI Hc Hd Hi Hr Hs Hn) as [-> Hcount].
    assert (HV : V !! k = Some (Z.b2z <$> surviving initial removed (physical_column self d column))).
    { unfold V, column_parts. rewrite lookup_zip_with, Hd. simpl.
      rewrite lookup_zip_with, Hi. simpl. by rewrite Hr. }
    pose proof (py_sum_take_total (dataset_n_rows self) (S k) Hnn) as Hle.
    rewrite (py_sum_take_S _ _ _ Hn), <- (inv_total _ HI) in Hle.
    rewrite np_assign_slice_fill; [| done | by rewrite length_fmap | rewrite length_fmap; lia].
    eexists; split; [done|].
    rewrite (take_S_r _ _ _ HV), join_app. simpl. rewrite app_nil_r.
    rewrite <- app_assoc, !length_app, length_fmap.
    do 3 f_equal; lia.
  - pose proof (column_parts_length self column (length (datasets self)) HI) as Hlen.
    fold V in Hlen.
    rewrite <- HlenV, !take_ge in * by lia.
    rewrite <- (inv_total _ HI) in Hlen.
    rewrite Hres. f_equal.
    replace (Z.to_nat (total_n_rows self) - length (mjoin V))%nat with 0%nat by lia.
    simpl. by rewrite app_nil_r.
Qed.

Lemma remove_rows_success_bounds self rows s1 :
  Inv self -> remove_rows rows self = (Ok tt, s1) ->
  Forall (fun r => 0 <= r < total_n_rows self) rows.
Proof.
  intros HI Hrm.
  destruct (decide (Forall (fun r => 0 <= r < total_n_rows self) rows)) as [Hrows|Hrows];
    [done|].
  apply not_Forall_Exists in Hrows; [|apply _].
  pose proof (remove_rows_locate_raise _ _ HI Hrows) as Hloc.
  unfold remove_rows, m_bind, m_read in Hrm. by rewrite Hloc in Hrm.
Qed.

Lemma elem_of_merge_removed_nil new x :
  x ∈ merge_removed [] new <-> x ∈ new.
Proof.
  unfold merge_removed. case_bool_decide as Hpos.
  - by rewrite elem_of_sorted_set, app_nil_l.
  - destruct new; [done|]. simpl in Hpos. lia.
Qed.

(** The column after rows are removed from an object without removed rows:
    the column before, without the positions removed. *)
Lemma column_parts_remove_rows self rows new column :
  Inv self ->
  Forall (fun removed => removed = []) (dataset_removed_rows self) ->
  Forall (fun r => 0 <= r < total_n_rows self) rows ->
  remove_rows_locate self rows = Ok new ->
  mjoin (column_parts (remove_rows_result self new) column) =
  delete_rows rows (mjoin (column_parts self column)).
Proof.
  intros HI Hfresh Hrows Hloc. symmetry.
  destruct (Inv_lengths _ HI) as (Hlen_n & Hlen_stop & Hlen_start).
  pose proof (inv_len_initial _ HI) as Hlen_i.
  pose proof (inv_len_removed _ HI) as Hlen_r.
  pose proof (remove_rows_locate_length _ _ _ Hloc) as Hlen_new.
  apply keep_from_mjoin.
  { unfold column_parts. simpl. rewrite !length_zip_with. lia. }
  intros i v v' Hv Hv'.
  pose proof (column_parts_length self column i HI) as Hpre.
  unfold column_parts in Hv, Hv'. simpl in Hv'.
  apply lookup_zip_with_Some in Hv as (d & [initial removed] & -> & Hd & Hir).
  apply lookup_zip_with_Some in Hv' as (d' & [initial' removed'] & -> & Hd' & Hir').
  apply lookup_zip_with_Some in Hir as (? & ? & [= <- <-] & Hi & Hr).
  apply lookup_zip_with_Some in Hir' as (? & ? & [= <- <-] & Hi' & Hr').
  apply lookup_zip_with_Some in Hr' as (old & new_i & -> & Hold & Hnew).
  rewrite Hd in Hd'. injection Hd' as <-. rewrite Hi in Hi'. injection Hi' as <-.
  rewrite Hr in Hold. injection Hold as <-.
  rewrite Forall_forall in Hfresh.
  assert (removed = []) as -> by (apply Hfresh; by eapply list_elem_of_lookup_2).
  change (physical_column (remove_rows_result self new) d column)
    with (physical_column self d column).
  simpl fst. simpl snd. set (bits := physical_column self d column).
  destruct (lookup_lt_is_Some_2 (dataset_n_rows self) i) as [n Hn].
  { apply lookup_lt_Some in Hd. lia. }
  assert (Hn' : n = initial).
  { rewrite (inv_n_rows _ HI), lookup_zip_with, Hi in Hn. simpl in Hn.
    rewrite Hr in Hn. simpl in Hn. injection Hn as <-. lia. }
  subst n.
  assert (Hs : dataset_start_example self !! i = Some (py_sum (take i (dataset_n_rows self)))).
  { rewrite (inv_start _ HI), starts_from_lookup, Hn. simpl. f_equal; lia. }
  destruct (Forall2_lookup_lr _ _ _ _ _ _ (inv_removed _ HI) Hi Hr) as (H0 & _).
  rewrite !surviving_keep_from.
  rewrite (keep_from_below _ (Z.to_nat initial) bits) by (intros p ?%bool_decide_eq_true; lia).
  rewrite (keep_from_below (fun p => bool_decide (_ /\ _ ∉ merge_removed _ _))
             (Z.to_nat initial) bits) by (intros p ?%bool_decide_eq_true; lia).
  rewrite (keep_from_all _ 0 (take _ bits)).
  2:{ intros j Hj. rewrite length_take in Hj. apply bool_decide_eq_true_2.
      split; [lia | apply not_elem_of_nil]. }
  rewrite keep_from_fmap. f_equal. apply keep_from_ext.
  intros j Hj. rewrite length_take in Hj. apply bool_decide_ext.
  rewrite elem_of_merge_removed_nil.
  rewrite (remove_rows_locate_elem_of self rows new i _ initial new_i (Z.of_nat (0 + j))
             HI Hrows Hloc Hs Hn Hnew).
  replace (Z.of_nat (0 + length (mjoin (take i (column_parts self column))) + j))
    with (py_sum (take i (dataset_n_rows self)) + Z.of_nat (0 + j)) by lia.
  assert (Hj' : 0 <= Z.of_nat (0 + j) < initial) by lia.
  unfold not. tauto.
Qed.

(** X16. On a reachable object without removed rows, after a successful
    [remove_rows(rows)] a column read with [get_column] is the column read
    before the call without the positions in [rows]. *)
Theorem get_column_after_first_removal (self self' : HDF5) (rows : list Z) (column : Z) :
  reachable self ->
  Forall (fun removed => removed = []) (dataset_removed_rows self) ->
  remove_rows rows self = (Ok tt, self') ->
  0 <= column < dataset_n_cols self ->
  exists before,
    get_column self column = Ok before /\
    get_column self' column = Ok (delete_rows rows before).
Proof.
  intros Hreach Hfresh Hrm Hc. pose proof (reachable_Inv _ Hreach) as HI.
  pose proof (remove_rows_success_bounds _ _ _ HI Hrm) as Hrows.
  destruct (remove_rows_success _ _ _ HI Hrm) as (new & Hloc & Hnew & ->).
  exists (mjoin (column_parts self column)). split; [by apply get_column_parts|].
  rewrite get_column_parts; [| by apply remove_rows_result_Inv | done].
  f_equal. by apply column_parts_remove_rows.
Qed.

Lemma get_column_after_first_removal_witness :
  exists before,
    get_column script_ac 1 = Ok before /\
    get_column script_removed 1 = Ok (delete_rows [0; 31; 97; 145; 234] before).
Proof.
  apply (get_column_after_first_removal script_ac script_removed [0; 31; 97; 145; 234] 1).
  - exact script_ac_reachable.
  - by repeat constructor.
  - by vm_compute.
  - by vm_compute.
Defined.

(** ** Row counts that do not match the datasets *)

Lemma for_each_app {A S} (l1 l2 : list A) (body : S -> A -> result S) (s : S) :
  for_each (l1 ++ l2) body s = (s' <- for_each l1 body s ;; for_each l2 body s').
Proof.
  revert s. induction l1 as [|x l1 IH]; intros s; simpl; [done|].
  destruct (body s x) as [s'|e]; simpl; [apply IH | done].
Qed.

Lemma init_stop_body_ok (n : nat) (ns stop : list Z) (k : nat) (n_k : Z) :
  length stop = n -> (k < n)%nat -> ns !! k = Some n_k ->
  exists stop',
    (previous_dataset_stop <-
       (if bool_decide (k = 0%nat) then Ok 0 else getitem stop (Z.of_nat k - 1)) ;;
     n_i <- getitem ns (Z.of_nat k) ;;
     setitem stop (Z.of_nat k) (previous_dataset_stop + n_i)) = Ok stop' /\
    length stop' = n.
Proof.
  intros Hlen Hk Hn.
  assert (Hprev : exists p,
            (if bool_decide (k = 0%nat) then Ok 0 else getitem stop (Z.of_nat k - 1)) = Ok p).
  { case_bool_decide; [by eexists|].
    destruct (lookup_lt_is_Some_2 stop (k - 1)) as [p Hp]; [lia|]. exists p.
    replace (Z.of_nat k - 1) with (Z.of_nat (k - 1)) by lia. by apply getitem_nat. }
  destruct Hprev as [p ->]. simpl. rewrite (getitem_nat _ _ _ Hn). simpl.
  rewrite setitem_nat by lia. eexists. split; [done|]. by rewrite length_insert.
Qed.

Lemma init_stop_short (n : nat) (ns : list Z) :
  (length ns < n)%nat -> init_stop n ns = Raise IndexError.
Proof.
  intros Hlen. unfold init_stop.
  replace n with (length ns + S (n - S (length ns)))%nat at 1 by lia.
  rewrite seq_app, for_each_app.
  destruct (for_each_seq_inv (fun _ stop => length stop = n)
    (fun stop i =>
      previous_dataset_stop <-
        (if bool_decide (i = 0%nat) then Ok 0 else getitem stop (Z.of_nat i - 1)) ;;
      n_i <- getitem ns (Z.of_nat i) ;;
      setitem stop (Z.of_nat i) (previous_dataset_stop + n_i))
    0%nat (length ns) (replicate n 0)) as (stop & -> & Hstop).
  - by rewrite length_replicate.
  - intros k stop Hk Hs.
    destruct (lookup_lt_is_Some_2 ns k) as [n_k Hn_k]; [lia|].
    by apply (init_stop_body_ok n ns stop k n_k); [|lia|].
  - simpl.
    assert (Hprev : exists p,
              (if bool_decide (length ns = 0%nat) then Ok 0
               else getitem stop (Z.of_nat (length ns) - 1)) = Ok p).
    { case_bool_decide; [by eexists|].
      destruct (lookup_lt_is_Some_2 stop (length ns - 1)) as [p Hp]; [lia|]. exists p.
      replace (Z.of_nat (length ns) - 1) with (Z.of_nat (length ns - 1)) by lia.
      by apply getitem_nat. }
    destruct Hprev as [p ->]. simpl. by rewrite getitem_nat_ge.
Qed.

(** X17. With homogeneous datasets and block sizes that can be determined,
    fewer row counts than datasets make the constructor raise [IndexError]:
    the offsets are computed dataset by dataset and the row count of a
    dataset without one is read. *)
Theorem init_too_few_row_counts (ds : list Dataset) (ns : list Z) (rbs cbs : option Z)
    (first : Dataset) :
  ds !! 0%nat = Some first ->
  (length ns < length ds)%nat ->
  Forall (fun d => (shape d).2 = (shape first).2 /\ dtype d = dtype first) ds ->
  (rbs = None \/ cbs = None -> is_Some (chunks first)) ->
  __init__ ds ns rbs cbs = Raise IndexError.
Proof.
  intros Hfirst Hlen Hall Hchunks. unfold __init__.
  rewrite (getitem_0 _ _ Hfirst). simpl.
  assert (Hr : exists r, match rbs with
                 | Some _ => Ok None
                 | None => match chunks first with
                           | Some c => Ok (Some (Z.pos c.1))
                           | None => Raise TypeError
                           end
                 end = Ok r).
  { destruct rbs; [by eexists|]. destruct Hchunks as [c ->]; [by left|]. by eexists. }
  assert (Hc : exists r, match cbs with
                 | Some _ => Ok None
                 | None => match chunks first with
                           | Some c => Ok (Some (Z.pos c.2))
                           | None => Raise TypeError
                           end
                 end = Ok r).
  { destruct cbs; [by eexists|]. destruct Hchunks as [c ->]; [by right|]. by eexists. }
  destruct Hr as [r ->], Hc as [c ->]. simpl.
  rewrite init_checks_pass.
  2:{ apply Forall_drop. eapply Forall_impl; [exact Hall|]. simpl.
      intros d [-> ->]. done. }
  simpl. by rewrite init_stop_short.
Qed.

Lemma init_too_few_row_counts_witness :
  __init__ [script_ds1; script_ds2; script_ds3] [96; 96] None None = Raise IndexError.
Proof.
  apply (init_too_few_row_counts _ _ _ _ script_ds1).
  - reflexivity.
  - simpl. lia.
  - by repeat constructor.
  - intros _. by eexists.
Defined.

Lemma init_stop_take (n : nat) (ns : list Z) :
  (n <= length ns)%nat -> init_stop n ns = Ok (stops_from 0 (take n ns)).
Proof.
  intros Hlen.
  assert (Hn : length (take n ns) = n) by (rewrite length_take; lia).
  rewrite <- (init_stop_ok (take n ns)), Hn. unfold init_stop.
  apply for_each_ext_in. intros i stop Hi. apply elem_of_seq in Hi.
  destruct (if bool_decide (i = 0%nat) then Ok 0 else getitem stop (Z.of_nat i - 1));
    simpl; [|done].
  destruct (lookup_lt_is_Some_2 ns i) as [n_i Hn_i]; [lia|].
  rewrite (getitem_nat _ _ _ Hn_i), (getitem_nat (take n ns) i n_i); [done|].
  rewrite lookup_take_lt by lia. done.
Qed.

(** X18. The constructor does not compare the number of row counts with the
    number of datasets: with homogeneous datasets of a supported word type
    and more row counts than datasets it succeeds, the offsets cover the row
    counts of the datasets only, and the first dimension of [shape] is the
    sum of all the row counts. *)
Theorem init_surplus_row_counts (ds : list Dataset) (ns : list Z) (rbs cbs : option Z)
    (first : Dataset) :
  ds !! 0%nat = Some first ->
  (length ds < length ns)%nat ->
  Forall (fun d => (shape d).2 = (shape first).2 /\ dtype d = dtype first) ds ->
  dtype first = uint32 \/ dtype first = uint64 ->
  (rbs = None \/ cbs = None -> is_Some (chunks first)) ->
  exists self,
    __init__ ds ns rbs cbs = Ok self /\
    (shape_of self).1 = py_sum ns /\
    dataset_stop_example self = stops_from 0 (take (length ds) ns) /\
    dataset_start_example self = starts_from 0 (take (length ds) ns).
Proof.
  intros Hfirst Hlen Hall Hdt Hchunks. unfold __init__.
  rewrite (getitem_0 _ _ Hfirst). simpl.
  assert (Hr : exists r, match rbs with
                 | Some _ => Ok None
                 | None => match chunks first with
                           | Some c => Ok (Some (Z.pos c.1))
                           | None => Raise TypeError
                           end
                 end = Ok r).
  { destruct rbs; [by eexists|]. destruct Hchunks as [c ->]; [by left|]. by eexists. }
  assert (Hc : exists r, match cbs with
                 | Some _ => Ok None
                 | None => match chunks first with
                           | Some c => Ok (Some (Z.pos c.2))
                           | None => Raise TypeError
                           end
                 end = Ok r).
  { destruct cbs; [by eexists|]. destruct Hchunks as [c ->]; [by right|]. by eexists. }
  destruct Hr as [r ->], Hc as [c ->]. simpl.
  rewrite init_checks_pass.
  2:{ apply Forall_drop. eapply Forall_impl; [exact Hall|]. simpl.
      intros d [-> ->]. done. }
  simpl. rewrite init_stop_take by lia. simpl.
  assert (Hn : length (take (length ds) ns) = length ds) by (rewrite length_take; lia).
  pose proof (init_start_ok (take (length ds) ns)) as Hstart.
  rewrite Hn in Hstart. rewrite Hstart. simpl.
  destruct Hdt as [Hdt|Hdt]; rewrite Hdt; simpl; eexists; by split_and!.
Qed.

Lemma init_surplus_row_counts_witness :
  exists self,
    __init__ [script_ds1; script_ds2] [96; 96; 50] None None = Ok self /\
    (shape_of self).1 = 242 /\
    dataset_stop_example self = [96; 192].
Proof.
  destruct (init_surplus_row_counts [script_ds1; script_ds2] [96; 96; 50] None None script_ds1)
    as (self & Hinit & Hshape & Hstop & _).
  - reflexivity.
  - simpl. lia.
  - by repeat constructor.
  - by left.
  - intros _. by eexists.
  - exists self. split; [exact Hinit|]. split; [exact Hshape | exact Hstop].
Defined.
